(* ===== verification/_CoqProject ===== *)
-Q . S2P
Prelude.v
PyStr.v
Exec.v
Tools.v
Convert.v
Lines.v
Batch.v
Spec.v
History.v
Protocol.v
Rerun.v
