(* ===== verification/Prelude.v ===== *)
(** * IOC_Config documentation converter: a verification development

    ** The program

    [src/convert_to_pdf.py] is a batch script of 107 lines.  It changes to
    the documentation directory, and for each of three hard-coded pairs
    (Markdown source, PDF to produce) it

    - tests that the source exists ([Path.exists], line 81),
    - calls [markdown_to_pdf] (lines 10-58), which starts the [pandoc]
      converter as a child process to write an intermediate HTML file
      (line 31), asks the [weasyprint] library to render that file to PDF
      (lines 41-44) and removes the HTML file (line 48); the renderer and
      the removal stand in a [try] with two [except] clauses
      ([ImportError], then [Exception]) that turn failures into a message
      and [False],
    - counts the job as successful or failed,

    then prints a summary with the two counts and a listing of the PDFs
    with their sizes in megabytes (lines 93-104).  Everything the script
    itself does is control flow, string building, printing and five calls
    to the operating system; what the two tools do is outside the
    repository.  What an observer sees of a run is its trace: the lines
    it prints and the calls it makes, in the order in which they happen.

    ** The development, file by file

    - [Prelude] (this file): the libraries, the scope [py_scope], the hint
      bases [wp] (rewriting with weakest-precondition rules), [pyauto]
      (resolution with the preservation lemmas) and [pystr] (rewriting with
      string equations), the lemmas on byte strings the other files share,
      and [eventually], the states every run of a machine reaches.
    - [PyStr]: the string and number operations of Python the script
      uses.  [Replace.replace] is [str.replace] (line 16), proved equal to
      the reference relation [Replace.replaced]; [Format.repeat] is
      ["=" * 60]; [Format.str_of_nat] prints the counters;
      [Format.round53] is the division of line 101 (an integer as a
      double), [Format.fmt_2f] and [Format.round_half_even] the [:.2f]
      format of line 102.
    - [Exec]: what a statement of the script does.  [world] is the state
      the script can observe or change: current directory, existing
      directories, files (content by directory and relative path), and
      the trace, one [Event.t] for each call of [print] ([Event.Out]) and
      for each call to the system and to the tools ([Event.Call] of a
      [Call.t], returned or raised), the oldest first.  Standard output
      [out] and the history of calls [calls] are the two projections of
      the trace.  [M] is the state-and-exception monad over [world];
      [try_except] and [for_each] are [try]/[except] and [for]; [Exn] is
      the exception hierarchy that decides which clause fires; [print],
      [path_exists], [stat_size], [os_remove] and [os_chdir] are the five
      system calls, [import_module] the import of a module of the
      standard library.  The file also holds the three proof instruments
      of the development: [wp] with the tactic [wp_go] (symbolic
      execution), [preserves] with [pres] (two-state invariants, rule by
      rule: [trace_grows], [same_cwd], [same_dirs], [touches],
      [removes], [keeps]), [returns] with [rets] (computations that never
      raise).
    - [Tools]: the two external tools as an interface.  The class [Tools]
      says what a toolset is: any functions of the command line or paths,
      the directory and the files; [subprocess_run], [import_weasyprint]
      and [HTML_write_pdf] are lines 31, 41 and 44 over a toolset.
      [ToolsContract] is what well-behaved tools promise (they write their
      output file and nothing else; a renderer that returns has written a
      non-empty PDF), [RenderAtomic] the further assumption that a
      renderer that raises has written nothing, [ToolsTame] what tools
      promise that cannot make the script crash.  All three are
      assumptions on programs outside the repository: the script
      enforces none of them.  [Toolsets] has instances that behave in
      each of the ways the script has a branch for, and the world
      [Toolsets.sample].
    - [Convert]: [markdown_to_pdf], statement by statement, with [Msg]
      (its nine messages), [html_file_of] (line 16) and [cmd_html] (lines
      18-28).  Two specifications of it: the decision tree
      [convert_outcome] (a function) and the rules [converts] (a
      relation); [conversion_trace] is the trace of a conversion that
      runs to its end, six lines and four calls, and [conversion_calls]
      its calls.
    - [Lines]: the lines the driver prints, in the module [Report], with
      the size in megabytes of line 101 ([Report.size_mb_hundredths]).
    - [Batch]: [main] (lines 61-104) as [main_on] over a directory and a
      list of documents, with the loop bodies [convert_one] and
      [report_pdf], [main] itself at the hard-coded directory and list,
      [imports] (lines 6-8), [script] (lines 107-108), [module_body] (the
      file from top to bottom), and the first loop as the machine
      [loop_step].
    - [Spec]: the batch in the terms of the specification, with
      [ConversionResult]s instead of counters and no output: [job] and
      [run_jobs], functions of the files, and the machine [bstep].  The
      data are those of the specification; the functions are the code
      (line 81 and lines 31-58, lines 80-91) with the trace left out,
      and follow the code where the specification says otherwise.
    - [History]: a run read off its trace: [commands] (the child
      processes started), [present] (the documents whose source exists),
      [intermediates] (their HTML files), [attempted] (the jobs of the
      specification that got past the test for their source),
      [job_blocks] (the traces one turn of the first loop can leave,
      given the result of its job), [cut_blocks] (those of a turn that an
      exception ends) and [summary_trace].
    - [Protocol]: the order of the calls of [main], stated twice: as
      sequences ([batch_calls]: the change of directory, one of the
      [turns] of each document, one of its [listings]; [legal]: the
      beginnings of these) and as an automaton ([phase], [next],
      [monitor]) that reads a history call by call, with its verdicts
      [accepts] and [complete]; [call_budget] is the number of calls a
      batch can make.
    - [Rerun]: the batch with the tools of [Toolsets.ideal] as a function
      of the files ([build_one], [build]), the documents for which
      nothing is left to do ([settled]) and the names for which a second
      run finds every document so ([apart]).

    ** What is proved

    - The converter ([Convert]).  [markdown_to_pdf_run]: the function is
      its decision tree.  [markdown_to_pdf_converts]: it ends with a result
      in a world exactly when the rules derive it.  From these: when it
      returns [True] ([markdown_to_pdf_true_iff]), which exceptions can
      leave it ([markdown_to_pdf_escape]), that every [False] is reported
      ([markdown_to_pdf_false_reported]), that a failed clean-up is a
      failure ([convert_cleanup_failure]), its invariants
      ([markdown_to_pdf_invariants]), its trace ([markdown_to_pdf_trace]:
      a beginning of [conversion_trace], the converter and the renderer
      called between the line that announces the step and the line that
      confirms it, then one error line when the answer is [False];
      anything after the converter only when it has exited with status
      0) and the order of its calls
      ([markdown_to_pdf_calls]); and with [ToolsContract]: which files it
      can change ([convert_frame]), what [True] guarantees
      ([convert_true_pdf_exists], [convert_true_html_removed]), that the
      answer is that of the tools ([convert_true_iff_tools]: the clean-up
      cannot fail), what a failure leaves ([convert_html_failed_no_pdf],
      [convert_failed_html_left]: the intermediate file of a failed
      rendering stays).  On names: [html_file_of_md],
      [html_file_of_absent], [html_file_of_replaced], and the consequence
      [convert_source_destroyed].
    - The driver ([Batch]).  [main_on_run]: the driver around its first
      loop.  [loop_invariant]: what holds in every state the first loop
      reaches, by induction on its runs.  [main_on_summary]: the counts
      add up and the trace ends with the summary and the events of the
      listing, no tool being called after the summary.
      [main_on_returns]: with [ToolsTame], no error ends the batch.
      [main_on_missing_dir], [main_on_spawn_raises]: the two ways it does
      end early.  [main_on_frame] and [main_sources_kept]: with
      [ToolsContract], only the artifacts of the documents change, so the
      sources survive.  [main_on_world_ok]: the world stays well formed
      (a lemma on the calls, which every program made of them satisfies).
      [main_on_stale_pdf]: the listing shows a PDF of an earlier run as
      generated.  [main_on_partial_pdf]: what a renderer has written
      before it raised stays and is listed as generated.  [listing_run]: the listing.  [module_body_run]: the
      file imported and the file executed.  [loop_eventually_done]: with
      [ToolsTame] every run of the first loop reaches the end of the
      list, each document tested for and counted;
      [loop_stuck_without_converter]: not so without.
    - The lines ([Lines]).  [summary_inj] and [present_line_inj]: the
      summary and the listing can be read back.  The theorems on
      [Report.size_mb_hundredths]: what the size printed says of the size
      of the file.
    - Refinement ([Spec]).  [main_on_refines]: forgetting the trace,
      [main_on] computes [run_jobs].
      [main_on_summary_tally]: the counts printed are the numbers of
      [Succeeded] and of other results.  [loop_simulation]: the loop of
      the script and the machine of the specification simulate each other
      step for step.  [main_on_succeeded]: with [ToolsContract] and names
      that are [separate], every job that succeeded has its PDF and no
      intermediate file at the end of the batch; [main_on_failed_kept]:
      with [RenderAtomic] besides, every job that did not succeed has
      left what was under its PDF name.  [exit_ok_iff]: when the process ends with status 0.  The
      two scenarios of the specification, evaluated, with their traces.
    - The trace ([History]).  [main_on_blocks]: the trace of a batch
      that returns is the banner, one block per job in list order, the
      summary and the listing, and the block of a job shows its result:
      the warning for [SourceMissing], a complete conversion for
      [Succeeded], the line that is the reason for [ConversionFailed].
      [main_on_cut]: the trace of a batch that an exception ends is the
      banner, the blocks of the jobs that ended and the block of the job
      that raised, cut after the call that raised; nothing is printed
      after it.
      [main_on_commands_results]: the converter is started once for each
      job of the specification whose result is not [SourceMissing], in
      list order, whatever the tools do.  [main_on_commands]: with
      [ToolsContract], these are the documents whose source existed
      before the batch.  [main_on_removes]: nothing but intermediate
      files is ever deleted.
    - The order of the calls ([Protocol]).  [monitor_decides]: the
      automaton accepts the beginnings of the histories of a batch and no
      others, and finds complete those of a batch that returns; this
      lemma relates the two statements of the order to each other, the
      next ones relate the script to them.
      [main_on_conforms]: the calls of every run of [main_on] are
      accepted, for every toolset and from every world, and complete when
      the run returns.  [main_on_conversion_order]: a call to a tool or
      to [os.remove] comes right after the test for the source of a
      document of the list and the earlier calls of the same conversion
      ([legal_stat]: and the size of a PDF is asked for right after the
      test for it).
      [main_on_calls_bound]: a batch of [n] documents makes at most
      [1 + 7 * n] calls; [call_budget_reached]: the bound is met.
    - The batch run again ([Rerun]), for the one toolset
      [Toolsets.ideal].  [ideal_main_on]: with these tools [main_on]
      returns and leaves the files of [build].
      [main_on_rerun]: over names that are [apart], as those of the
      hard-coded list are ([documents_apart]), a second run changes no
      file.  [main_on_from_anywhere]: the directory the script is
      started in plays no part.

    Theorems with hypotheses are applied to the toolsets of [Toolsets] in
    the lemmas named [..._witness].

    ** Bounds and fuel

    - [Exn.subclass] climbs the hierarchy [Exn.depth] = 3 steps: no class
      of [Exn.cls] is deeper ([subclass_upto_depth] shows that more fuel
      changes nothing, [subclass_rtc] that the result is the
      reflexive-transitive closure of [Exn.parent]).
    - [Replace.replace_go] is structural in the string: a counter skips
      the bytes of a match.  [replaced_complete_upto] uses the length of
      the string as the measure of its induction.
    - [monitor] is structural in the history and [build] in the list of
      documents; [call_budget] is [1 + 7 * n] for [n] documents: one
      change of directory, at most five calls per turn of the first loop
      and two per turn of the second.
    - [for_each] is structural in the list; every computation is a total
      function of the world, so [wp] is total correctness and a theorem
      [m w = ...] says that [m] ends, given that each call to a tool
      comes back.  [eventually] is inductive: a state it accepts is
      reached after finitely many steps.
    - File sizes are natural numbers without bound.  Python divides two
      integers into the double nearest to the quotient: [Format.round53]
      keeps 53 significant bits, ties to even, which is exact below 2^53
      ([round53_exact]) and off by at most 1024 bytes below 2^64
      ([round53_nearest], [round53_ulp64]).  The format then rounds the
      double half to even at the second decimal.  The lines of
      [present_line_samples] are those Python prints.

    ** What is not modelled

    - The tools themselves: Markdown parsing, HTML layout, PDF writing.
      They are arbitrary functions behind [Tools], and functions only:
      a call to a tool returns or raises, and does the same when it is
      given the same arguments, directory and files.  A child process
      that never comes back (line 31 sets no timeout) or a rendering
      that never ends is therefore no behaviour of the model.  For the
      theorems on traces, calls and files this loses nothing: up to the
      call that does not come back, such a run is the run in which that
      call raises an exception that no clause catches, and these
      theorems hold for every toolset.  The theorems that say that the
      script returns ([main_on_returns], [loop_eventually_done],
      [main_on_rerun]) are about exceptions only: they assume tools that
      come back.
    - The file system beyond a map from (directory, relative path) to
      content: no directories as entries, links, permissions or path
      normalisation; paths are compared as byte strings.  The script
      meets such entries only when a name of its list is a directory or
      a file it may not read or delete; what [os.remove] raises then
      ([IsADirectoryError], [PermissionError] or [OSError]) and what
      [st_size] is for a directory depend on the platform, and the source
      gives no ground for choosing.  [path_exists] is true for the files
      of the map only and never raises, where [Path.exists] is true for
      a directory as well and raises [PermissionError] under a directory
      that may not be searched.  An error of [os.remove] of that
      kind would take the branch of [except Exception], as the error for
      a missing file does in the model; an error of [stat] on line 101,
      which stands outside any [try], is not modelled.
    - Failures of [print] (closed or mis-encoded standard output), signals
      and interruption between statements; an interrupt during a tool call
      is the exception [KeyboardInterrupt] raised by that call.
    - What the tools write to the terminal: the converter runs with its
      output captured (line 31) and the renderer is taken to print
      nothing, so the trace has the lines of the script only.
    - The text of the traceback and the exact non-zero status when an
      exception leaves [main]; [exit_ok] tells only zero from non-zero.
    - A failing import of [subprocess], [os] or [pathlib] (lines 6-8):
      the standard library is taken to be installed, so [import_module]
      always returns.
    - Strings are byte strings (UTF-8); [str.replace] with the ASCII
      needle [".md"] finds the same occurrences on bytes as on code
      points.

    ** This file

    The libraries every file loads, the scope and the hint bases, the
    equations of string concatenation and prefix test, and [eventually]
    with its lemmas. *)

From Stdlib Require Export Ascii.
From stdpp Require Export base tactics option list strings gmap pretty.

(** ** Scopes and hint bases *)

Declare Scope py_scope.
Delimit Scope py_scope with py.

(** [pystr]: rewriting with the equations of the string primitives;
    [wp]: the weakest-precondition rule of each construct and call;
    [pyauto]: resolution hints of the components. *)
Create Rewrite HintDb pystr.
Create Rewrite HintDb wp.
Create HintDb pyauto discriminated.

(** ** Machines that get somewhere *)

(** [eventually R P a]: every run of the machine [R] from [a] reaches a
    state that [P] accepts, and no run gets stuck before it does. *)
Inductive eventually {A} (R : relation A) (P : A → Prop) : A → Prop :=
  | eventually_now a : P a → eventually R P a
  | eventually_later a :
      red R a → (∀ a', R a a' → eventually R P a') → eventually R P a.

(** ** Strings as sequences of bytes *)

Section strings.
Implicit Types s t u : string.

Lemma str_app_nil_l s : "" +:+ s = s.
Proof. done. Qed.

Lemma str_app_cons c s t : String c s +:+ t = String c (s +:+ t).
Proof. done. Qed.

Lemma str_app_nil_r s : s +:+ "" = s.
Proof. induction s as [|c s IH]; [done|]. by rewrite str_app_cons, IH. Qed.

Lemma str_app_assoc s t u : (s +:+ t) +:+ u = s +:+ (t +:+ u).
Proof. induction s as [|c s IH]; [done|]. by rewrite !str_app_cons, IH. Qed.

Lemma str_length_app s t :
  String.length (s +:+ t) = String.length s + String.length t.
Proof. induction s as [|c s IH]; [done|]. rewrite str_app_cons. simpl. by rewrite IH. Qed.

Lemma str_app_inv_head p s t : p +:+ s = p +:+ t → s = t.
Proof.
  induction p as [|c p IH]; [done|]. rewrite !str_app_cons. intros [= H]. auto.
Qed.

(** [String.prefix p s] decides whether [s] starts with [p]. *)
Lemma str_prefix_nil_l s : String.prefix "" s = true.
Proof. by destruct s. Qed.

Lemma str_prefix_cons a s b t :
  String.prefix (String a s) (String b t) =
  bool_decide (a = b) && String.prefix s t.
Proof.
  simpl. destruct (ascii_dec a b);
    [by rewrite bool_decide_true|by rewrite bool_decide_false].
Qed.

Lemma str_prefix_app p s : String.prefix p (p +:+ s) = true.
Proof.
  induction p as [|c p IH]; [by destruct s|].
  rewrite str_app_cons. simpl. destruct (ascii_dec c c); [done|congruence].
Qed.

Lemma str_prefix_true p s :
  String.prefix p s = true → ∃ t, s = p +:+ t.
Proof.
  revert s. induction p as [|c p IH]; intros s H; [by exists s|].
  destruct s as [|d s]; simpl in H; [done|].
  destruct (ascii_dec c d) as [->|]; [|done].
  destruct (IH _ H) as [t ->]. by exists t.
Qed.

End strings.

#[export] Hint Rewrite str_app_nil_r str_app_assoc str_length_app : pystr.

(** ** Facts on [eventually] *)

Section eventually.
Context {A : Type} (R : relation A).
Implicit Types (P Q : A → Prop) (a : A).

Lemma eventually_mono P Q a :
  (∀ b, P b → Q b) → eventually R P a → eventually R Q a.
Proof.
  intros HPQ. induction 1 as [a Ha|a Hred _ IH];
    [apply eventually_now; auto|by apply eventually_later].
Qed.

(** What is preserved by every step can be assumed of the state
    reached. *)
Lemma eventually_invariant (I : A → Prop) P a :
  (∀ b b', I b → R b b' → I b') →
  I a → eventually R P a → eventually R (λ b, I b ∧ P b) a.
Proof.
  intros HI Ha Hev. induction Hev as [a Hp|a Hred _ IH];
    [by apply eventually_now|].
  apply eventually_later; [done|]. intros a' Haa'. apply IH; eauto.
Qed.

(** Some run does reach the state. *)
Lemma eventually_rtc P a : eventually R P a → ∃ b, rtc R a b ∧ P b.
Proof.
  induction 1 as [a Ha|a [a' Haa'] _ IH]; [by exists a|].
  destruct (IH a' Haa') as (b & Hab & Hb). exists b. split; [|done].
  by eapply rtc_l.
Qed.

(** A run that reaches a state where the machine stops has passed a
    state that [P] accepts. *)
Lemma eventually_nf P a b :
  eventually R P a → rtc R a b → nf R b → ∃ c, rtc R a c ∧ rtc R c b ∧ P c.
Proof.
  intros Hev Hab Hb. induction Hev as [a Ha|a Hred _ IH].
  { exists a. by split_and!. }
  destruct Hab as [|a a' b Haa' Hab]; [by destruct Hb|].
  destruct (IH a' Haa' Hab) as (c & Hac & Hcb & Hc). exists c.
  split_and!; [by eapply rtc_l|done..].
Qed.

End eventually.
