(* ===== verification/PyStr.v ===== *)
(** * PyStr: the Python string operations the script relies on

    [src/convert_to_pdf.py] computes on strings in four ways: [str.replace]
    (line 16), repetition ['=' * 60] (lines 72, 74, 93, 95), decimal
    formatting of integers inside f-strings (line 94) and the fixed-point
    format [:.2f] of a size in megabytes (lines 101-102), the size being
    the quotient of two integers as a double.  This file gives each an
    executable definition and proves the facts the converter and the
    batch driver need: that [replace] computes the leftmost,
    non-overlapping replacement; that a printed number is made of digits,
    so that it ends where the text after it begins and can be read back;
    that an integer below [2^53] is a double and a larger one is within
    half a unit in the last place of one; that the rounding of [:.2f] is
    to the nearest hundredth and monotone.

    A Python [str] is modelled by its UTF-8 encoding, a [string] of bytes:
    that is what reaches standard output and the file system.  Searching
    for an ASCII needle such as [".md"] byte-wise finds exactly the
    occurrences a code-point search finds, because no byte of a multi-byte
    UTF-8 sequence is an ASCII byte. *)

From S2P Require Import Prelude.

(** ** [str.replace] *)

Module Replace.

(** [old in s] *)
Fixpoint contains (old s : string) : bool :=
  String.prefix old s ||
  match s with
  | "" => false
  | String _ s' => contains old s'
  end.

(** The scan of [str.replace] for a non-empty needle: left to right,
    non-overlapping.  [skip] counts the bytes of the current match still to
    be passed over. *)
Fixpoint replace_go (old new : string) (skip : nat) (s : string) : string :=
  match s with
  | "" => ""
  | String c s' =>
      match skip with
      | S k => replace_go old new k s'
      | 0 =>
          if String.prefix old s
          then new +:+ replace_go old new (String.length old - 1) s'
          else String c (replace_go old new 0 s')
      end
  end.

(** With an empty needle Python inserts [new] before every character and
    at the end. *)
Fixpoint interleave (new s : string) : string :=
  match s with
  | "" => ""
  | String c s' => String c (new +:+ interleave new s')
  end.

(** [s.replace(old, new)] *)
Definition replace (old new s : string) : string :=
  match old with
  | "" => new +:+ interleave new s
  | _ => replace_go old new 0 s
  end.

(** The reference definition: which outputs are a leftmost, non-overlapping
    replacement of every occurrence. *)
Inductive replaced (old new : string) : string → string → Prop :=
  | replaced_nil : replaced old new "" ""
  | replaced_hit t t' :
      replaced old new t t' →
      replaced old new (old +:+ t) (new +:+ t')
  | replaced_miss c s s' :
      String.prefix old (String c s) = false →
      replaced old new s s' →
      replaced old new (String c s) (String c s').

(** [drop n s]: [s[n:]] *)
Fixpoint drop (n : nat) (s : string) : string :=
  match n, s with
  | 0, _ => s
  | S _, "" => ""
  | S k, String _ s' => drop k s'
  end.

Section lemmas.
Implicit Types old new s t : string.

Lemma drop_app s t : drop (String.length s) (s +:+ t) = t.
Proof. induction s as [|c s IH]; [by destruct t|]. by rewrite str_app_cons. Qed.

Lemma drop_nil n : drop n "" = "".
Proof. by destruct n. Qed.

Lemma replace_go_nil old new k : replace_go old new k "" = "".
Proof. done. Qed.

(** Skipping [k] bytes is scanning the string without its first [k] bytes. *)
Lemma replace_go_skip old new k s :
  replace_go old new k s = replace_go old new 0 (drop k s).
Proof.
  revert k. induction s as [|c s IH]; intros [|k]; try done.
  simpl. apply IH.
Qed.

(** One step of the scan outside a match. *)
Lemma replace_go_cons old new c s :
  replace_go old new 0 (String c s) =
  if String.prefix old (String c s)
  then new +:+ replace_go old new (String.length old - 1) s
  else String c (replace_go old new 0 s).
Proof. done. Qed.

(** The scan at an occurrence. *)
Lemma replace_go_hit old new t :
  old ≠ "" →
  replace_go old new 0 (old +:+ t) = new +:+ replace_go old new 0 t.
Proof.
  intros Hold. destruct old as [|c old]; [done|].
  rewrite str_app_cons, replace_go_cons, <-str_app_cons, str_prefix_app.
  f_equal. rewrite replace_go_skip. simpl. by rewrite Nat.sub_0_r, drop_app.
Qed.

(** The scan away from an occurrence. *)
Lemma replace_go_miss old new c s :
  String.prefix old (String c s) = false →
  replace_go old new 0 (String c s) = String c (replace_go old new 0 s).
Proof. intros H. by rewrite replace_go_cons, H. Qed.

Lemma contains_false_prefix old s :
  contains old s = false → String.prefix old s = false.
Proof. destruct s; simpl; intros H; by apply orb_false_elim in H as [? _]. Qed.

Lemma contains_false_cons old c s :
  contains old (String c s) = false → contains old s = false.
Proof. simpl. intros H. by apply orb_false_elim in H as [_ ?]. Qed.

(** Without an occurrence the scan copies its input. *)
Lemma replace_go_absent old new s :
  contains old s = false → replace_go old new 0 s = s.
Proof.
  induction s as [|c s IH]; [done|]. intros H.
  rewrite replace_go_miss by by apply contains_false_prefix.
  f_equal. apply IH. by eapply contains_false_cons.
Qed.

(** ** [replace] and its reference definition *)

Lemma replace_nonempty old new s :
  old ≠ "" → replace old new s = replace_go old new 0 s.
Proof. by destruct old. Qed.

Lemma replaced_sound old new s r :
  old ≠ "" → replaced old new s r → r = replace_go old new 0 s.
Proof.
  intros Hold. induction 1 as [|t t' _ ->|c s s' Hp _ ->]; [done|..].
  - by rewrite replace_go_hit.
  - by rewrite replace_go_miss.
Qed.

(** The bound [n] on the length makes the recursion on the rest of the
    string after a match structural. *)
Lemma replaced_complete_upto old new n s :
  old ≠ "" → String.length s ≤ n → replaced old new s (replace_go old new 0 s).
Proof.
  intros Hold. revert s. induction n as [|n IH]; intros s Hn.
  { destruct s; [constructor|simpl in Hn; lia]. }
  destruct s as [|c s]; [constructor|].
  destruct (String.prefix old (String c s)) eqn:Hp.
  - apply str_prefix_true in Hp as [t Ht]. rewrite Ht, replace_go_hit by done.
    constructor. apply IH. apply (f_equal String.length) in Ht.
    autorewrite with pystr in Ht. simpl in *. destruct old; [done|]. simpl in Ht. lia.
  - rewrite replace_go_miss by done. constructor; [done|]. apply IH. simpl in Hn. lia.
Qed.

(** [replace] computes the one leftmost, non-overlapping replacement. *)
Lemma replace_replaced_iff old new s r :
  old ≠ "" → replaced old new s r ↔ r = replace old new s.
Proof.
  intros Hold. rewrite replace_nonempty by done. split.
  - by apply replaced_sound.
  - intros ->. by eapply replaced_complete_upto.
Qed.

End lemmas.

End Replace.

(** ** Repetition and decimal formatting *)

Module Format.

(** [s * n] *)
Fixpoint repeat (s : string) (n : nat) : string :=
  match n with
  | 0 => ""
  | S k => s +:+ repeat s k
  end.

(** [str(n)] for a non-negative integer, as an f-string field prints it. *)
Definition str_of_nat (n : nat) : string := pretty n.

(** [c.isdigit()] for an ASCII character, and [s] made of such
    characters only. *)
Definition is_digit (c : ascii) : bool :=
  match c with
  | "0" | "1" | "2" | "3" | "4" | "5" | "6" | "7" | "8" | "9" => true
  | _ => false
  end%char.

Fixpoint digits (s : string) : bool :=
  match s with
  | "" => true
  | String c s' => is_digit c && digits s'
  end.

(** Round [num/den] to the nearest integer, ties to even: the rounding of
    a correctly rounded [%.2f] conversion. *)
Definition round_half_even (num den : N) : N :=
  let q := (num / den)%N in
  let r := (num mod den)%N in
  if (2 * r <? den)%N then q
  else if (den <? 2 * r)%N then (q + 1)%N
  else if N.even q then q else (q + 1)%N.

(** The integer [n] rounded to 53 significant bits, ties to even: the
    value of the double nearest to [n].  Dividing by a power of two
    changes the exponent only, so the double that [n / 2**k] gives is this
    value over [2**k].  [N.log2 n - 52] is the number of low bits that do
    not fit (the subtraction stops at zero). *)
Definition round53 (n : N) : N :=
  let e := (N.log2 n - 52)%N in
  (round_half_even n (2 ^ e) * 2 ^ e)%N.

(** Two decimal digits, zero padded. *)
Definition two_digits (d : N) : string :=
  if (d <? 10)%N then "0" +:+ pretty d else pretty d.

(** [f"{x:.2f}"] for [x] given in hundredths. *)
Definition fmt_2f (hundredths : N) : string :=
  pretty (hundredths / 100)%N +:+ "." +:+ two_digits (hundredths mod 100)%N.

Lemma repeat_length s n :
  String.length (repeat s n) = n * String.length s.
Proof. induction n as [|n IH]; [done|]. simpl. autorewrite with pystr. by rewrite IH. Qed.

(** ** Decimal numbers are made of digits *)

Lemma pretty_N_go_digits (x : N) s :
  digits s = true → digits (pretty_N_go x s) = true.
Proof.
  revert s. induction (N.lt_wf_0 x) as [x _ IH]; intros s Hs.
  assert (x = 0 ∨ 0 < x)%N as [->|?] by lia; [by rewrite pretty_N_go_0|].
  rewrite pretty_N_go_step by done. apply IH; [by apply N.div_lt|].
  simpl. rewrite Hs, andb_true_r. unfold pretty_N_char. by repeat case_match.
Qed.

Lemma str_of_nat_digits n : digits (str_of_nat n) = true.
Proof.
  unfold str_of_nat, pretty, pretty_nat, pretty, pretty_N.
  case_decide; [done|]. by apply pretty_N_go_digits.
Qed.

Lemma pretty_N_digits (n : N) : digits (pretty n) = true.
Proof.
  unfold pretty, pretty_N. case_decide; [done|]. by apply pretty_N_go_digits.
Qed.

(** Two numbers followed by the same character that is no digit: the
    numbers end at the same place. *)
Lemma digits_app_sep a b c r r' :
  digits a = true → digits b = true → is_digit c = false →
  a +:+ String c r = b +:+ String c r' → a = b ∧ r = r'.
Proof.
  intros Ha Hb Hc. revert b Hb.
  induction a as [|x a IH]; intros [|y b] Hb; rewrite ?str_app_cons, ?str_app_nil_l.
  - by intros [= ->].
  - intros [= -> _]. simpl in Hb. rewrite Hc in Hb. done.
  - intros [= -> _]. simpl in Ha. rewrite Hc in Ha. done.
  - intros [= -> H]. simpl in Ha, Hb.
    apply andb_true_iff in Ha as [_ Ha]. apply andb_true_iff in Hb as [_ Hb].
    destruct (IH Ha b Hb H) as [-> ->]. done.
Qed.

(** ** The [.2f] format can be read back *)

Section fmt_2f.
Local Open Scope N_scope.

Lemma two_digits_digits d : digits (two_digits d) = true.
Proof.
  unfold two_digits. case_match; [|apply pretty_N_digits].
  rewrite str_app_cons, str_app_nil_l. simpl. apply pretty_N_digits.
Qed.

(** Below one hundred, different numbers have different digits: checked
    on the hundred numbers. *)
Lemma two_digits_inj d1 d2 :
  d1 < 100 → d2 < 100 → two_digits d1 = two_digits d2 → d1 = d2.
Proof.
  intros H1 H2.
  assert (Forall (λ a, Forall (λ b,
            two_digits (N.of_nat a) = two_digits (N.of_nat b) → a = b)
            (seq 0 100)) (seq 0 100)) as Hall
    by (apply (bool_decide_unpack _); by vm_compute).
  rewrite Forall_forall in Hall. specialize (Hall (N.to_nat d1)).
  rewrite Forall_forall in Hall. specialize (Hall ltac:(apply elem_of_seq; lia) (N.to_nat d2)).
  rewrite !N2Nat.id in Hall. intros Hd. apply N2Nat.inj, Hall; [|done].
  apply elem_of_seq. lia.
Qed.

(** A formatted number followed by a character that is no digit ends
    where the character stands, and determines the number. *)
Lemma fmt_2f_inj h1 h2 c r1 r2 :
  is_digit c = false →
  fmt_2f h1 +:+ String c r1 = fmt_2f h2 +:+ String c r2 → h1 = h2 ∧ r1 = r2.
Proof.
  intros Hc. unfold fmt_2f.
  rewrite !str_app_assoc, !str_app_cons, !str_app_nil_l.
  intros (Hi & H)%digits_app_sep; [|apply pretty_N_digits..|done].
  apply digits_app_sep in H as [Hd ->]; [|apply two_digits_digits..|done].
  apply (inj pretty) in Hi. apply two_digits_inj in Hd; [|by apply N.mod_lt..].
  split; [|done]. rewrite (N.div_mod' h1 100), (N.div_mod' h2 100). congruence.
Qed.

End fmt_2f.

Section rounding.
Local Open Scope N_scope.

(** The rounding goes down to the quotient or up to its successor,
    according to the remainder. *)
Lemma round_half_even_cases num den :
  den ≠ 0 →
  let q := num / den in let r := num mod den in
  num = den * q + r ∧ r < den ∧
  (round_half_even num den = q ∧ 2 * r ≤ den ∨
   round_half_even num den = q + 1 ∧ den ≤ 2 * r).
Proof.
  intros Hden q r. split; [apply N.div_mod'|]. split; [by apply N.mod_lt|].
  unfold round_half_even. fold q r.
  destruct (N.ltb_spec (2 * r) den); [left; lia|].
  destruct (N.ltb_spec den (2 * r)); [right; lia|].
  destruct (N.even q); [left|right]; lia.
Qed.

(** The rounded value is within half a unit of the quotient. *)
Lemma round_half_even_nearest num den :
  den ≠ 0 →
  let h := round_half_even num den in
  2 * num ≤ 2 * h * den + den ∧ 2 * h * den ≤ 2 * num + den.
Proof.
  intros Hden h.
  destruct (round_half_even_cases num den Hden) as (Hnum & Hr & Hq).
  cbn zeta in *. subst h.
  generalize dependent (num / den). generalize dependent (num mod den).
  intros r Hr q Hnum [[-> ?]|[-> ?]]; nia.
Qed.

(** Rounding is monotone in the numerator. *)
Lemma round_half_even_mono num1 num2 den :
  den ≠ 0 → num1 ≤ num2 →
  round_half_even num1 den ≤ round_half_even num2 den.
Proof.
  intros Hden Hle.
  pose proof (round_half_even_nearest num1 den Hden) as [H1 H1'].
  pose proof (round_half_even_nearest num2 den Hden) as [H2 H2'].
  cbn zeta in *.
  destruct (round_half_even_cases num1 den Hden) as (Hn1 & Hr1 & C1).
  destruct (round_half_even_cases num2 den Hden) as (Hn2 & Hr2 & C2).
  cbn zeta in *.
  assert (num1 / den ≤ num2 / den) as Hq by (by apply N.Div0.div_le_mono).
  destruct (decide (num1 / den = num2 / den)) as [Heq|Hne].
  - unfold round_half_even. rewrite Heq in *.
    assert (num1 mod den ≤ num2 mod den) by lia.
    repeat case_match; rewrite ?N.ltb_lt, ?N.ltb_ge in *; lia.
  - destruct C1 as [[-> _]|[-> _]], C2 as [[-> _]|[-> _]]; lia.
Qed.
(** *** Integers as doubles *)

(** An integer below [2^53] is a double. *)
Lemma round53_exact n : n < 2 ^ 53 → round53 n = n.
Proof.
  intros Hn. unfold round53.
  assert (N.log2 n - 52 = 0) as ->.
  { destruct (decide (n = 0)) as [->|?]; [done|].
    assert (N.log2 n < 53) by (apply N.log2_lt_pow2; lia). lia. }
  unfold round_half_even. rewrite N.pow_0_r, N.div_1_r, N.mod_1_r. simpl. lia.
Qed.

(** The double is within half a unit in the last place of the integer. *)
Lemma round53_nearest n :
  let ulp := 2 ^ (N.log2 n - 52) in
  2 * n ≤ 2 * round53 n + ulp ∧ 2 * round53 n ≤ 2 * n + ulp.
Proof.
  intros ulp. unfold round53. fold ulp.
  destruct (round_half_even_nearest n ulp) as [H1 H2];
    [apply N.pow_nonzero; lia|]. cbn zeta in *. lia.
Qed.

(** It lies between the powers of two that enclose the integer. *)
Lemma round53_binade n :
  0 < n → 2 ^ N.log2 n ≤ round53 n ≤ 2 ^ N.succ (N.log2 n).
Proof.
  intros Hn. destruct (N.log2_spec n Hn) as [Hlo Hhi].
  destruct (decide (N.log2 n ≤ 52)) as [Hs|Hl].
  { rewrite round53_exact; [lia|].
    eapply N.lt_le_trans; [done|]. apply N.pow_le_mono_r; lia. }
  unfold round53.
  set (e := N.log2 n - 52). set (den := 2 ^ e).
  assert (den ≠ 0) as Hden by (apply N.pow_nonzero; lia).
  assert (2 ^ N.log2 n = 2 ^ 52 * den) as Hp.
  { unfold den. rewrite <-N.pow_add_r. f_equal. lia. }
  rewrite N.pow_succ_r', Hp in *.
  destruct (round_half_even_cases n den Hden) as (Hdm & Hr & Hc). cbn zeta in *.
  assert (2 ^ 52 ≤ n / den) by (apply N.div_le_lower_bound; lia).
  assert (n / den < 2 ^ 53).
  { apply N.Div0.div_lt_upper_bound. change (2 ^ 53) with (2 * 2 ^ 52). lia. }
  change (2 ^ 53) with (2 * 2 ^ 52) in *.
  destruct Hc as [[-> _]|[-> _]]; nia.
Qed.

(** A larger integer is never a smaller double. *)
Lemma round53_mono n1 n2 : n1 ≤ n2 → round53 n1 ≤ round53 n2.
Proof.
  intros Hle. destruct (decide (n1 = 0)) as [->|Hn1]; [by apply N.le_0_l|].
  pose proof (N.log2_le_mono _ _ Hle) as Hlog.
  destruct (decide (N.log2 n1 = N.log2 n2)) as [Heq|Hne].
  - unfold round53. rewrite Heq. apply N.mul_le_mono_r.
    apply round_half_even_mono; [apply N.pow_nonzero; lia|done].
  - destruct (round53_binade n1) as [_ H1]; [lia|].
    destruct (round53_binade n2) as [H2 _]; [lia|].
    etrans; [exact H1|]. etrans; [|exact H2]. apply N.pow_le_mono_r; lia.
Qed.

(** For a 64-bit size the unit in the last place is at most [2^11]. *)
Lemma round53_ulp64 n : n < 2 ^ 64 → 2 ^ (N.log2 n - 52) ≤ 2 ^ 11.
Proof.
  intros Hn. apply N.pow_le_mono_r; [lia|].
  destruct (decide (n = 0)) as [->|?]; [done|].
  assert (N.log2 n < 64) by (apply N.log2_lt_pow2; lia). lia.
Qed.

End rounding.

End Format.
