(* ===== verification/Exec.v ===== *)
(** * Exec: the world the script runs in, and the monad of its effects

    [src/convert_to_pdf.py] is straight-line code whose every statement has
    an effect: it prints, it asks the file system whether a path exists, it
    deletes a file, it changes directory, it raises and catches exceptions.
    This file gives

    - [Exn]: Python's exception classes as far as the script can meet them,
      with the subclass order that decides which [except] clause fires;
    - [Call]: the calls the script makes to the system and to the tools;
    - [Event]: what an observer of the process sees, a line written to
      standard output or a call;
    - [world]: the current directory, the directories one may change to,
      the files (keyed by directory and relative path) and the trace of
      the events so far, of which [out] keeps the lines and [calls] the
      calls;
    - [M]: the state-and-exception monad over [world], with [try_except]
      and the [for] loop over a list;
    - the operating-system calls the script makes: [print], [path_exists],
      [stat_size], [os_remove], [os_chdir], and [import_module] for the
      [import] of a module of the standard library;
    - [wp]: the weakest precondition of a computation, with one rule per
      construct and call, and the tactic [wp_go] that runs a computation
      symbolically;
    - [preserves]: two-state invariants ([trace_grows], [same_cwd],
      [same_dirs], [touches], [removes], and [keeps] of a one-state
      invariant such as [world_ok]) with one rule per construct, and the
      tactic [pres];
    - [returns]: computations that never raise, with the tactic [rets]. *)

From S2P Require Import Prelude.

(** ** Exceptions *)

Module Exn.

(** The classes an [except] clause of the script names, the classes the
    calls it makes are documented to raise, and their ancestors. *)
Inductive cls : Type :=
  | BaseException
  | KeyboardInterrupt
  | SystemExit
  | Exception
  | ImportError
  | ModuleNotFoundError
  | OSError
  | FileNotFoundError
  | PermissionError
  | IsADirectoryError
  | NotADirectoryError
  | RuntimeError
  | ValueError.

#[export] Instance cls_eq_dec : EqDecision cls.
Proof. solve_decision. Defined.

(** The direct base class. *)
Definition parent (c : cls) : option cls :=
  match c with
  | BaseException => None
  | KeyboardInterrupt | SystemExit | Exception => Some BaseException
  | ImportError | OSError | RuntimeError | ValueError => Some Exception
  | ModuleNotFoundError => Some ImportError
  | FileNotFoundError | PermissionError
  | IsADirectoryError | NotADirectoryError => Some OSError
  end.

(** [issubclass c d], climbing at most [n] steps. *)
Fixpoint subclass_upto (n : nat) (c d : cls) : bool :=
  bool_decide (c = d) ||
  match n, parent c with
  | S k, Some p => subclass_upto k p d
  | _, _ => false
  end.

(** No class is more than three steps below [BaseException]. *)
Definition depth : nat := 3.

(** [issubclass c d] *)
Definition subclass (c d : cls) : bool := subclass_upto depth c d.

(** An exception object: its class and [str(e)]. *)
Record t : Type := Build { cls_of : cls; msg : string }.

#[export] Instance t_eq_dec : EqDecision t.
Proof. solve_decision. Defined.

(** [isinstance(e, c)] *)
Definition isinstance (e : t) (c : cls) : bool := subclass (cls_of e) c.

End Exn.

(** ** Calls *)

Module Call.

(** A call the script makes to the operating system or to one of the two
    tools, with its arguments. *)
Inductive t : Type :=
  | Chdir (d : string)
  | Exists (p : string)
  | Stat (p : string)
  | Remove (p : string)
  | Run (argv : list string)
  | Import (name : string)
  | WritePdf (src dst : string).

#[global] Instance t_eq_dec : EqDecision t.
Proof. solve_decision. Defined.

(** The command line of a call that starts a child process. *)
Definition argv_of (c : t) : option (list string) :=
  match c with
  | Run argv => Some argv
  | _ => None
  end.

(** The path of a call that deletes a file. *)
Definition removed_of (c : t) : option string :=
  match c with
  | Remove p => Some p
  | _ => None
  end.

End Call.

(** ** Events *)

Module Event.

(** What the process does that can be seen from outside: it writes a line
    to standard output, or it makes a call. *)
Inductive t : Type :=
  | Out (line : string)
  | Call (c : Call.t).

#[global] Instance t_eq_dec : EqDecision t.
Proof. solve_decision. Defined.

Definition line_of (e : t) : option string :=
  match e with
  | Out line => Some line
  | Call _ => None
  end.

Definition call_of (e : t) : option Call.t :=
  match e with
  | Out _ => None
  | Call c => Some c
  end.

(** The lines of a trace, and its calls, in the order of the trace. *)
Definition out_of (tr : list t) : list string := omap line_of tr.
Definition calls_of (tr : list t) : list Call.t := omap call_of tr.

End Event.

(** ** The world *)

(** A file is its content; its size is the length of the content.  The
    last field is the trace: the lines printed and the calls made so far,
    the oldest first, the calls whether they returned or raised. *)
Record world : Type := World {
  cwd : string;
  dirs : gset string;
  fs : gmap (string * string) string;
  trace : list Event.t;
}.

(** Standard output so far, and the history of the calls made. *)
Definition out (w : world) : list string := Event.out_of (trace w).
Definition calls (w : world) : list Call.t := Event.calls_of (trace w).

Definition with_cwd (d : string) (w : world) : world :=
  World d (dirs w) (fs w) (trace w).
Definition with_fs (m : gmap (string * string) string) (w : world) : world :=
  World (cwd w) (dirs w) m (trace w).
Definition with_trace (tr : list Event.t) (w : world) : world :=
  World (cwd w) (dirs w) (fs w) tr.

(** [w +> tr]: the world [w] with the events [tr] added to its trace. *)
Notation "w +> tr" := (with_trace (trace w ++ tr) w)
  (at level 50, left associativity) : py_scope.
Global Open Scope py_scope.

(** The world [w] with one more call in its trace. *)
Definition called (c : Call.t) (w : world) : world :=
  w +> [Event.Call c].

(** The file a relative path names in the current directory. *)
Definition file_at (w : world) (p : string) : option string :=
  fs w !! (cwd w, p).

(** ** The monad *)

Inductive result (A : Type) : Type :=
  | Val (a : A)
  | Raise (e : Exn.t).
Arguments Val {A} a.
Arguments Raise {A} e.

#[export] Instance result_fmap : FMap result := λ A B f r,
  match r with
  | Val a => Val (f a)
  | Raise e => Raise e
  end.

(** A computation maps the world to a value or a raised exception, and the
    world it leaves.  A raised exception undoes nothing. *)
Definition M (A : Type) : Type := world → result A * world.

#[export] Instance M_ret : MRet M := λ A a w, (Val a, w).

#[export] Instance M_bind : MBind M := λ A B k m w,
  match m w with
  | (Val a, w') => k a w'
  | (Raise e, w') => (Raise e, w')
  end.

(** [raise e] *)
Definition raise {A} (e : Exn.t) : M A := λ w, (Raise e, w).

(** The first [except] clause whose class the exception is an instance of. *)
Fixpoint find_handler {A} (hs : list (Exn.cls * (Exn.t → M A))) (e : Exn.t)
    : option (Exn.t → M A) :=
  match hs with
  | [] => None
  | (c, h) :: hs' => if Exn.isinstance e c then Some h else find_handler hs' e
  end.

(** [try: body except c1 as e: h1 e except c2 as e: h2 e ...] *)
Definition try_except {A} (body : M A) (hs : list (Exn.cls * (Exn.t → M A))) : M A :=
  λ w,
    match body w with
    | (Val a, w') => (Val a, w')
    | (Raise e, w') =>
        match find_handler hs e with
        | Some h => h e w'
        | None => (Raise e, w')
        end
    end.

(** [for x in l: s = body s x], the loop state threaded through. *)
Fixpoint for_each {A S} (body : S → A → M S) (l : list A) (s : S) : M S :=
  match l with
  | [] => mret s
  | x :: l' => s' ← body s x; for_each body l' s'
  end.

(** [for x in l: body x], for a body that keeps no state. *)
Definition for_each_ {A} (body : A → M ()) (l : list A) : M () :=
  for_each (λ _ x, body x) l ().

(** ** Operating-system calls *)

(** [print(s)]: one more line on standard output. *)
Definition print (s : string) : M () :=
  λ w, (Val (), w +> [Event.Out s]).

(** [import name] of a module of the standard library: the module is
    there, so the statement binds the name and does nothing else. *)
Definition import_module (name : string) : M () :=
  λ w, (Val (), called (Call.Import name) w).

(** [Path(p).exists()] *)
Definition path_exists (p : string) : M bool :=
  λ w, (Val (bool_decide (is_Some (file_at w p))), called (Call.Exists p) w).

(** [str(e)] of the [FileNotFoundError] the system raises for [p]. *)
Definition enoent_msg (p : string) : string :=
  "[Errno 2] No such file or directory: '" +:+ p +:+ "'".

Definition enoent (p : string) : Exn.t :=
  Exn.Build Exn.FileNotFoundError (enoent_msg p).

(** [Path(p).stat().st_size] *)
Definition stat_size (p : string) : M N :=
  λ w,
    match file_at w p with
    | Some data => (Val (N.of_nat (String.length data)), called (Call.Stat p) w)
    | None => (Raise (enoent p), called (Call.Stat p) w)
    end.

(** [os.remove(p)] *)
Definition os_remove (p : string) : M () :=
  λ w,
    match file_at w p with
    | Some _ =>
        (Val (), with_fs (delete (cwd w, p) (fs w)) (called (Call.Remove p) w))
    | None => (Raise (enoent p), called (Call.Remove p) w)
    end.

(** [os.chdir(d)] *)
Definition os_chdir (d : string) : M () :=
  λ w,
    if bool_decide (d ∈ dirs w) then (Val (), with_cwd d (called (Call.Chdir d) w))
    else (Raise (enoent d), called (Call.Chdir d) w).

(** ** Weakest preconditions *)

(** [wp m Q w]: run from [w], [m] ends in a result and a world that [Q]
    accepts.  Computations are total functions, so this is total
    correctness. *)
Definition wp {A} (m : M A) (Q : result A → world → Prop) (w : world) : Prop :=
  Q (m w).1 (m w).2.

(** What [wp] asks of the continuation of a bind. *)
Definition wp_cont {A B} (k : A → M B) (Q : result B → world → Prop)
    (r : result A) (w : world) : Prop :=
  match r with
  | Val a => wp (k a) Q w
  | Raise e => Q (Raise e) w
  end.

(** What [wp] asks of the handlers of a [try]. *)
Definition wp_handlers {A} (hs : list (Exn.cls * (Exn.t → M A)))
    (Q : result A → world → Prop) (r : result A) (w : world) : Prop :=
  match r with
  | Val a => Q (Val a) w
  | Raise e =>
      match find_handler hs e with
      | Some h => wp (h e) Q w
      | None => Q (Raise e) w
      end
  end.

(** [preserves R m]: the world [m] leaves is [R]-related to the one it
    started from, whatever the result. *)
Inductive preserves {A} (R : relation world) (m : M A) : Prop :=
  | Preserves : (∀ w, R w (m w).2) → preserves R m.

(** [returns m]: [m] never raises. *)
Definition returns {A} (m : M A) : Prop :=
  ∀ w, ∃ a, (m w).1 = Val a.

(** Relations between the world before and after. *)
Definition trace_grows : relation world := λ w w', trace w `prefix_of` trace w'.
Definition same_cwd : relation world := λ w w', cwd w' = cwd w.
Definition same_dirs : relation world := λ w w', dirs w' = dirs w.

(** [touches P]: the current directory is the same, and every file is as
    it was, except perhaps those that the paths of [P] name in the current
    directory. *)
Definition touches (P : gset string) : relation world := λ w w',
  cwd w' = cwd w ∧
  ∀ d p, (d = cwd w → p ∉ P) → fs w' !! (d, p) = fs w !! (d, p).

(** [removes P]: the history has grown, and the files the calls added to
    it delete are among the paths of [P]. *)
Definition removes (P : gset string) : relation world := λ w w',
  ∃ l, calls w' = calls w ++ l ∧ ∀ p, Call.Remove p ∈ l → p ∈ P.

(** A world is well formed when the current directory exists and every
    file lies in a directory that exists. *)
Definition world_ok (w : world) : Prop :=
  cwd w ∈ dirs w ∧ map_Forall (λ k _, k.1 ∈ dirs w) (fs w).

#[export] Instance world_ok_dec w : Decision (world_ok w).
Proof. unfold world_ok. apply _. Defined.

(** [keeps I]: the world after satisfies [I] if the world before did. *)
Definition keeps (I : world → Prop) : relation world := λ w w', I w → I w'.

(** A relation that does not look at the trace. *)
Class TraceBlind (R : relation world) : Prop :=
  trace_blind w tr : R w (with_trace tr w).

(** ** The exception hierarchy *)

Section exn.
Implicit Types c d : Exn.cls.

Lemma subclass_refl c : Exn.subclass c c = true.
Proof. by destruct c. Qed.

Lemma subclass_trans c d e :
  Exn.subclass c d = true → Exn.subclass d e = true → Exn.subclass c e = true.
Proof. destruct c, d; try done; destruct e; done. Qed.

Lemma subclass_antisym c d :
  Exn.subclass c d = true → Exn.subclass d c = true → c = d.
Proof. destruct c, d; done. Qed.

(** The subclass relation is a partial order. *)
#[export] Instance subclass_po : PartialOrder (λ c d, Exn.subclass c d = true).
Proof.
  split; [split|].
  - intros c. apply subclass_refl.
  - intros c d e. apply subclass_trans.
  - intros c d. apply subclass_antisym.
Qed.

Lemma subclass_base c : Exn.subclass c Exn.BaseException = true.
Proof. by destruct c. Qed.

Lemma subclass_parent c p :
  Exn.parent c = Some p → Exn.subclass c p = true.
Proof. destruct c; intros [= <-]; done. Qed.

(** Climbing further than [Exn.depth] finds nothing new: the bound is
    enough. *)
Lemma subclass_upto_depth n c d :
  Exn.depth ≤ n → Exn.subclass_upto n c d = Exn.subclass c d.
Proof.
  unfold Exn.depth. intros Hn.
  do 3 (destruct n as [|n]; [lia|]). clear Hn.
  destruct c, d; try done; destruct n; done.
Qed.

(** [subclass] decides the reflexive-transitive closure of [parent]. *)
Lemma subclass_rtc c d :
  Exn.subclass c d = true ↔ rtc (λ x y, Exn.parent x = Some y) c d.
Proof.
  split.
  - destruct c, d; try done; intros _;
      repeat (first [apply rtc_refl | eapply rtc_l; [reflexivity|] ]).
  - induction 1 as [|x y z Hxy _ IH]; [apply subclass_refl|].
    eapply subclass_trans; [by apply subclass_parent|done].
Qed.

Lemma isinstance_base e : Exn.isinstance e Exn.BaseException = true.
Proof. apply subclass_base. Qed.

End exn.

(** ** Computations up to extensional equality *)

#[export] Instance M_equiv {A} : Equiv (M A) := λ m1 m2, ∀ w, m1 w = m2 w.

#[export] Instance M_equivalence {A} : Equivalence (≡@{M A}).
Proof.
  split.
  - by intros m w.
  - by intros m1 m2 H w.
  - intros m1 m2 m3 H1 H2 w. by rewrite H1.
Qed.

#[export] Instance bind_proper {A B} :
  Proper (pointwise_relation A (≡) ==> (≡) ==> (≡)) (mbind (M:=M) (A:=A) (B:=B)).
Proof.
  intros k1 k2 Hk m1 m2 Hm w. unfold mbind, M_bind. rewrite Hm.
  destruct (m2 w) as [[a|e] w']; [apply Hk|done].
Qed.

#[export] Instance wp_proper {A} :
  Proper ((≡) ==> (=) ==> (=) ==> iff) (wp (A:=A)).
Proof. intros m1 m2 Hm Q _ <- w _ <-. unfold wp. by rewrite Hm. Qed.

Section monad_laws.
Context {A B C : Type}.

Lemma bind_ret_l (a : A) (k : A → M B) : mret a ≫= k ≡ k a.
Proof. by intros w. Qed.

Lemma bind_ret_r (m : M A) : m ≫= mret ≡ m.
Proof. intros w. unfold mbind, M_bind. by destruct (m w) as [[a|e] w']. Qed.

Lemma bind_assoc (m : M A) (k : A → M B) (h : B → M C) :
  (m ≫= k) ≫= h ≡ m ≫= (λ a, k a ≫= h).
Proof. intros w. unfold mbind, M_bind. by destruct (m w) as [[a|e] w']. Qed.

Lemma bind_raise_l (e : Exn.t) (k : A → M B) : raise e ≫= k ≡ raise e.
Proof. by intros w. Qed.

Lemma try_ret (a : A) hs : try_except (mret a) hs ≡ mret a.
Proof. by intros w. Qed.

Lemma try_no_handlers (m : M A) : try_except m [] ≡ m.
Proof. intros w. unfold try_except. by destruct (m w) as [[a|e] w']. Qed.

End monad_laws.

(** ** Rules of the weakest precondition *)

Section wp_rules.
Context {A B : Type}.
Implicit Types (Q : result B → world → Prop) (w : world).

Lemma wp_ret (a : B) Q w : wp (mret a) Q w ↔ Q (Val a) w.
Proof. done. Qed.

Lemma wp_raise (e : Exn.t) Q w : wp (raise e) Q w ↔ Q (Raise e) w.
Proof. done. Qed.

Lemma wp_bind (m : M A) (k : A → M B) Q w :
  wp (m ≫= k) Q w ↔ wp m (wp_cont k Q) w.
Proof. unfold wp, mbind, M_bind. by destruct (m w) as [[a|e] w']. Qed.

Lemma wp_try (m : M B) hs Q w :
  wp (try_except m hs) Q w ↔ wp m (wp_handlers hs Q) w.
Proof.
  unfold wp, try_except. destruct (m w) as [[a|e] w']; [done|].
  simpl. by destruct (find_handler hs e).
Qed.

Lemma wp_mono (m : M B) (Q Q' : result B → world → Prop) w :
  (∀ r w', Q r w' → Q' r w') → wp m Q w → wp m Q' w.
Proof. unfold wp. auto. Qed.

End wp_rules.

Section wp_os.
Implicit Types (w : world).

Lemma wp_print s (Q : result () → world → Prop) w :
  wp (print s) Q w ↔ Q (Val ()) (w +> [Event.Out s]).
Proof. done. Qed.

Lemma wp_import_module name (Q : result () → world → Prop) w :
  wp (import_module name) Q w ↔ Q (Val ()) (called (Call.Import name) w).
Proof. done. Qed.

Lemma wp_path_exists p (Q : result bool → world → Prop) w :
  wp (path_exists p) Q w ↔
  Q (Val (bool_decide (is_Some (file_at w p)))) (called (Call.Exists p) w).
Proof. done. Qed.

Lemma wp_os_remove p (Q : result () → world → Prop) w :
  wp (os_remove p) Q w ↔
  match file_at w p with
  | Some _ =>
      Q (Val ()) (with_fs (delete (cwd w, p) (fs w)) (called (Call.Remove p) w))
  | None => Q (Raise (enoent p)) (called (Call.Remove p) w)
  end.
Proof. unfold wp, os_remove. by destruct (file_at w p). Qed.

Lemma wp_stat_size p (Q : result N → world → Prop) w :
  wp (stat_size p) Q w ↔
  match file_at w p with
  | Some data => Q (Val (N.of_nat (String.length data))) (called (Call.Stat p) w)
  | None => Q (Raise (enoent p)) (called (Call.Stat p) w)
  end.
Proof. unfold wp, stat_size. by destruct (file_at w p). Qed.

Lemma wp_os_chdir d (Q : result () → world → Prop) w :
  wp (os_chdir d) Q w ↔
  if bool_decide (d ∈ dirs w) then Q (Val ()) (with_cwd d (called (Call.Chdir d) w))
  else Q (Raise (enoent d)) (called (Call.Chdir d) w).
Proof. unfold wp, os_chdir. by case_bool_decide. Qed.

End wp_os.

#[export] Hint Rewrite @wp_ret @wp_raise @wp_bind @wp_print @wp_import_module
  @wp_path_exists @wp_os_remove @wp_stat_size @wp_os_chdir : wp.

(** A run is what its weakest precondition says it is. *)
Lemma run_wp {A} (m : M A) w x :
  wp m (λ r0 w0, (r0, w0) = x) w → m w = x.
Proof. unfold wp. by destruct (m w). Qed.

(** [wp_go] runs a computation symbolically: it applies the rule of the
    construct at the head, exposes the continuation and goes on until a
    call whose outcome the context does not determine. *)
Ltac wp_simpl :=
  cbn [wp_cont wp_handlers find_handler fst snd];
  unfold with_fs, with_cwd, called, with_trace, file_at;
  cbn [cwd fs dirs trace].
Ltac wp_step := progress (autorewrite with wp; wp_simpl).
Ltac wp_go := wp_simpl; repeat wp_step.

(** [log_norm] brings a trace into the form [trace w ++ [...]]. *)
Ltac log_norm := rewrite <-?app_assoc; cbn [app].

(** ** Two-state invariants *)

Section preserves.
Context (R : relation world) `{!PreOrder R}.

Lemma preserves_run {A} (m : M A) w : preserves R m → R w (m w).2.
Proof. by intros [H]. Qed.

Lemma preserves_ret {A} (a : A) : preserves R (mret a).
Proof. split. intros w. simpl. reflexivity. Qed.

Lemma preserves_raise {A} (e : Exn.t) : preserves R (raise e : M A).
Proof. split. intros w. simpl. reflexivity. Qed.

Lemma preserves_bind {A B} (m : M A) (k : A → M B) :
  preserves R m → (∀ a, preserves R (k a)) → preserves R (m ≫= k).
Proof.
  intros [Hm] Hk. split. intros w. specialize (Hm w). unfold mbind, M_bind.
  destruct (m w) as [[a|e] w']; simpl in *; [|done].
  etrans; [done|]. by apply preserves_run.
Qed.

Lemma find_handler_preserves {A} (hs : list (Exn.cls * (Exn.t → M A))) e h :
  Forall (λ ch, ∀ e, preserves R (ch.2 e)) hs →
  find_handler hs e = Some h → preserves R (h e).
Proof.
  induction 1 as [|[c h'] hs Hh _ IH]; simpl; [done|].
  destruct (Exn.isinstance e c); [intros [= <-]; apply Hh|done].
Qed.

Lemma preserves_try {A} (m : M A) hs :
  preserves R m → Forall (λ ch, ∀ e, preserves R (ch.2 e)) hs →
  preserves R (try_except m hs).
Proof.
  intros [Hm] Hhs. split. intros w. specialize (Hm w). unfold try_except.
  destruct (m w) as [[a|e] w']; simpl in *; [done|].
  destruct (find_handler hs e) as [h|] eqn:Hf; [|done].
  etrans; [done|]. eapply preserves_run, find_handler_preserves; eauto.
Qed.

(** A loop preserves what each of its turns preserves. *)
Lemma preserves_for_each_Forall {A S} (body : S → A → M S) l s :
  Forall (λ x, ∀ s, preserves R (body s x)) l →
  preserves R (for_each body l s).
Proof.
  intros Hb. revert s. induction Hb as [|x l Hx _ IH]; intros s; simpl.
  - apply preserves_ret.
  - apply preserves_bind; auto.
Qed.

Lemma preserves_for_each {A S} (body : S → A → M S) l s :
  (∀ s x, preserves R (body s x)) → preserves R (for_each body l s).
Proof. intros Hb. apply preserves_for_each_Forall, Forall_forall. auto. Qed.

Lemma preserves_if {A} (b : bool) (m1 m2 : M A) :
  preserves R m1 → preserves R m2 → preserves R (if b then m1 else m2).
Proof. by destruct b. Qed.

End preserves.

(** ** Computations that never raise *)

Lemma returns_run {A} (m : M A) w : returns m → ∃ a w', m w = (Val a, w').
Proof.
  intros H. destruct (H w) as [a Ha]. exists a, (m w).2.
  by destruct (m w); simplify_eq/=.
Qed.

Lemma returns_ret {A} (a : A) : returns (mret a).
Proof. intros w. by exists a. Qed.

Lemma returns_bind {A B} (m : M A) (k : A → M B) :
  returns m → (∀ a, returns (k a)) → returns (m ≫= k).
Proof.
  intros Hm Hk w. destruct (returns_run m w Hm) as (a & w' & Hw).
  unfold mbind, M_bind. rewrite Hw. apply Hk.
Qed.

Lemma returns_if {A} (b : bool) (m1 m2 : M A) :
  returns m1 → returns m2 → returns (if b then m1 else m2).
Proof. by destruct b. Qed.

Lemma returns_for_each {A S} (body : S → A → M S) l s :
  (∀ s x, returns (body s x)) → returns (for_each body l s).
Proof.
  intros Hb. revert s. induction l as [|x l IH]; intros s; simpl.
  - apply returns_ret.
  - apply returns_bind; auto.
Qed.

Lemma returns_print s : returns (print s).
Proof. intros w. by eexists. Qed.

Lemma returns_path_exists p : returns (path_exists p).
Proof. intros w. by eexists. Qed.

Lemma returns_import_module name : returns (import_module name).
Proof. intros w. by eexists. Qed.

(** ** The trace and its two projections *)

Section trace.
Implicit Types (tr : list Event.t) (w : world).

Lemma out_of_app tr1 tr2 :
  Event.out_of (tr1 ++ tr2) = Event.out_of tr1 ++ Event.out_of tr2.
Proof. apply omap_app. Qed.

Lemma calls_of_app tr1 tr2 :
  Event.calls_of (tr1 ++ tr2) = Event.calls_of tr1 ++ Event.calls_of tr2.
Proof. apply omap_app. Qed.

(** Events added to the trace add their lines to standard output and
    their calls to the history. *)
Lemma out_add w tr : out (w +> tr) = out w ++ Event.out_of tr.
Proof. apply out_of_app. Qed.

Lemma calls_add w tr : calls (w +> tr) = calls w ++ Event.calls_of tr.
Proof. apply calls_of_app. Qed.

(** When the trace grows, so do standard output and the history. *)
Lemma trace_grows_out w w' : trace_grows w w' → out w `prefix_of` out w'.
Proof.
  intros [tr H]. exists (Event.out_of tr). unfold out. by rewrite H, out_of_app.
Qed.

Lemma trace_grows_calls w w' : trace_grows w w' → calls w `prefix_of` calls w'.
Proof.
  intros [tr H]. exists (Event.calls_of tr). unfold calls.
  by rewrite H, calls_of_app.
Qed.

End trace.

(** [log_proj] reads standard output and the history off a trace of the
    form [trace w ++ [...]]. *)
Ltac log_proj :=
  unfold out, calls; cbn [fst snd trace]; rewrite <-?app_assoc; cbn [app];
  rewrite ?out_of_app, ?calls_of_app;
  cbn [Event.out_of Event.calls_of omap list_omap Event.line_of Event.call_of app];
  rewrite ?app_nil_r.

(** The relations are preorders, and the system calls respect them. *)

#[export] Instance trace_grows_po : PreOrder trace_grows.
Proof.
  split; [intros w; by unfold trace_grows|].
  intros w1 w2 w3. unfold trace_grows. intros ??. by etrans.
Qed.
#[export] Instance same_cwd_po : PreOrder same_cwd.
Proof. split; [done|]. intros w1 w2 w3. unfold same_cwd. congruence. Qed.
#[export] Instance same_dirs_po : PreOrder same_dirs.
Proof. split; [done|]. intros w1 w2 w3. unfold same_dirs. congruence. Qed.

#[export] Instance touches_po P : PreOrder (touches P).
Proof.
  split; [done|]. intros w1 w2 w3 [Hc1 H1] [Hc2 H2]. split; [congruence|].
  intros d p Hk. rewrite H2, H1; [done..|]. by rewrite Hc1.
Qed.

#[export] Instance removes_po P : PreOrder (removes P).
Proof.
  split.
  - intros w. exists []. split; [by rewrite app_nil_r|]. by intros p ?%elem_of_nil.
  - intros w1 w2 w3 (l1 & H1 & Hl1) (l2 & H2 & Hl2). exists (l1 ++ l2).
    split; [by rewrite H2, H1, app_assoc|].
    intros p [?|?]%elem_of_app; auto.
Qed.

#[export] Instance keeps_po I : PreOrder (keeps I).
Proof.
  split; [intros w; by unfold keeps|]. intros w1 w2 w3 H1 H2 Hw. auto.
Qed.

#[export] Instance keeps_world_ok_blind : TraceBlind (keeps world_ok).
Proof. intros w l. by unfold keeps. Qed.
#[export] Instance same_cwd_blind : TraceBlind same_cwd.
Proof. by intros w l. Qed.
#[export] Instance same_dirs_blind : TraceBlind same_dirs.
Proof. by intros w l. Qed.
#[export] Instance touches_blind P : TraceBlind (touches P).
Proof. by intros w l. Qed.

Section os_preserves.

(** The calls that change neither file nor directory are invisible to a
    relation that does not look at the trace. *)
Lemma print_same R `{!TraceBlind R} s : preserves R (print s).
Proof. split. intros w. apply trace_blind. Qed.

Lemma import_module_same R `{!TraceBlind R} name : preserves R (import_module name).
Proof. split. intros w. apply trace_blind. Qed.

Lemma path_exists_same R `{!TraceBlind R} p : preserves R (path_exists p).
Proof. split. intros w. apply trace_blind. Qed.

Lemma stat_size_same R `{!TraceBlind R} p : preserves R (stat_size p).
Proof.
  split. intros w. unfold stat_size. destruct (file_at w p); apply trace_blind.
Qed.

Local Ltac pres_os f :=
  split; intros w; unfold f, trace_grows, same_cwd, same_dirs;
  repeat case_match; simpl; first [done | by apply prefix_app_r].

Lemma print_trace_grows s : preserves trace_grows (print s).
Proof. pres_os @print. Qed.
Lemma import_module_trace_grows name : preserves trace_grows (import_module name).
Proof. pres_os @import_module. Qed.
Lemma path_exists_trace_grows p : preserves trace_grows (path_exists p).
Proof. pres_os @path_exists. Qed.
Lemma stat_size_trace_grows p : preserves trace_grows (stat_size p).
Proof. pres_os @stat_size. Qed.
Lemma os_remove_trace_grows p : preserves trace_grows (os_remove p).
Proof. pres_os @os_remove. Qed.
Lemma os_chdir_trace_grows d : preserves trace_grows (os_chdir d).
Proof. pres_os @os_chdir. Qed.

Lemma os_remove_same_cwd p : preserves same_cwd (os_remove p).
Proof. pres_os @os_remove. Qed.
Lemma os_remove_same_dirs p : preserves same_dirs (os_remove p).
Proof. pres_os @os_remove. Qed.
Lemma os_chdir_same_dirs d : preserves same_dirs (os_chdir d).
Proof. pres_os @os_chdir. Qed.

Lemma os_remove_touches P p : p ∈ P → preserves (touches P) (os_remove p).
Proof.
  intros Hp. split. intros w. unfold os_remove, file_at.
  destruct (fs w !! (cwd w, p)); [|done]. split; [done|]. intros d p' Hk.
  apply lookup_delete_ne. intros [= <- <-]. by apply Hk.
Qed.

(** One event added to the trace, no file deleted by it. *)
Lemma removes_event P e w w' :
  trace w' = trace w ++ [e] → (Event.call_of e ≫= Call.removed_of) = None →
  removes P w w'.
Proof.
  intros Ht Hr. exists (Event.calls_of [e]). unfold calls. rewrite Ht, calls_of_app.
  split; [done|]. destruct e as [line|c]; cbn in *; [by intros p ?%elem_of_nil|].
  intros p Hp%list_elem_of_singleton. by subst c.
Qed.

Local Ltac removes_os f :=
  split; intros w; unfold f; repeat case_match; by eapply removes_event.

Lemma print_removes P s : preserves (removes P) (print s).
Proof. removes_os @print. Qed.
Lemma import_module_removes P name : preserves (removes P) (import_module name).
Proof. removes_os @import_module. Qed.
Lemma path_exists_removes P p : preserves (removes P) (path_exists p).
Proof. removes_os @path_exists. Qed.
Lemma stat_size_removes P p : preserves (removes P) (stat_size p).
Proof. removes_os @stat_size. Qed.
Lemma os_chdir_removes P d : preserves (removes P) (os_chdir d).
Proof. removes_os @os_chdir. Qed.

(** [os.remove] is the one call that deletes. *)
Lemma os_remove_removes P p : p ∈ P → preserves (removes P) (os_remove p).
Proof.
  intros Hp. split. intros w. exists [Call.Remove p].
  split; [unfold os_remove; case_match; apply calls_add|].
  by intros p' [= ->]%list_elem_of_singleton.
Qed.

(** Deleting a file and changing to a directory that exists leave a
    well-formed world well formed. *)
Lemma os_remove_world_ok p : preserves (keeps world_ok) (os_remove p).
Proof.
  split. intros w [Hc Hf]. unfold os_remove. case_match; [|done].
  split; [done|]. by apply map_Forall_delete.
Qed.

Lemma os_chdir_world_ok d : preserves (keeps world_ok) (os_chdir d).
Proof.
  split. intros w [Hc Hf]. unfold os_chdir. case_bool_decide; by split.
Qed.

(** Files that change at one path of the current directory at most leave
    a well-formed world well formed. *)
Lemma world_ok_frame w m' (ko : option string) c :
  world_ok w →
  (∀ k, (∀ o, ko = Some o → k ≠ (cwd w, o)) → m' !! k = fs w !! k) →
  world_ok (with_fs m' (called c w)).
Proof.
  intros [Hc Hf] Hm. split; [done|]. intros k v Hk. cbn [dirs with_fs called with_trace].
  destruct (decide (ko = Some k.2 ∧ k.1 = cwd w)) as [[_ ->]|Hne]; [done|].
  rewrite Hm in Hk; [by eapply Hf|]. intros o -> ->. by apply Hne.
Qed.

End os_preserves.

#[export] Hint Resolve preserves_ret preserves_raise preserves_bind
  preserves_try preserves_for_each preserves_if
  print_same import_module_same path_exists_same stat_size_same
  print_trace_grows import_module_trace_grows path_exists_trace_grows
  stat_size_trace_grows os_remove_trace_grows os_chdir_trace_grows
  os_remove_same_cwd os_remove_same_dirs os_chdir_same_dirs
  os_remove_touches
  print_removes import_module_removes path_exists_removes stat_size_removes
  os_chdir_removes os_remove_removes os_remove_world_ok os_chdir_world_ok
  returns_ret returns_bind returns_if returns_for_each
  returns_print returns_path_exists returns_import_module : pyauto.

(** [pres] proves that a computation built from calls that preserve a
    relation preserves it. *)
Ltac pres_step :=
  first
    [ assumption | apply preserves_ret | apply preserves_raise | apply preserves_bind
    | apply preserves_try | apply preserves_for_each | apply preserves_if
    | apply Forall_cons; split | apply Forall_nil
    | solve [eauto with pyauto typeclass_instances] ];
  try tc_solve; intros; cbn beta.
Ltac pres := repeat pres_step.

(** [rets] proves that a computation built from calls that never raise
    never raises. *)
Ltac rets :=
  repeat first
    [ assumption | apply returns_ret | apply returns_bind | apply returns_if
    | apply returns_for_each | apply returns_print | apply returns_path_exists
    | apply returns_import_module
    | intros; cbn beta; progress case_match ].
