(* ===== verification/Tools.v ===== *)
(** * Tools: the two external collaborators

    The script converts nothing itself.  It starts a Markdown-to-HTML
    converter as a child process ([subprocess.run], line 31 of
    [src/convert_to_pdf.py]) and calls an HTML-to-PDF renderer as a library
    ([from weasyprint import HTML], [HTML(...).write_pdf(...)], lines 41 and
    44).  What they do is not in the repository, so the development takes
    them as an interface:

    - [Tools]: what a toolset is (any behaviour at all, as functions of the
      arguments, the current directory and the files);
    - [ToolsContract]: what a toolset promises when it is well behaved: the
      converter writes its output file and nothing else, the renderer writes
      a non-empty PDF and nothing else;
    - [RenderAtomic]: a renderer that writes nothing when it fails.  This
      is an assumption on the library that nothing in the script enforces
      (line 44 is a plain call, and no clause of the [try] removes a PDF),
      so it is kept apart from the contract and named by the one theorem
      that needs it;
    - [ToolsTame]: tools that cannot make the script crash;
    - instances: [ideal] (both tools work), and toolsets that fail in each of
      the ways the script has a branch for, [truncating] among them, whose
      renderer leaves the beginning of a PDF when it fails.
      [ideal_contract] shows that the contract can be met.

    A toolset is a pair of functions: a call to a tool returns or raises.
    A child process or a rendering that never comes back has no value of
    its own here; for what the script has done up to that call it is the
    call that raises an exception no clause catches (the trace stops at
    the call), and [ToolsTame] excludes it as it excludes such exceptions.

    The converter's and the batch driver's theorems are proved against the
    interface; those that need good behaviour assume the contract. *)

From S2P Require Import Prelude Exec.

(** ** The interface *)

(** [subprocess.CompletedProcess] *)
Record completed_process : Type := CompletedProcess {
  returncode : Z;
  stdout : string;
  stderr : string;
}.

Class Tools : Type := {
  (** The child process [argv] run in directory [d] over files [m]: what
      [subprocess.run(argv, capture_output=True, text=True)] returns or
      raises, and the files it leaves. *)
  spawn : list string → string → gmap (string * string) string →
          result completed_process * gmap (string * string) string;
  (** What [from weasyprint import HTML] raises, if anything. *)
  weasyprint_import : option Exn.t;
  (** [HTML(src).write_pdf(dst)] in directory [d] over files [m]. *)
  render_pdf : string → string → string → gmap (string * string) string →
               result () * gmap (string * string) string;
}.

(** The value that follows [flag] on a command line. *)
Fixpoint opt_value (flag : string) (argv : list string) : option string :=
  match argv with
  | [] => None
  | a :: rest =>
      match rest with
      | b :: _ => if bool_decide (a = flag) then Some b else opt_value flag rest
      | [] => None
      end
  end.

Section calls.
Context `{Tools}.

(** [subprocess.run(argv, capture_output=True, text=True)] *)
Definition subprocess_run (argv : list string) : M completed_process :=
  λ w, let '(r, m) := spawn argv (cwd w) (fs w) in
       (r, with_fs m (called (Call.Run argv) w)).

(** [from weasyprint import HTML] *)
Definition import_weasyprint : M () :=
  λ w, match weasyprint_import with
       | None => (Val (), called (Call.Import "weasyprint") w)
       | Some e => (Raise e, called (Call.Import "weasyprint") w)
       end.

(** [HTML(src).write_pdf(dst)] *)
Definition HTML_write_pdf (src dst : string) : M () :=
  λ w, let '(r, m) := render_pdf src dst (cwd w) (fs w) in
       (r, with_fs m (called (Call.WritePdf src dst) w)).

End calls.

(** ** The contract of a well-behaved toolset *)

Class ToolsContract (T : Tools) : Prop := {
  (** The converter leaves every file but its [-o] file as it was. *)
  spawn_frame argv d m r m' k :
    spawn argv d m = (r, m') →
    (∀ o, opt_value "-o" argv = Some o → k ≠ (d, o)) →
    m' !! k = m !! k;
  (** Exit status 0 means the [-o] file was written. *)
  spawn_success argv d m cp m' o :
    spawn argv d m = (Val cp, m') →
    returncode cp = 0%Z →
    opt_value "-o" argv = Some o →
    is_Some (m' !! (d, o));
  (** The renderer leaves every file but its destination as it was. *)
  render_frame src dst d m r m' k :
    render_pdf src dst d m = (r, m') →
    k ≠ (d, dst) →
    m' !! k = m !! k;
  (** A renderer that returns has written a non-empty destination. *)
  render_success src dst d m m' :
    render_pdf src dst d m = (Val (), m') →
    ∃ data, m' !! (d, dst) = Some data ∧ data ≠ "";
}.

(** ** A renderer that fails cleanly *)

(** A renderer that raises has written nothing.  The script relies on it
    nowhere and enforces it nowhere; a theorem that assumes it says so. *)
Class RenderAtomic (T : Tools) : Prop := {
  render_failure src dst d m e m' :
    render_pdf src dst d m = (Raise e, m') →
    m' = m;
}.

(** ** Tools that cannot make the script crash *)

(** The converter can be started, and the renderer fails with [Exception]s
    only. *)
Class ToolsTame (T : Tools) : Prop := {
  spawn_returns argv d m : ∃ cp m', spawn argv d m = (Val cp, m');
  import_exception e :
    weasyprint_import = Some e → Exn.isinstance e Exn.Exception = true;
  render_exception src dst d m e m' :
    render_pdf src dst d m = (Raise e, m') →
    Exn.isinstance e Exn.Exception = true;
}.

(** ** Toolsets *)

Module Toolsets.

(** A converter that works: the sixth argument is the input (as the script
    lays the command out), [-o] names the output. *)
Definition pandoc_ok (argv : list string) (d : string)
    (m : gmap (string * string) string)
    : result completed_process * gmap (string * string) string :=
  match argv !! 5, opt_value "-o" argv with
  | Some i, Some o =>
      match m !! (d, i) with
      | Some text =>
          (Val (CompletedProcess 0 "" ""),
           <[(d, o) := "<html>" +:+ text +:+ "</html>"]> m)
      | None =>
          (Val (CompletedProcess 1 "" ("pandoc: " +:+ i +:+ ": openBinaryFile: does not exist")), m)
      end
  | _, _ => (Val (CompletedProcess 2 "" "pandoc: bad command line"), m)
  end.

(** A converter that rejects every document. *)
Definition pandoc_rejects (argv : list string) (d : string)
    (m : gmap (string * string) string)
    : result completed_process * gmap (string * string) string :=
  (Val (CompletedProcess 64 "" "pandoc: parse error"), m).

(** No converter on the [PATH]: [subprocess.run] itself raises. *)
Definition pandoc_missing (argv : list string) (d : string)
    (m : gmap (string * string) string)
    : result completed_process * gmap (string * string) string :=
  (Raise (enoent "pandoc"), m).

(** A renderer that works. *)
Definition weasy_ok (src dst d : string) (m : gmap (string * string) string)
    : result () * gmap (string * string) string :=
  match m !! (d, src) with
  | Some html => (Val (), <[(d, dst) := "%PDF-1.7 " +:+ html]> m)
  | None => (Raise (enoent src), m)
  end.

(** A renderer that raises [e] whatever it is given. *)
Definition weasy_raises (e : Exn.t) (src dst d : string)
    (m : gmap (string * string) string)
    : result () * gmap (string * string) string :=
  (Raise e, m).

(** A renderer that consumes its source once the PDF is written. *)
Definition weasy_consumes (src dst d : string) (m : gmap (string * string) string)
    : result () * gmap (string * string) string :=
  match m !! (d, src) with
  | Some html => (Val (), delete (d, src) (<[(d, dst) := "%PDF-1.7 " +:+ html]> m))
  | None => (Raise (enoent src), m)
  end.

(** A renderer that fails half way: it leaves the beginning of a PDF
    under the destination and raises. *)
Definition weasy_truncates (e : Exn.t) (src dst d : string)
    (m : gmap (string * string) string)
    : result () * gmap (string * string) string :=
  (Raise e, <[(d, dst) := "%PDF-1.7 "]> m).

Definition module_not_found : Exn.t :=
  Exn.Build Exn.ModuleNotFoundError "No module named 'weasyprint'".

Definition ideal : Tools := Build_Tools pandoc_ok None weasy_ok.
Definition rejecting : Tools := Build_Tools pandoc_rejects None weasy_ok.
Definition no_pandoc : Tools := Build_Tools pandoc_missing None weasy_ok.
Definition no_weasyprint : Tools :=
  Build_Tools pandoc_ok (Some module_not_found) weasy_ok.
Definition broken_renderer (e : Exn.t) : Tools :=
  Build_Tools pandoc_ok None (weasy_raises e).
Definition consuming : Tools := Build_Tools pandoc_ok None weasy_consumes.
Definition truncating (e : Exn.t) : Tools :=
  Build_Tools pandoc_ok None (weasy_truncates e).

(** A small world to run things in: directory [/docs] holds [a.md] and a
    file [README]; the trace is empty. *)
Definition sample : world :=
  World "/docs" {["/docs"]}
    {[ ("/docs", "a.md") := "# Title"; ("/docs", "README") := "read me" ]} [].

End Toolsets.

(** ** Facts *)

Section calls_facts.
Context `{T : Tools}.

Lemma wp_subprocess_run argv (Q : result completed_process → world → Prop) w :
  wp (subprocess_run argv) Q w ↔
  Q (spawn argv (cwd w) (fs w)).1
    (with_fs (spawn argv (cwd w) (fs w)).2 (called (Call.Run argv) w)).
Proof. unfold wp, subprocess_run. by destruct (spawn _ _ _). Qed.

Lemma wp_import_weasyprint (Q : result () → world → Prop) w :
  wp import_weasyprint Q w ↔
  match weasyprint_import with
  | None => Q (Val ()) (called (Call.Import "weasyprint") w)
  | Some e => Q (Raise e) (called (Call.Import "weasyprint") w)
  end.
Proof. unfold wp, import_weasyprint. by destruct weasyprint_import. Qed.

Lemma wp_HTML_write_pdf src dst (Q : result () → world → Prop) w :
  wp (HTML_write_pdf src dst) Q w ↔
  Q (render_pdf src dst (cwd w) (fs w)).1
    (with_fs (render_pdf src dst (cwd w) (fs w)).2
       (called (Call.WritePdf src dst) w)).
Proof. unfold wp, HTML_write_pdf. by destruct (render_pdf _ _ _ _). Qed.

Local Ltac pres_tool f :=
  split; intros w; unfold f, trace_grows, same_cwd, same_dirs;
  repeat case_match; simpl; first [done | by apply prefix_app_r].

Lemma subprocess_run_trace_grows argv : preserves trace_grows (subprocess_run argv).
Proof. pres_tool @subprocess_run. Qed.
Lemma subprocess_run_same_cwd argv : preserves same_cwd (subprocess_run argv).
Proof. pres_tool @subprocess_run. Qed.
Lemma subprocess_run_same_dirs argv : preserves same_dirs (subprocess_run argv).
Proof. pres_tool @subprocess_run. Qed.

Lemma import_weasyprint_same R `{!TraceBlind R} : preserves R import_weasyprint.
Proof.
  split. intros w. unfold import_weasyprint.
  destruct weasyprint_import; apply trace_blind.
Qed.
Lemma import_weasyprint_trace_grows : preserves trace_grows import_weasyprint.
Proof. pres_tool @import_weasyprint. Qed.

Lemma HTML_write_pdf_trace_grows src dst :
  preserves trace_grows (HTML_write_pdf src dst).
Proof. pres_tool @HTML_write_pdf. Qed.
Lemma HTML_write_pdf_same_cwd src dst : preserves same_cwd (HTML_write_pdf src dst).
Proof. pres_tool @HTML_write_pdf. Qed.
Lemma HTML_write_pdf_same_dirs src dst : preserves same_dirs (HTML_write_pdf src dst).
Proof. pres_tool @HTML_write_pdf. Qed.

Local Ltac removes_tool f :=
  split; intros w; unfold f; repeat case_match; by eapply removes_event.

(** A call to a tool is no deletion by the script. *)
Lemma subprocess_run_removes P argv : preserves (removes P) (subprocess_run argv).
Proof. removes_tool @subprocess_run. Qed.
Lemma import_weasyprint_removes P : preserves (removes P) import_weasyprint.
Proof. removes_tool @import_weasyprint. Qed.
Lemma HTML_write_pdf_removes P src dst :
  preserves (removes P) (HTML_write_pdf src dst).
Proof. removes_tool @HTML_write_pdf. Qed.

End calls_facts.

(** Under the contract, the converter touches its [-o] file at most and
    the renderer its destination at most. *)
Section contract_facts.
Context `{T : Tools} `{!ToolsContract T}.

Lemma subprocess_run_touches P argv :
  (∀ o, opt_value "-o" argv = Some o → o ∈ P) →
  preserves (touches P) (subprocess_run argv).
Proof.
  intros Ho. split. intros w. unfold subprocess_run.
  destruct (spawn argv (cwd w) (fs w)) as [r m'] eqn:Hs. split; [done|].
  intros d p Hk. eapply spawn_frame; [done|].
  intros o Hopt [= -> ->]. apply Hk; auto.
Qed.

Lemma HTML_write_pdf_touches P src dst :
  dst ∈ P → preserves (touches P) (HTML_write_pdf src dst).
Proof.
  intros Hdst. split. intros w. unfold HTML_write_pdf.
  destruct (render_pdf src dst (cwd w) (fs w)) as [r m'] eqn:Hr. split; [done|].
  intros d p Hk. eapply render_frame; [done|]. intros [= -> ->]. by apply Hk.
Qed.

(** Tools that keep their contract write in the current directory only:
    they leave a well-formed world well formed. *)
Lemma subprocess_run_world_ok argv :
  preserves (keeps world_ok) (subprocess_run argv).
Proof.
  split. intros w Hw. unfold subprocess_run.
  destruct (spawn argv (cwd w) (fs w)) as [r m'] eqn:Hs.
  apply (world_ok_frame _ _ (opt_value "-o" argv)); [done|].
  intros k Hk. by eapply spawn_frame.
Qed.

Lemma HTML_write_pdf_world_ok src dst :
  preserves (keeps world_ok) (HTML_write_pdf src dst).
Proof.
  split. intros w Hw. unfold HTML_write_pdf.
  destruct (render_pdf src dst (cwd w) (fs w)) as [r m'] eqn:Hr.
  apply (world_ok_frame _ _ (Some dst)); [done|].
  intros k Hk. eapply render_frame; [done|]. by apply Hk.
Qed.

End contract_facts.

#[export] Hint Rewrite @wp_subprocess_run @wp_import_weasyprint
  @wp_HTML_write_pdf : wp.

#[export] Hint Resolve subprocess_run_trace_grows subprocess_run_same_cwd
  subprocess_run_same_dirs import_weasyprint_same
  HTML_write_pdf_trace_grows HTML_write_pdf_same_cwd HTML_write_pdf_same_dirs
  subprocess_run_touches HTML_write_pdf_touches
  import_weasyprint_trace_grows
  subprocess_run_removes import_weasyprint_removes HTML_write_pdf_removes
  subprocess_run_world_ok HTML_write_pdf_world_ok
  : pyauto.

(** The contract is satisfiable: the toolset [ideal] meets it. *)
#[export] Instance ideal_contract : ToolsContract Toolsets.ideal.
Proof.
  split; simpl.
  - intros argv d m r m' k. unfold Toolsets.pandoc_ok.
    destruct (argv !! 5) as [i|]; [|by intros [= _ <-]].
    destruct (opt_value "-o" argv) as [o|]; [|by intros [= _ <-]].
    destruct (m !! (d, i)); intros [= _ <-] Hk; [|done].
    apply lookup_insert_ne. intros <-. by eapply Hk.
  - intros argv d m cp m' o. unfold Toolsets.pandoc_ok.
    destruct (argv !! 5) as [i|]; [|by intros [= <- _]].
    destruct (opt_value "-o" argv) as [o'|]; [|by intros [= <- _]].
    destruct (m !! (d, i)); intros [= <- <-]; [|done].
    intros _ [= ->]. rewrite lookup_insert_eq. by eexists.
  - intros src dst d m r m' k. unfold Toolsets.weasy_ok.
    destruct (m !! (d, src)); intros [= _ <-] Hk; [|done].
    by apply lookup_insert_ne.
  - intros src dst d m m'. unfold Toolsets.weasy_ok.
    destruct (m !! (d, src)) as [html|]; intros [= <-].
    eexists. by rewrite lookup_insert_eq.
Qed.

(** A converter that rejects everything keeps the contract too. *)
#[export] Instance rejecting_contract : ToolsContract Toolsets.rejecting.
Proof.
  split; simpl.
  - by intros argv d m r m' k [= _ <-].
  - by intros argv d m cp m' o [= <- _].
  - apply (render_frame (T:=Toolsets.ideal)).
  - apply (render_success (T:=Toolsets.ideal)).
Qed.

(** So does the toolset without a renderer, and the one whose renderer
    raises: a renderer that is never called, or that raises and writes
    nothing, breaks no promise. *)
#[export] Instance no_weasyprint_contract : ToolsContract Toolsets.no_weasyprint.
Proof.
  split; simpl.
  - apply (spawn_frame (T:=Toolsets.ideal)).
  - apply (spawn_success (T:=Toolsets.ideal)).
  - apply (render_frame (T:=Toolsets.ideal)).
  - apply (render_success (T:=Toolsets.ideal)).
Qed.

#[export] Instance broken_renderer_contract e :
  ToolsContract (Toolsets.broken_renderer e).
Proof.
  split; simpl.
  - apply (spawn_frame (T:=Toolsets.ideal)).
  - apply (spawn_success (T:=Toolsets.ideal)).
  - by intros src dst d m r m' k [= _ <-].
  - by intros src dst d m m'.
Qed.

(** A renderer that leaves the beginning of a PDF when it fails keeps
    the contract as well: it writes its destination only, and it never
    returns. *)
#[export] Instance truncating_contract e :
  ToolsContract (Toolsets.truncating e).
Proof.
  split; simpl.
  - apply (spawn_frame (T:=Toolsets.ideal)).
  - apply (spawn_success (T:=Toolsets.ideal)).
  - intros src dst d m r m' k [= _ <-] Hk. by apply lookup_insert_ne.
  - by intros src dst d m m'.
Qed.

(** The renderers of [ideal], [rejecting], [no_weasyprint] and
    [broken_renderer] write nothing when they raise. *)
#[export] Instance ideal_atomic : RenderAtomic Toolsets.ideal.
Proof.
  split; simpl. intros src dst d m e m'. unfold Toolsets.weasy_ok.
  by destruct (m !! (d, src)); intros [= _ <-].
Qed.

#[export] Instance rejecting_atomic : RenderAtomic Toolsets.rejecting.
Proof. split. apply (render_failure (T:=Toolsets.ideal)). Qed.

#[export] Instance no_weasyprint_atomic : RenderAtomic Toolsets.no_weasyprint.
Proof. split. apply (render_failure (T:=Toolsets.ideal)). Qed.

#[export] Instance broken_renderer_atomic e :
  RenderAtomic (Toolsets.broken_renderer e).
Proof. split; simpl. by intros src dst d m e' m' [= _ <-]. Qed.

(** The working toolset, and the one without a renderer, are tame. *)
#[export] Instance ideal_tame : ToolsTame Toolsets.ideal.
Proof.
  split; simpl; [|done|].
  - intros argv d m. unfold Toolsets.pandoc_ok. repeat case_match; eauto.
  - intros src dst d m e m'. unfold Toolsets.weasy_ok.
    by destruct (m !! (d, src)); intros [= <- _].
Qed.

#[export] Instance no_weasyprint_tame : ToolsTame Toolsets.no_weasyprint.
Proof.
  split; simpl.
  - apply (spawn_returns (T:=Toolsets.ideal)).
  - by intros e [= <-].
  - apply (render_exception (T:=Toolsets.ideal)).
Qed.

(** A renderer that raises [e] is tame when [e] is an [Exception]. *)
Lemma broken_renderer_tame e :
  Exn.isinstance e Exn.Exception = true → ToolsTame (Toolsets.broken_renderer e).
Proof.
  intros He. split; simpl; [|done|].
  - apply (spawn_returns (T:=Toolsets.ideal)).
  - by intros src dst d m e' m' [= <- _].
Qed.

(** The classes tell toolsets apart: without a converter the toolset is
    not tame, and a renderer that consumes its source breaks the
    contract. *)
Lemma no_pandoc_not_tame : ¬ ToolsTame Toolsets.no_pandoc.
Proof. intros [H _ _]. by destruct (H [] "" ∅) as (cp & m' & ?). Qed.

Lemma consuming_not_contract : ¬ ToolsContract Toolsets.consuming.
Proof.
  intros [_ _ H _].
  specialize (H "a" "b" "d" {[ ("d", "a") := "x" ]} (Val ())
                (delete ("d", "a") (<[("d", "b") := "%PDF-1.7 x"]> {[ ("d", "a") := "x" ]}))
                ("d", "a") eq_refl ltac:(done)).
  by vm_compute in H.
Qed.

(** The assumption is one more than the contract: the renderer of
    [truncating] keeps the contract and is not atomic. *)
Lemma truncating_not_atomic e : ¬ RenderAtomic (Toolsets.truncating e).
Proof.
  intros [H]. specialize (H "a" "b" "d" ∅ e _ eq_refl).
  by apply (f_equal (λ m, m !! ("d", "b"))) in H.
Qed.
