(* ===== verification/Convert.v ===== *)
(** * Convert: one document, Markdown to PDF through HTML

    [markdown_to_pdf] of [src/convert_to_pdf.py] (lines 10-58): announce the
    job, derive the name of the intermediate HTML file, run the converter,
    stop with [False] if it exits non-zero; otherwise import the renderer,
    render, delete the HTML file and answer [True], turning every
    [Exception] raised on the way into a message and [False].

    [Msg] holds the lines the function prints, [html_file_of] and [cmd_html]
    its two local values, [markdown_to_pdf] the function.  The theorems say
    what each branch returns, prints and leaves on disk; what its trace
    is, the lines and the calls in their order; which exceptions can leave
    the function; and what a [True] and what a failure guarantee when the
    tools keep their contract. *)

From S2P Require Import Prelude PyStr Exec Tools.

(** ** What the function prints *)

Module Msg.

Definition converting (md_file : string) : string :=
  "Converting " +:+ md_file +:+ " to PDF...".
Definition step1 : string := "  Step 1: Generating HTML from Markdown...".
Definition html_error (stderr : string) : string :=
  "Error converting to HTML: " +:+ stderr.
Definition html_generated (html_file : string) : string :=
  "  ✓ HTML generated: " +:+ html_file.
Definition step2 : string := "  Step 2: Converting HTML to PDF...".
Definition pdf_generated (pdf_file : string) : string :=
  "  ✓ PDF generated: " +:+ pdf_file.
Definition cleaned_up : string := "  ✓ Cleaned up temporary HTML file".
Definition weasyprint_missing : string :=
  "Error: WeasyPrint not installed. Run: pip install weasyprint".
Definition pdf_error (e : string) : string :=
  "Error converting to PDF: " +:+ e.

End Msg.

(** ** The function *)

(** The double quote character. *)
Definition dq : string := String "034"%char "".

(** [md_file.replace('.md', '.html')] *)
Definition html_file_of (md_file : string) : string :=
  Replace.replace ".md" ".html" md_file.

(** The converter's command line. *)
Definition cmd_html (md_file html_file : string) : list string :=
  [ "pandoc";
    "-f"; "markdown";
    "-t"; "html";
    md_file;
    "-o"; html_file;
    "--css=style.css";
    "--metadata"; "title=" +:+ dq +:+ "IOC_Config Documentation" +:+ dq;
    "--metadata"; "author=" +:+ dq +:+ "Michele Bigi" +:+ dq;
    "--self-contained" ].

Section convert.
Context `{T : Tools}.

(** Step 2, the body of the [try]. *)
Definition html_to_pdf (html_file pdf_file : string) : M bool :=
  import_weasyprint;;
  print Msg.step2;;
  HTML_write_pdf html_file pdf_file;;
  print (Msg.pdf_generated pdf_file);;
  os_remove html_file;;
  print Msg.cleaned_up;;
  mret true.

(** The two [except] clauses, in the order of the source. *)
Definition pdf_handlers : list (Exn.cls * (Exn.t → M bool)) :=
  [ (Exn.ImportError, λ _, print Msg.weasyprint_missing;; mret false);
    (Exn.Exception, λ e, print (Msg.pdf_error (Exn.msg e));; mret false) ].

Definition markdown_to_pdf (md_file pdf_file : string) : M bool :=
  print (Msg.converting md_file);;
  let html_file := html_file_of md_file in
  let cmd := cmd_html md_file html_file in
  print Msg.step1;;
  result ← subprocess_run cmd;
  if bool_decide (returncode result ≠ 0%Z) then
    print (Msg.html_error (stderr result));;
    mret false
  else
    print (Msg.html_generated html_file);;
    try_except (html_to_pdf html_file pdf_file) pdf_handlers.

(** ** The function as a decision tree *)

(** What the [except] clauses make of an exception: the line to print, or
    nothing when no clause catches it. *)
Definition report_of (e : Exn.t) : option string :=
  if Exn.isinstance e Exn.ImportError then Some Msg.weasyprint_missing
  else if Exn.isinstance e Exn.Exception then Some (Msg.pdf_error (Exn.msg e))
  else None.

(** An exception raised inside the [try], met in world [w]. *)
Definition caught (e : Exn.t) (w : world) : result bool * world :=
  match report_of e with
  | Some line => (Val false, w +> [Event.Out line])
  | None => (Raise e, w)
  end.

(** The outcome of [markdown_to_pdf], read off the outcomes of the calls
    it makes. *)
Definition convert_outcome (md_file pdf_file : string) (w : world)
    : result bool * world :=
  let html_file := html_file_of md_file in
  let d := cwd w in
  let t1 := trace w ++ [Event.Out (Msg.converting md_file); Event.Out Msg.step1;
                        Event.Call (Call.Run (cmd_html md_file html_file))] in
  match spawn (cmd_html md_file html_file) d (fs w) with
  | (Raise e, m1) => (Raise e, World d (dirs w) m1 t1)
  | (Val cp, m1) =>
      if bool_decide (returncode cp ≠ 0%Z) then
        (Val false,
         World d (dirs w) m1 (t1 ++ [Event.Out (Msg.html_error (stderr cp))]))
      else
        let t2 := t1 ++ [Event.Out (Msg.html_generated html_file);
                         Event.Call (Call.Import "weasyprint")] in
        match weasyprint_import with
        | Some e => caught e (World d (dirs w) m1 t2)
        | None =>
            let t3 := t2 ++ [Event.Out Msg.step2;
                             Event.Call (Call.WritePdf html_file pdf_file)] in
            match render_pdf html_file pdf_file d m1 with
            | (Raise e, m2) => caught e (World d (dirs w) m2 t3)
            | (Val _, m2) =>
                let t4 := t3 ++ [Event.Out (Msg.pdf_generated pdf_file);
                                 Event.Call (Call.Remove html_file)] in
                match m2 !! (d, html_file) with
                | Some _ =>
                    (Val true,
                     World d (dirs w) (delete (d, html_file) m2)
                       (t4 ++ [Event.Out Msg.cleaned_up]))
                | None => caught (enoent html_file) (World d (dirs w) m2 t4)
                end
            end
        end
  end.

(** ** The function as rules *)

(** The calls of step 2 when none of them raises, in order. *)
Definition step2_calls (html_file pdf_file : string) : list Call.t :=
  [Call.Import "weasyprint"; Call.WritePdf html_file pdf_file;
   Call.Remove html_file].

(** The calls of a conversion that runs to its end, in order. *)
Definition conversion_calls (md_file pdf_file : string) : list Call.t :=
  Call.Run (cmd_html md_file (html_file_of md_file))
  :: step2_calls (html_file_of md_file) pdf_file.

(** The events of step 2 when no call raises: the import, then the
    rendering between the line that announces it and the line that
    confirms it, then the removal and the line that confirms it. *)
Definition step2_trace (html_file pdf_file : string) : list Event.t :=
  [ Event.Call (Call.Import "weasyprint");
    Event.Out Msg.step2;
    Event.Call (Call.WritePdf html_file pdf_file);
    Event.Out (Msg.pdf_generated pdf_file);
    Event.Call (Call.Remove html_file);
    Event.Out Msg.cleaned_up ].

(** The events of a conversion that runs to its end. *)
Definition conversion_trace (md_file pdf_file : string) : list Event.t :=
  [ Event.Out (Msg.converting md_file);
    Event.Out Msg.step1;
    Event.Call (Call.Run (cmd_html md_file (html_file_of md_file)));
    Event.Out (Msg.html_generated (html_file_of md_file)) ]
  ++ step2_trace (html_file_of md_file) pdf_file.

(** Step 2 from world [w]: it returns [True], or one of its three calls
    raises. *)
Inductive try_outcome (html_file pdf_file : string) (w : world)
    : result bool → world → Prop :=
  | try_import_raises e :
      weasyprint_import = Some e →
      try_outcome html_file pdf_file w (Raise e)
        (w +> take 1 (step2_trace html_file pdf_file))
  | try_render_raises e m2 :
      weasyprint_import = None →
      render_pdf html_file pdf_file (cwd w) (fs w) = (Raise e, m2) →
      try_outcome html_file pdf_file w (Raise e)
        (World (cwd w) (dirs w) m2
           (trace w ++ take 3 (step2_trace html_file pdf_file)))
  | try_remove_raises m2 :
      weasyprint_import = None →
      render_pdf html_file pdf_file (cwd w) (fs w) = (Val (), m2) →
      m2 !! (cwd w, html_file) = None →
      try_outcome html_file pdf_file w (Raise (enoent html_file))
        (World (cwd w) (dirs w) m2
           (trace w ++ take 5 (step2_trace html_file pdf_file)))
  | try_done m2 html :
      weasyprint_import = None →
      render_pdf html_file pdf_file (cwd w) (fs w) = (Val (), m2) →
      m2 !! (cwd w, html_file) = Some html →
      try_outcome html_file pdf_file w (Val true)
        (World (cwd w) (dirs w) (delete (cwd w, html_file) m2)
           (trace w ++ step2_trace html_file pdf_file)).

(** The world in which step 2 starts, the converter having left files
    [m1]. *)
Definition after_html (md_file : string) (w : world)
    (m1 : gmap (string * string) string) : world :=
  World (cwd w) (dirs w) m1
    (trace w ++ [Event.Out (Msg.converting md_file); Event.Out Msg.step1;
                 Event.Call (Call.Run (cmd_html md_file (html_file_of md_file)));
                 Event.Out (Msg.html_generated (html_file_of md_file))]).

(** [converts md pdf w r w']: from [w], the function ends with [r] in
    [w']. *)
Inductive converts (md_file pdf_file : string) (w : world)
    : result bool → world → Prop :=
  | converts_spawn_raises e m1 :
      spawn (cmd_html md_file (html_file_of md_file)) (cwd w) (fs w)
        = (Raise e, m1) →
      converts md_file pdf_file w (Raise e)
        (World (cwd w) (dirs w) m1
           (trace w ++ take 3 (conversion_trace md_file pdf_file)))
  | converts_html_failed cp m1 :
      spawn (cmd_html md_file (html_file_of md_file)) (cwd w) (fs w)
        = (Val cp, m1) →
      returncode cp ≠ 0%Z →
      converts md_file pdf_file w (Val false)
        (World (cwd w) (dirs w) m1
           (trace w ++ take 3 (conversion_trace md_file pdf_file)
                   ++ [Event.Out (Msg.html_error (stderr cp))]))
  | converts_done cp m1 w2 :
      spawn (cmd_html md_file (html_file_of md_file)) (cwd w) (fs w)
        = (Val cp, m1) →
      returncode cp = 0%Z →
      try_outcome (html_file_of md_file) pdf_file (after_html md_file w m1)
        (Val true) w2 →
      converts md_file pdf_file w (Val true) w2
  | converts_reported cp m1 e w2 line :
      spawn (cmd_html md_file (html_file_of md_file)) (cwd w) (fs w)
        = (Val cp, m1) →
      returncode cp = 0%Z →
      try_outcome (html_file_of md_file) pdf_file (after_html md_file w m1)
        (Raise e) w2 →
      report_of e = Some line →
      converts md_file pdf_file w (Val false) (w2 +> [Event.Out line])
  | converts_escaped cp m1 e w2 :
      spawn (cmd_html md_file (html_file_of md_file)) (cwd w) (fs w)
        = (Val cp, m1) →
      returncode cp = 0%Z →
      try_outcome (html_file_of md_file) pdf_file (after_html md_file w m1)
        (Raise e) w2 →
      report_of e = None →
      converts md_file pdf_file w (Raise e) w2.

(** How far a conversion gets: the number of calls it makes after the
    converter has been started. *)
Definition calls_after_run (md_file pdf_file : string) (w : world) : nat :=
  match spawn (cmd_html md_file (html_file_of md_file)) (cwd w) (fs w) with
  | (Val cp, m1) =>
      if bool_decide (returncode cp ≠ 0%Z) then 0
      else
        match weasyprint_import with
        | Some _ => 1
        | None =>
            match render_pdf (html_file_of md_file) pdf_file (cwd w) m1 with
            | (Val _, _) => 3
            | (Raise _, _) => 2
            end
        end
  | (Raise _, _) => 0
  end.

End convert.

(** ** The intermediate file name *)

Section html_file.
Implicit Types s base : string.

(** [".md"] cannot start inside [base] and end inside a following
    [".md"]. *)
Lemma md_no_overlap base t :
  Replace.contains ".md" base = false →
  base ≠ "" →
  String.prefix ".md" (base +:+ ".md" +:+ t) = false.
Proof.
  intros Hc Hne. apply Replace.contains_false_prefix in Hc.
  destruct base as [|c1 [|c2 [|c3 base]]]; [done|..].
  - rewrite !str_app_cons, str_app_nil_l, !str_prefix_cons.
    rewrite (bool_decide_false ("m"%char = "."%char)) by done.
    by rewrite andb_false_r.
  - rewrite !str_app_cons, str_app_nil_l, !str_prefix_cons.
    rewrite (bool_decide_false ("d"%char = "."%char)) by done.
    by rewrite !andb_false_r.
  - rewrite !str_app_cons, !str_prefix_cons, str_prefix_nil_l.
    by rewrite !str_prefix_cons, str_prefix_nil_l in Hc.
Qed.

Lemma replace_go_md_suffix new base t :
  Replace.contains ".md" base = false →
  Replace.replace_go ".md" new 0 (base +:+ ".md" +:+ t) =
    base +:+ new +:+ Replace.replace_go ".md" new 0 t.
Proof.
  induction base as [|c base IH]; intros Hc.
  - rewrite !str_app_nil_l. by apply Replace.replace_go_hit.
  - rewrite !str_app_cons, Replace.replace_go_miss.
    + f_equal. apply IH. by eapply Replace.contains_false_cons.
    + by apply (md_no_overlap (String c base)).
Qed.

End html_file.

(** [trace_norm] spells out the events of a conversion and brings a trace
    into the form [trace w ++ [...]]. *)
Ltac trace_norm :=
  unfold conversion_trace, step2_trace; cbn [firstn app]; log_norm.

(** ** The function and its decision tree agree *)

Section convert_spec.
Context `{T : Tools}.
Implicit Types (md pdf html : string) (w : world).

(** The two clauses select what [report_of] says. *)
Lemma try_pdf_handlers_run (body : M bool) w :
  try_except body pdf_handlers w =
  match body w with
  | (Val a, w') => (Val a, w')
  | (Raise e, w') => caught e w'
  end.
Proof.
  unfold try_except, caught, report_of. destruct (body w) as [[a|e] w']; [done|].
  cbn [find_handler pdf_handlers].
  destruct (Exn.isinstance e Exn.ImportError); [done|].
  by destruct (Exn.isinstance e Exn.Exception).
Qed.

(** Step 2 without its handlers. *)
Lemma html_to_pdf_run html pdf w :
  html_to_pdf html pdf w =
  match weasyprint_import with
  | Some e => (Raise e, w +> take 1 (step2_trace html pdf))
  | None =>
      match render_pdf html pdf (cwd w) (fs w) with
      | (Raise e, m2) =>
          (Raise e,
           World (cwd w) (dirs w) m2 (trace w ++ take 3 (step2_trace html pdf)))
      | (Val _, m2) =>
          match m2 !! (cwd w, html) with
          | Some _ =>
              (Val true,
               World (cwd w) (dirs w) (delete (cwd w, html) m2)
                 (trace w ++ step2_trace html pdf))
          | None =>
              (Raise (enoent html),
               World (cwd w) (dirs w) m2 (trace w ++ take 5 (step2_trace html pdf)))
          end
      end
  end.
Proof.
  apply run_wp. unfold html_to_pdf. wp_go.
  destruct weasyprint_import; [done|]. wp_go.
  destruct (render_pdf _ _ _ _) as [[[]|e] m2]; wp_go; [|by trace_norm].
  destruct (m2 !! _); wp_go; by trace_norm.
Qed.

(** [markdown_to_pdf] computes the decision tree [convert_outcome]: the
    same result, the same files and the same lines printed.  Every theorem
    on the function goes through this equation. *)
Lemma markdown_to_pdf_run md pdf w :
  markdown_to_pdf md pdf w = convert_outcome md pdf w.
Proof.
  apply run_wp. unfold markdown_to_pdf, convert_outcome. wp_go.
  destruct (spawn _ _ _) as [[cp|e] m1]; wp_simpl; [|by log_norm].
  case_bool_decide; wp_go; [by log_norm|].
  unfold wp. rewrite <-surjective_pairing.
  rewrite try_pdf_handlers_run, html_to_pdf_run. wp_simpl.
  destruct weasyprint_import; [by trace_norm|].
  destruct (render_pdf _ _ _ _) as [[[]|e] m2]; [|by trace_norm].
  destruct (m2 !! _); by trace_norm.
Qed.

End convert_spec.

(** ** The function and its rules agree *)

Section convert_rules.
Context `{T : Tools}.
Implicit Types (md pdf html : string) (w : world).

(** Step 2 and its rules agree. *)
Lemma html_to_pdf_try_outcome html pdf w r w' :
  html_to_pdf html pdf w = (r, w') ↔ try_outcome html pdf w r w'.
Proof.
  rewrite html_to_pdf_run. split.
  - destruct weasyprint_import eqn:Hi; [intros [= <- <-]; by constructor|].
    destruct (render_pdf _ _ _ _) as [[[]|e] m2] eqn:Hr; cbn zeta;
      [|intros [= <- <-]; by constructor].
    destruct (m2 !! _) eqn:Hl; intros [= <- <-]; by econstructor.
  - destruct 1 as [e Hi|e m2 Hi Hr|m2 Hi Hr Hl|m2 data Hi Hr Hl];
      rewrite Hi; [done|rewrite Hr..]; [done|by rewrite Hl..].
Qed.

(** Once the converter has succeeded, the rest is step 2 under its
    handlers. *)
Lemma convert_outcome_after md pdf w cp m1 :
  spawn (cmd_html md (html_file_of md)) (cwd w) (fs w) = (Val cp, m1) →
  returncode cp = 0%Z →
  convert_outcome md pdf w =
    try_except (html_to_pdf (html_file_of md) pdf) pdf_handlers (after_html md w m1).
Proof.
  intros Hs Hrc. unfold convert_outcome. rewrite Hs, bool_decide_false by lia.
  rewrite try_pdf_handlers_run, html_to_pdf_run.
  unfold after_html, with_trace. cbn [cwd dirs fs trace]. cbn zeta.
  destruct weasyprint_import; [by trace_norm|].
  destruct (render_pdf _ _ _ _) as [[[]|e] m2]; [|by trace_norm].
  destruct (m2 !! _); by trace_norm.
Qed.

(** Every run is derivable. *)
Lemma converts_sound md pdf w r w' :
  markdown_to_pdf md pdf w = (r, w') → converts md pdf w r w'.
Proof.
  rewrite markdown_to_pdf_run.
  destruct (spawn (cmd_html md (html_file_of md)) (cwd w) (fs w))
    as [[cp|e] m1] eqn:Hs.
  2:{ unfold convert_outcome. rewrite Hs. intros [= <- <-]. by constructor. }
  destruct (decide (returncode cp = 0%Z)) as [Hrc|Hrc].
  2:{ unfold convert_outcome. rewrite Hs, bool_decide_true by done.
      intros [= <- <-]. log_norm. by eapply converts_html_failed. }
  rewrite (convert_outcome_after _ _ _ _ _ Hs Hrc), try_pdf_handlers_run.
  destruct (html_to_pdf _ _ _) as [[b|e] w2] eqn:H2;
    apply html_to_pdf_try_outcome in H2.
  - intros [= <- <-]. assert (b = true) as -> by by inv H2.
    by eapply converts_done.
  - unfold caught. destruct (report_of e) eqn:Hrep; intros [= <- <-].
    + by eapply converts_reported.
    + by eapply converts_escaped.
Qed.

(** Every derivation is a run. *)
Lemma converts_complete md pdf w r w' :
  converts md pdf w r w' → markdown_to_pdf md pdf w = (r, w').
Proof.
  rewrite markdown_to_pdf_run.
  destruct 1 as [e m1 Hs|cp m1 Hs Hrc|cp m1 w2 Hs Hrc H2
                |cp m1 e w2 line Hs Hrc H2 Hrep|cp m1 e w2 Hs Hrc H2 Hrep].
  { unfold convert_outcome. by rewrite Hs. }
  { unfold convert_outcome. rewrite Hs, bool_decide_true by done. by trace_norm. }
  all: rewrite (convert_outcome_after _ _ _ _ _ Hs Hrc), try_pdf_handlers_run;
    apply html_to_pdf_try_outcome in H2; rewrite H2; unfold caught;
    by rewrite ?Hrep.
Qed.

(** C1. [markdown_to_pdf] refines its rules: run from [w] it ends with
    result [r] in world [w'] exactly when [converts] derives that outcome
    from what the converter, the import, the renderer and the removal do.
    The result, the files left and the lines printed all agree. *)
Theorem markdown_to_pdf_converts md pdf w r w' :
  markdown_to_pdf md pdf w = (r, w') ↔ converts md pdf w r w'.
Proof. split; [apply converts_sound|apply converts_complete]. Qed.

End convert_rules.

(** ** What the handlers catch *)

Section report.
Lemma report_of_None e :
  report_of e = None ↔ Exn.isinstance e Exn.Exception = false.
Proof. destruct e as [[] ?]; by vm_compute. Qed.

Lemma report_of_Some e line :
  report_of e = Some line →
  line = Msg.weasyprint_missing ∨ line = Msg.pdf_error (Exn.msg e).
Proof. unfold report_of. repeat case_match; naive_solver. Qed.

(** The error of a failed [os.remove] is caught by the second clause. *)
Lemma report_of_enoent p :
  report_of (enoent p) = Some (Msg.pdf_error (enoent_msg p)).
Proof. done. Qed.
End report.

(** ** Results, exceptions and messages *)

Section convert_props.
Context `{T : Tools}.
Implicit Types (md pdf html : string) (w : world).

(** The one way step 2 returns [True]. *)
Lemma try_outcome_true html pdf w w2 :
  try_outcome html pdf w (Val true) w2 ↔
  ∃ m2 data,
    weasyprint_import = None ∧
    render_pdf html pdf (cwd w) (fs w) = (Val (), m2) ∧
    m2 !! (cwd w, html) = Some data ∧
    w2 = World (cwd w) (dirs w) (delete (cwd w, html) m2)
           (trace w ++ step2_trace html pdf).
Proof.
  split; [inversion 1; naive_solver|].
  intros (m2 & data & ? & ? & ? & ->). by econstructor.
Qed.

(** C6. [markdown_to_pdf] returns [True] exactly when the converter exits
    with status 0, the renderer imports and returns, and the HTML file is
    there to be removed; the world it leaves then has the converter's and
    the renderer's files without the HTML file, and the ten events of
    [conversion_trace] added to its trace, six lines and four calls. *)
Theorem markdown_to_pdf_true_iff md pdf w w' :
  markdown_to_pdf md pdf w = (Val true, w') ↔
  ∃ cp m1 m2 data,
    spawn (cmd_html md (html_file_of md)) (cwd w) (fs w) = (Val cp, m1) ∧
    returncode cp = 0%Z ∧
    weasyprint_import = None ∧
    render_pdf (html_file_of md) pdf (cwd w) m1 = (Val (), m2) ∧
    m2 !! (cwd w, html_file_of md) = Some data ∧
    w' = World (cwd w) (dirs w) (delete (cwd w, html_file_of md) m2)
           (trace w ++ conversion_trace md pdf).
Proof.
  split.
  - intros H%converts_sound. inv H.
    match goal with H : try_outcome _ _ _ _ _ |- _ => apply try_outcome_true in H as (m2 & data & ? & ? & ? & ->) end.
    exists cp, m1, m2, data. unfold after_html in *. cbn [cwd dirs fs trace] in *.
    by trace_norm.
  - intros (cp & m1 & m2 & data & Hs & Hrc & Hi & Hr & Hl & ->).
    apply converts_complete. eapply converts_done; [done..|].
    apply try_outcome_true. exists m2, data. unfold after_html.
    cbn [cwd dirs fs trace]. by trace_norm.
Qed.

(** C4. Error containment: an exception leaves [markdown_to_pdf] only if
    [subprocess.run] itself raised it (the call stands outside the [try]),
    or if it is no [Exception] (such as [KeyboardInterrupt]).  Every
    [Exception] raised by the import, the renderer or the removal is turned
    into [False]. *)
Theorem markdown_to_pdf_escape md pdf w e w' :
  markdown_to_pdf md pdf w = (Raise e, w') →
  (spawn (cmd_html md (html_file_of md)) (cwd w) (fs w)).1 = Raise e
  ∨ Exn.isinstance e Exn.Exception = false.
Proof.
  intros H%converts_sound. inv H.
  - left. by match goal with H : spawn _ _ _ = _ |- _ => rewrite H end.
  - right. by apply report_of_None.
Qed.

(** C33. A clean-up that fails turns a finished conversion into a failure:
    when the renderer has returned but the HTML file is not there to be
    removed, [os.remove] raises inside the [try], so [markdown_to_pdf]
    prints the error after the line that says the PDF was generated and
    returns [False], the files the renderer left (the PDF among them)
    staying as they are. *)
Theorem convert_cleanup_failure md pdf w cp m1 m2 :
  spawn (cmd_html md (html_file_of md)) (cwd w) (fs w) = (Val cp, m1) →
  returncode cp = 0%Z →
  weasyprint_import = None →
  render_pdf (html_file_of md) pdf (cwd w) m1 = (Val (), m2) →
  m2 !! (cwd w, html_file_of md) = None →
  markdown_to_pdf md pdf w =
    (Val false,
     World (cwd w) (dirs w) m2
       (trace w ++ take 9 (conversion_trace md pdf)
               ++ [Event.Out (Msg.pdf_error (enoent_msg (html_file_of md)))])).
Proof.
  intros Hs Hrc Hi Hr Hl. rewrite markdown_to_pdf_run. unfold convert_outcome.
  rewrite Hs, bool_decide_false, Hi, Hr, Hl by lia.
  unfold caught. rewrite report_of_enoent. cbn [with_trace cwd dirs fs trace].
  by trace_norm.
Qed.

(** C34. Every failure is reported: when [markdown_to_pdf] returns [False],
    the last line it printed is one of its three error messages. *)
Theorem markdown_to_pdf_false_reported md pdf w w' :
  markdown_to_pdf md pdf w = (Val false, w') →
  ∃ line,
    last (out w') = Some line ∧
    ((∃ err, line = Msg.html_error err) ∨
     line = Msg.weasyprint_missing ∨
     (∃ e, line = Msg.pdf_error e)).
Proof.
  intros H%converts_sound. inv H.
  - eexists. split; [log_proj; by rewrite last_app|]. eauto.
  - eexists. split; [rewrite out_add; apply last_snoc|].
    match goal with H : report_of _ = Some _ |- _ => apply report_of_Some in H as [->| ->] end; eauto.
Qed.

End convert_props.

(** ** The order of the calls *)

Section convert_calls.
Context `{T : Tools}.
Implicit Types (md pdf html : string) (w : world).

(** What the handlers make of an exception adds no call. *)
Lemma caught_calls e w : calls (caught e w).2 = calls w.
Proof.
  unfold caught. destruct (report_of e); [|done].
  cbn [snd]. by rewrite calls_add, app_nil_r.
Qed.

Lemma caught_not_true e w : (caught e w).1 ≠ Val true.
Proof. unfold caught. by destruct (report_of e). Qed.

(** An [Exception] met inside the [try] becomes [False] and one line. *)
Lemma caught_exception e w :
  Exn.isinstance e Exn.Exception = true →
  ∃ line, caught e w = (Val false, w +> [Event.Out line]).
Proof.
  intros He. unfold caught, report_of. rewrite He.
  destruct (Exn.isinstance e Exn.ImportError); eauto.
Qed.

(** The calls of a conversion are the first calls of
    [conversion_calls], as many as [calls_after_run] says. *)
Lemma convert_outcome_calls md pdf w :
  calls (convert_outcome md pdf w).2 =
    calls w ++ take (S (calls_after_run md pdf w)) (conversion_calls md pdf).
Proof.
  unfold convert_outcome, calls_after_run.
  destruct (spawn _ _ _) as [[cp|e] m1]; [|by log_proj].
  case_bool_decide; [by log_proj|].
  destruct weasyprint_import; [rewrite caught_calls; by log_proj|].
  destruct (render_pdf _ _ _ _) as [[[]|e] m2]; [|rewrite caught_calls; by log_proj].
  destruct (m2 !! _); [|rewrite caught_calls]; by log_proj.
Qed.

(** A conversion that answers [True] has made all four calls. *)
Lemma convert_outcome_true_calls md pdf w :
  (convert_outcome md pdf w).1 = Val true → calls_after_run md pdf w = 3.
Proof.
  unfold convert_outcome, calls_after_run.
  destruct (spawn _ _ _) as [[cp|e] m1]; [|done].
  case_bool_decide; [done|].
  destruct weasyprint_import; [by intros ?%caught_not_true|].
  destruct (render_pdf _ _ _ _) as [[[]|e] m2]; [done|by intros ?%caught_not_true].
Qed.

(** The tools after the converter are called exactly when the converter
    has exited with status 0. *)
Lemma calls_after_run_pos md pdf w :
  0 < calls_after_run md pdf w ↔
  ∃ cp, (spawn (cmd_html md (html_file_of md)) (cwd w) (fs w)).1 = Val cp ∧
        returncode cp = 0%Z.
Proof.
  unfold calls_after_run. destruct (spawn _ _ _) as [[cp|e] m1]; cbn [fst].
  - case_bool_decide as Hrc.
    + split; [lia|]. by intros (? & [= <-] & ?).
    + split; [|repeat case_match; lia]. intros _. exists cp. split; [done|].
      by destruct (decide (returncode cp = 0%Z)).
  - split; [lia|]. by intros (? & ? & _).
Qed.

Lemma calls_after_run_le md pdf w : calls_after_run md pdf w ≤ 3.
Proof. unfold calls_after_run. repeat case_match; lia. Qed.

(** The order of the calls of one conversion: [markdown_to_pdf] starts
    the converter first, then imports the renderer, then renders, then
    removes the intermediate file, and stops at the first of these that
    fails.  The calls it adds to the history are the first [n + 1] of
    these four; more than the first is made exactly when the converter
    has exited with status 0, and all four have been made when the answer
    is [True]. *)
Lemma markdown_to_pdf_calls md pdf w :
  ∃ n,
    calls (markdown_to_pdf md pdf w).2 =
      calls w ++ take (S n) (conversion_calls md pdf) ∧
    n ≤ 3 ∧
    (0 < n ↔
     ∃ cp, (spawn (cmd_html md (html_file_of md)) (cwd w) (fs w)).1 = Val cp ∧
           returncode cp = 0%Z) ∧
    ((markdown_to_pdf md pdf w).1 = Val true → n = 3).
Proof.
  exists (calls_after_run md pdf w). rewrite markdown_to_pdf_run. split_and!.
  - apply convert_outcome_calls.
  - apply calls_after_run_le.
  - apply calls_after_run_pos.
  - apply convert_outcome_true_calls.
Qed.

(** What the handlers make of an exception adds one line to the trace,
    or nothing when no clause catches it. *)
Lemma caught_trace e w :
  ∃ tail,
    trace (caught e w).2 = trace w ++ tail ∧
    match (caught e w).1 with
    | Val true => False
    | Val false => ∃ line, tail = [Event.Out line]
    | Raise _ => tail = []
    end.
Proof.
  unfold caught. destruct (report_of e) as [line|].
  - exists [Event.Out line]. split; [done|by eexists].
  - exists []. split; [by rewrite app_nil_r|done].
Qed.

Local Ltac caught_case md pdf cp n :=
  match goal with
  | |- context [caught ?e ?W] =>
      let tail := fresh "tail" in
      destruct (caught_trace e W) as (tail & -> & ?);
      exists (take n (conversion_trace md pdf)), tail;
      split_and!;
        [ cbn [trace]; by trace_norm | apply prefix_take | cbn; lia
        | split; [intros _; by exists cp|cbn; lia]
        | by destruct (caught e W).1 as [[]|] ]
  end.

(** C12. The trace of one conversion: the events [markdown_to_pdf] adds
    are a beginning of [conversion_trace], in which the converter and the
    renderer are called between the line that announces the step and the
    line that confirms it and the intermediate file is removed before the
    line that says so, followed by one error line when the answer is
    [False] and by nothing otherwise.  The converter is always started; anything is done after
    it exactly when it has exited with status 0; and the answer is [True]
    only when the whole of [conversion_trace] has happened. *)
Theorem markdown_to_pdf_trace md pdf w :
  ∃ t tail,
    trace (markdown_to_pdf md pdf w).2 = trace w ++ t ++ tail ∧
    t `prefix_of` conversion_trace md pdf ∧
    3 ≤ length t ∧
    (3 < length t ↔
     ∃ cp, (spawn (cmd_html md (html_file_of md)) (cwd w) (fs w)).1 = Val cp ∧
           returncode cp = 0%Z) ∧
    match (markdown_to_pdf md pdf w).1 with
    | Val true => t = conversion_trace md pdf ∧ tail = []
    | Val false => ∃ line, tail = [Event.Out line]
    | Raise _ => tail = []
    end.
Proof.
  rewrite markdown_to_pdf_run. unfold convert_outcome.
  destruct (spawn _ _ _) as [[cp|e] m1]; cbn [fst].
  2:{ exists (take 3 (conversion_trace md pdf)), [].
      split_and!; [by trace_norm|apply prefix_take|cbn; lia| |done].
      split; [cbn; lia|by intros (? & ? & _)]. }
  case_bool_decide as Hrc.
  { exists (take 3 (conversion_trace md pdf)), [Event.Out (Msg.html_error (stderr cp))].
    split_and!; [by trace_norm|apply prefix_take|cbn; lia| |by eexists].
    split; [cbn; lia|by intros (? & [= <-] & ?)]. }
  destruct weasyprint_import; [caught_case md pdf cp 5|].
  destruct (render_pdf _ _ _ _) as [[[]|e] m2]; [|caught_case md pdf cp 7].
  destruct (m2 !! _); [|caught_case md pdf cp 9].
  exists (conversion_trace md pdf), [].
  split_and!; [by trace_norm|done|cbn; lia| |done].
  split; [intros _; by exists cp|cbn; lia].
Qed.

End convert_calls.

(** ** The intermediate file name, continued *)

Section html_name.
(** For a name that ends in [".md"] and has no other [".md"] in it, the
    intermediate file is the same name with [".html"] for [".md"]. *)
Lemma html_file_of_md base :
  Replace.contains ".md" base = false →
  html_file_of (base +:+ ".md") = base +:+ ".html".
Proof.
  intros H. unfold html_file_of, Replace.replace.
  rewrite <-(str_app_nil_r (base +:+ ".md")), str_app_assoc.
  by rewrite replace_go_md_suffix.
Qed.

(** For a name without [".md"] the intermediate file is the source file
    itself: line 16 replaces nothing. *)
Lemma html_file_of_absent s :
  Replace.contains ".md" s = false → html_file_of s = s.
Proof. apply Replace.replace_go_absent. Qed.

Lemma html_file_of_md_witness :
  html_file_of ("REFERENCE_MANUAL" +:+ ".md") = "REFERENCE_MANUAL" +:+ ".html".
Proof. apply (html_file_of_md "REFERENCE_MANUAL"). by vm_compute. Defined.

End html_name.

(** C38. The intermediate name is the result of replacing every occurrence
    of [".md"], leftmost first and without overlap, by [".html"]: it is the
    one string the reference definition [Replace.replaced] relates the
    source name to. *)
Theorem html_file_of_replaced md r :
  Replace.replaced ".md" ".html" md r ↔ r = html_file_of md.
Proof. by apply Replace.replace_replaced_iff. Qed.

(** ** Invariants *)

Section convert_inv.
Context `{T : Tools}.
Implicit Types (md pdf html : string) (w : world).

Lemma markdown_to_pdf_trace_grows md pdf :
  preserves trace_grows (markdown_to_pdf md pdf).
Proof. unfold markdown_to_pdf, html_to_pdf, pdf_handlers. pres. Qed.
Lemma markdown_to_pdf_same_cwd md pdf : preserves same_cwd (markdown_to_pdf md pdf).
Proof. unfold markdown_to_pdf, html_to_pdf, pdf_handlers. pres. Qed.
Lemma markdown_to_pdf_same_dirs md pdf : preserves same_dirs (markdown_to_pdf md pdf).
Proof. unfold markdown_to_pdf, html_to_pdf, pdf_handlers. pres. Qed.

(** The one file [markdown_to_pdf] deletes is the intermediate file. *)
Lemma markdown_to_pdf_removes P md pdf :
  html_file_of md ∈ P → preserves (removes P) (markdown_to_pdf md pdf).
Proof. intros Hh. unfold markdown_to_pdf, html_to_pdf, pdf_handlers. pres. Qed.

(** Whatever happens, [markdown_to_pdf] only adds events to the trace,
    so lines to standard output and calls to the history, and leaves the
    current directory and the set of directories as they were. *)
Lemma markdown_to_pdf_invariants md pdf w :
  let w' := (markdown_to_pdf md pdf w).2 in
  trace w `prefix_of` trace w' ∧
  out w `prefix_of` out w' ∧ calls w `prefix_of` calls w' ∧
  cwd w' = cwd w ∧ dirs w' = dirs w.
Proof.
  pose proof (preserves_run trace_grows _ w (markdown_to_pdf_trace_grows md pdf)).
  split_and!; [done|by apply trace_grows_out|by apply trace_grows_calls|..].
  - apply (preserves_run same_cwd), markdown_to_pdf_same_cwd.
  - apply (preserves_run same_dirs), markdown_to_pdf_same_dirs.
Qed.

(** After a [True] the intermediate file is gone. *)
Lemma converts_true_html_removed md pdf w w' :
  converts md pdf w (Val true) w' →
  cwd w' = cwd w ∧ file_at w' (html_file_of md) = None.
Proof.
  inversion 1 as [| |cp m1 w2 Hs Hrc (m2 & data & _ & _ & _ & ->)%try_outcome_true| |].
  split; [done|]. unfold file_at. cbn [cwd fs after_html]. apply lookup_delete_eq.
Qed.

(** C36. When [markdown_to_pdf] returns [True], no file is left under the
    intermediate HTML name, whatever the tools have done: the removal of
    line 48 is the last change to the files. *)
Theorem convert_true_html_removed md pdf w w' :
  markdown_to_pdf md pdf w = (Val true, w') →
  file_at w' (html_file_of md) = None.
Proof. intros H%converts_sound. by apply converts_true_html_removed in H as [_ ?]. Qed.

(** C35. A source whose name has no [".md"] in it does not survive a
    successful conversion: the intermediate name is the source name, the
    converter is told to write over the source, and the clean-up deletes
    it. *)
Theorem convert_source_destroyed md pdf w w' :
  Replace.contains ".md" md = false →
  markdown_to_pdf md pdf w = (Val true, w') →
  file_at w' md = None.
Proof.
  intros Hmd H%converts_sound. rewrite <-(html_file_of_absent md) by done.
  by apply converts_true_html_removed in H as [_ ?].
Qed.

End convert_inv.

#[export] Hint Resolve markdown_to_pdf_trace_grows markdown_to_pdf_same_cwd
  markdown_to_pdf_same_dirs markdown_to_pdf_removes : pyauto.

Lemma convert_true_html_removed_witness :
  file_at (markdown_to_pdf (T:=Toolsets.ideal) "a.md" "a.pdf" Toolsets.sample).2
    (html_file_of "a.md") = None.
Proof.
  apply (convert_true_html_removed (T:=Toolsets.ideal) "a.md" "a.pdf"
           Toolsets.sample).
  by vm_compute.
Defined.

Lemma convert_source_destroyed_witness :
  file_at (markdown_to_pdf (T:=Toolsets.ideal) "README" "README.pdf"
             Toolsets.sample).2 "README" = None.
Proof.
  apply (convert_source_destroyed (T:=Toolsets.ideal) "README" "README.pdf"
           Toolsets.sample); by vm_compute.
Defined.

(** ** Under the tools' contract *)

Section convert_contract.
Context `{T : Tools} `{!ToolsContract T}.
Implicit Types (md pdf html : string) (w : world).

(** The command line names the intermediate file as the output. *)
Lemma cmd_html_output md html :
  md ≠ "-o" → opt_value "-o" (cmd_html md html) = Some html.
Proof. intros Hmd. unfold cmd_html. simpl. by rewrite bool_decide_false. Qed.

(** A well-behaved converter run on the script's command line touches the
    intermediate file only. *)
Lemma spawn_cmd_frame md w r m1 k :
  md ≠ "-o" →
  spawn (cmd_html md (html_file_of md)) (cwd w) (fs w) = (r, m1) →
  k ≠ (cwd w, html_file_of md) →
  m1 !! k = fs w !! k.
Proof.
  intros Hmd Hs Hk. eapply spawn_frame; [done|].
  intros o. rewrite cmd_html_output by done. by intros [= <-].
Qed.

(** The converter run on the script's command line touches the
    intermediate file at most. *)
Lemma cmd_html_touches P md :
  md ≠ "-o" → html_file_of md ∈ P →
  preserves (touches P) (subprocess_run (cmd_html md (html_file_of md))).
Proof.
  intros Hmd Hh. apply subprocess_run_touches.
  intros o. rewrite cmd_html_output by done. by intros [= <-].
Qed.

(** [markdown_to_pdf] touches the intermediate file and the PDF at most. *)
Lemma markdown_to_pdf_touches P md pdf :
  md ≠ "-o" → html_file_of md ∈ P → pdf ∈ P →
  preserves (touches P) (markdown_to_pdf md pdf).
Proof.
  intros Hmd Hh Hp. pose proof (cmd_html_touches P md Hmd Hh).
  unfold markdown_to_pdf, html_to_pdf, pdf_handlers. pres.
Qed.

(** [markdown_to_pdf] leaves a well-formed world well formed. *)
Lemma markdown_to_pdf_world_ok md pdf :
  preserves (keeps world_ok) (markdown_to_pdf md pdf).
Proof. unfold markdown_to_pdf, html_to_pdf, pdf_handlers. pres. Qed.

(** C26. Frame: with tools that keep their contract and a source that
    is not named [-o] (the converter would read it as its output option),
    [markdown_to_pdf] changes no file but the intermediate HTML file and
    the PDF, whatever its result. *)
Theorem convert_frame md pdf w k :
  md ≠ "-o" →
  k ≠ (cwd w, html_file_of md) → k ≠ (cwd w, pdf) →
  fs (markdown_to_pdf md pdf w).2 !! k = fs w !! k.
Proof.
  intros Hmd Hh Hp. destruct k as [d p].
  apply (preserves_run (touches {[html_file_of md; pdf]})).
  - apply markdown_to_pdf_touches; [done|set_solver..].
  - intros ->. rewrite not_elem_of_union, !not_elem_of_singleton. split; congruence.
Qed.

(** C8. With tools that keep their contract, a [True] from
    [markdown_to_pdf] means that the PDF exists and is not empty (the PDF
    name being another name than the intermediate one). *)
Theorem convert_true_pdf_exists md pdf w w' :
  pdf ≠ html_file_of md →
  markdown_to_pdf md pdf w = (Val true, w') →
  ∃ data, file_at w' pdf = Some data ∧ data ≠ "".
Proof.
  intros Hne H%converts_sound.
  inversion H as [| |cp m1 w2 Hs Hrc (m2 & data & _ & Hr & _ & ->)%try_outcome_true| |].
  apply render_success in Hr as (pdfdata & Hl & ?). exists pdfdata. split; [|done].
  unfold file_at. cbn [cwd fs after_html] in *. rewrite lookup_delete_ne by congruence. done.
Qed.

(** A converter that has exited with status 0 has written the
    intermediate file, and a renderer that writes another file leaves it
    there. *)
Lemma html_after_render md pdf d m cp m1 r m2 :
  md ≠ "-o" → pdf ≠ html_file_of md →
  spawn (cmd_html md (html_file_of md)) d m = (Val cp, m1) →
  returncode cp = 0%Z →
  render_pdf (html_file_of md) pdf d m1 = (r, m2) →
  is_Some (m2 !! (d, html_file_of md)).
Proof.
  intros Hmd Hne Hs Hrc Hr.
  rewrite (render_frame _ _ _ _ _ _ _ Hr) by congruence.
  eapply spawn_success; [done..|]. by apply cmd_html_output.
Qed.

(** C22. With tools that keep their contract the clean-up cannot fail, so
    the answer of [markdown_to_pdf] is that of the tools: it is [True]
    exactly when the converter exits with status 0 and the renderer
    imports and returns.  Two conditions on the names: the source is not
    named [-o], which the converter would read as its output option, and
    the PDF name is another name than the intermediate one. *)
Theorem convert_true_iff_tools md pdf w :
  md ≠ "-o" → pdf ≠ html_file_of md →
  (markdown_to_pdf md pdf w).1 = Val true ↔
  ∃ cp m1 m2,
    spawn (cmd_html md (html_file_of md)) (cwd w) (fs w) = (Val cp, m1) ∧
    returncode cp = 0%Z ∧
    weasyprint_import = None ∧
    render_pdf (html_file_of md) pdf (cwd w) m1 = (Val (), m2).
Proof.
  intros Hmd Hne. split.
  - destruct (markdown_to_pdf md pdf w) as [r w'] eqn:H. intros [= ->].
    apply markdown_to_pdf_true_iff in H as (cp & m1 & m2 & _ & ? & ? & ? & ? & _).
    by exists cp, m1, m2.
  - intros (cp & m1 & m2 & Hs & Hrc & Hi & Hr).
    destruct (html_after_render md pdf _ _ cp m1 _ m2 Hmd Hne Hs Hrc Hr) as [data Hl].
    erewrite (proj2 (markdown_to_pdf_true_iff md pdf w _)); [done|].
    by exists cp, m1, m2, data.
Qed.

(** What the handlers make of an exception changes no file. *)
Lemma caught_file_at e w p : file_at (caught e w).2 p = file_at w p.
Proof. unfold caught. by destruct (report_of e). Qed.

(** C37. A rendering that fails leaves the intermediate file behind: with
    tools that keep their contract, when the converter has exited with
    status 0 and [markdown_to_pdf] does not answer [True], because the
    import or the renderer has raised, caught or not, the HTML file is
    among the files it leaves.  The clean-up of line 48 is reached only
    after the renderer has returned.  Two conditions on the names: the
    source is not named [-o], and the PDF name is not the intermediate
    name, over which the renderer would have written. *)
Theorem convert_failed_html_left md pdf w cp m1 :
  md ≠ "-o" → pdf ≠ html_file_of md →
  spawn (cmd_html md (html_file_of md)) (cwd w) (fs w) = (Val cp, m1) →
  returncode cp = 0%Z →
  (markdown_to_pdf md pdf w).1 ≠ Val true →
  is_Some (file_at (markdown_to_pdf md pdf w).2 (html_file_of md)).
Proof.
  intros Hmd Hne Hs Hrc. rewrite markdown_to_pdf_run. unfold convert_outcome.
  rewrite Hs, bool_decide_false by lia.
  destruct weasyprint_import.
  { intros _. rewrite caught_file_at. unfold file_at. cbn [cwd fs].
    eapply spawn_success; [done..|]. by apply cmd_html_output. }
  destruct (render_pdf _ _ _ _) as [[[]|e] m2] eqn:Hr;
    pose proof (html_after_render _ _ _ _ _ _ _ _ Hmd Hne Hs Hrc Hr) as [data Hl].
  - by rewrite Hl.
  - intros _. rewrite caught_file_at. unfold file_at. cbn [cwd fs]. by rewrite Hl.
Qed.

(** C32. When the converter exits with a non-zero status,
    [markdown_to_pdf] returns [False] and, with tools that keep their
    contract, the PDF name holds what it held before: nothing is
    rendered.  Two conditions on the names: the source is not named
    [-o], and the PDF name is not the intermediate name, which the
    converter may have written before it failed. *)
Theorem convert_html_failed_no_pdf md pdf w cp m1 :
  md ≠ "-o" → pdf ≠ html_file_of md →
  spawn (cmd_html md (html_file_of md)) (cwd w) (fs w) = (Val cp, m1) →
  returncode cp ≠ 0%Z →
  (markdown_to_pdf md pdf w).1 = Val false ∧
  file_at (markdown_to_pdf md pdf w).2 pdf = file_at w pdf.
Proof.
  intros Hmd Hne Hs Hrc. rewrite markdown_to_pdf_run. unfold convert_outcome.
  rewrite Hs, bool_decide_true by done. split; [done|]. unfold file_at. cbn [snd cwd fs].
  eapply spawn_cmd_frame; [done..|congruence].
Qed.

End convert_contract.

#[export] Hint Resolve markdown_to_pdf_world_ok : pyauto.

(** The theorems above, on the sample world with the toolsets of
    [Toolsets]. *)

Lemma convert_frame_witness :
  fs (markdown_to_pdf (T:=Toolsets.ideal) "a.md" "a.pdf" Toolsets.sample).2
    !! ("/docs", "README") = fs Toolsets.sample !! ("/docs", "README").
Proof.
  apply (convert_frame (T:=Toolsets.ideal) "a.md" "a.pdf" Toolsets.sample);
    by vm_compute.
Defined.

Lemma convert_true_pdf_exists_witness :
  ∃ data,
    file_at (markdown_to_pdf (T:=Toolsets.ideal) "a.md" "a.pdf" Toolsets.sample).2
      "a.pdf" = Some data ∧ data ≠ "".
Proof.
  apply (convert_true_pdf_exists (T:=Toolsets.ideal) "a.md" "a.pdf"
           Toolsets.sample); by vm_compute.
Defined.

Lemma convert_true_iff_tools_witness :
  (markdown_to_pdf (T:=Toolsets.ideal) "a.md" "a.pdf" Toolsets.sample).1 = Val true ↔
  ∃ cp m1 m2,
    @spawn Toolsets.ideal (cmd_html "a.md" (html_file_of "a.md"))
      (cwd Toolsets.sample) (fs Toolsets.sample) = (Val cp, m1) ∧
    returncode cp = 0%Z ∧
    @weasyprint_import Toolsets.ideal = None ∧
    @render_pdf Toolsets.ideal (html_file_of "a.md") "a.pdf" (cwd Toolsets.sample) m1
      = (Val (), m2).
Proof.
  apply (convert_true_iff_tools (T:=Toolsets.ideal) "a.md" "a.pdf" Toolsets.sample);
    by vm_compute.
Defined.

Lemma convert_failed_html_left_witness :
  is_Some
    (file_at (markdown_to_pdf (T:=Toolsets.no_weasyprint) "a.md" "a.pdf"
                Toolsets.sample).2 (html_file_of "a.md")).
Proof.
  eapply (convert_failed_html_left (T:=Toolsets.no_weasyprint) "a.md" "a.pdf"
            Toolsets.sample); [done|done|reflexivity|done|by vm_compute].
Defined.

Lemma convert_html_failed_no_pdf_witness :
  (markdown_to_pdf (T:=Toolsets.rejecting) "a.md" "a.pdf" Toolsets.sample).1
    = Val false ∧
  file_at (markdown_to_pdf (T:=Toolsets.rejecting) "a.md" "a.pdf"
             Toolsets.sample).2 "a.pdf" = file_at Toolsets.sample "a.pdf".
Proof.
  eapply (convert_html_failed_no_pdf (T:=Toolsets.rejecting) "a.md" "a.pdf"
            Toolsets.sample); [by vm_compute..|reflexivity|by vm_compute].
Defined.

Lemma markdown_to_pdf_escape_witness :
  (@spawn (Toolsets.broken_renderer (Exn.Build Exn.KeyboardInterrupt ""))
     (cmd_html "a.md" (html_file_of "a.md")) (cwd Toolsets.sample)
     (fs Toolsets.sample)).1
    = Raise (Exn.Build Exn.KeyboardInterrupt "")
  ∨ Exn.isinstance (Exn.Build Exn.KeyboardInterrupt "") Exn.Exception = false.
Proof.
  eapply (markdown_to_pdf_escape
            (T:=Toolsets.broken_renderer (Exn.Build Exn.KeyboardInterrupt ""))
            "a.md" "a.pdf" Toolsets.sample).
  by vm_compute.
Defined.

Lemma markdown_to_pdf_false_reported_witness :
  ∃ line,
    last (out (markdown_to_pdf (T:=Toolsets.no_weasyprint) "a.md" "a.pdf"
                 Toolsets.sample).2) = Some line ∧
    ((∃ err, line = Msg.html_error err) ∨
     line = Msg.weasyprint_missing ∨
     (∃ e, line = Msg.pdf_error e)).
Proof.
  apply (markdown_to_pdf_false_reported (T:=Toolsets.no_weasyprint)
           "a.md" "a.pdf" Toolsets.sample).
  by vm_compute.
Defined.

Lemma convert_cleanup_failure_witness :
  ∃ w',
    markdown_to_pdf (T:=Toolsets.consuming) "a.md" "a.pdf" Toolsets.sample
      = (Val false, w') ∧
    is_Some (file_at w' "a.pdf") ∧
    last (out w') = Some (Msg.pdf_error (enoent_msg "a.html")).
Proof.
  eexists. split.
  - eapply (convert_cleanup_failure (T:=Toolsets.consuming) "a.md" "a.pdf"
              Toolsets.sample); [reflexivity..|by vm_compute].
  - vm_compute. split; [by eexists|done].
Defined.
