(* ===== verification/Lines.v ===== *)
(** * Lines: what the driver prints

    The lines [main] of [src/convert_to_pdf.py] prints: the rule and the
    title of the banner (lines 72-74), the warning for a missing source
    (line 89), the summary with the two counters (line 94), the heading of
    the listing (line 98) and its two kinds of line (lines 102 and 104),
    the first with the size of the PDF in megabytes, two decimals
    (lines 101-102).

    The theorems say that the summary and the listing can be read back,
    and what the size printed says of the size of the file: it is the
    nearest hundredth for a file of less than [2^53] bytes, within a tenth
    of a hundredth of it for any size that fits 64 bits, and never smaller
    for a larger file. *)

From S2P Require Import Prelude PyStr.

(** ** The lines *)

Module Report.

(** ["=" * 60] *)
Definition rule : string := Format.repeat "=" 60.
Definition title : string := "IOC_Config Documentation - PDF Generation".
Definition not_found (md_file : string) : string :=
  "⚠ File not found: " +:+ md_file.
Definition summary (success_count fail_count : nat) : string :=
  "Summary: " +:+ Format.str_of_nat success_count +:+ " successful, "
  +:+ Format.str_of_nat fail_count +:+ " failed".
(** The line feed that opens the heading of the listing. *)
Definition lf : string := String "010"%char "".
Definition generated : string := lf +:+ "Generated PDF files:".
(** [st_size / (1024 * 1024)], in hundredths, as [:.2f] rounds it.  The
    division of two integers gives the double nearest to the quotient,
    which is the double nearest to [st_size] over [2^20]; the format then
    rounds that double to two decimals. *)
Definition size_mb_hundredths (st_size : N) : N :=
  Format.round_half_even (100 * Format.round53 st_size) (1024 * 1024).
Definition present_line (pdf_file : string) (st_size : N) : string :=
  "  ✓ " +:+ pdf_file +:+ " (" +:+ Format.fmt_2f (size_mb_hundredths st_size)
  +:+ " MB)".
Definition absent (pdf_file : string) : string :=
  "  ✗ " +:+ pdf_file +:+ " (NOT FOUND)".

End Report.

(** ** The summary line *)

(** The summary can be read back: two runs that print the same
    summary line had the same number of successes and the same number of
    failures. *)
Theorem summary_inj s f s' f' :
  Report.summary s f = Report.summary s' f' → s = s' ∧ f = f'.
Proof.
  unfold Report.summary. intros H%str_app_inv_head.
  apply (Format.digits_app_sep _ _ " "%char) in H as [Hs H];
    [|apply Format.str_of_nat_digits..|done].
  apply (str_app_inv_head "successful, ") in H.
  apply (Format.digits_app_sep _ _ " "%char) in H as [Hf _];
    [|apply Format.str_of_nat_digits..|done].
  split; by eapply (inj pretty).
Qed.

(** The listing can be read back: two lines of the listing for the
    same PDF that are equal were printed for sizes that round to the same
    hundredth of a megabyte. *)
Theorem present_line_inj pdf s1 s2 :
  Report.present_line pdf s1 = Report.present_line pdf s2 →
  Report.size_mb_hundredths s1 = Report.size_mb_hundredths s2.
Proof.
  unfold Report.present_line.
  intros H%str_app_inv_head%str_app_inv_head%str_app_inv_head.
  by apply Format.fmt_2f_inj in H as [? _].
Qed.

(** ** The size in megabytes *)

Section size.
Local Open Scope N_scope.

(** The size printed is within half a hundredth of the double. *)
Lemma size_mb_hundredths_double st_size :
  let h := Report.size_mb_hundredths st_size in
  let x := Format.round53 st_size in
  2 * (100 * x) ≤ 2 * h * 1048576 + 1048576 ∧
  2 * h * 1048576 ≤ 2 * (100 * x) + 1048576.
Proof.
  by apply (Format.round_half_even_nearest (100 * Format.round53 st_size)
              (1024 * 1024)).
Qed.

(** C39. For a file of less than [2^53] bytes the size printed is the true
    size in megabytes rounded to the nearest hundredth: it differs from
    [st_size / 1048576] by at most half a hundredth. *)
Theorem size_mb_hundredths_nearest st_size :
  st_size < 2 ^ 53 →
  let h := Report.size_mb_hundredths st_size in
  2 * (100 * st_size) ≤ 2 * h * 1048576 + 1048576 ∧
  2 * h * 1048576 ≤ 2 * (100 * st_size) + 1048576.
Proof.
  intros Hn. pose proof (size_mb_hundredths_double st_size) as H.
  by rewrite Format.round53_exact in H.
Qed.

(** C40. For any size that fits 64 bits the division may round, since a
    double has 53 bits: the size printed then differs from
    [st_size / 1048576] by half a hundredth and at most 1024 bytes more (a
    tenth of a hundredth). *)
Theorem size_mb_hundredths_64bit st_size :
  st_size < 2 ^ 64 →
  let h := Report.size_mb_hundredths st_size in
  2 * (100 * st_size) ≤ 2 * h * 1048576 + 1048576 + 100 * 2048 ∧
  2 * h * 1048576 ≤ 2 * (100 * st_size) + 1048576 + 100 * 2048.
Proof.
  intros Hn h. destruct (size_mb_hundredths_double st_size) as [H1 H2].
  destruct (Format.round53_nearest st_size) as [H3 H4].
  pose proof (Format.round53_ulp64 st_size Hn) as Hu. cbn zeta in *.
  change (2 ^ 11) with 2048 in Hu. fold h in H1, H2. lia.
Qed.

(** A larger file is never listed with a smaller size. *)
Lemma size_mb_hundredths_mono size1 size2 :
  size1 ≤ size2 →
  Report.size_mb_hundredths size1 ≤ Report.size_mb_hundredths size2.
Proof.
  intros H. apply Format.round_half_even_mono; [done|].
  apply N.mul_le_mono_l. by apply Format.round53_mono.
Qed.

End size.

Lemma size_mb_hundredths_mono_witness :
  (Report.size_mb_hundredths 131072 ≤ Report.size_mb_hundredths 1048576)%N.
Proof. apply size_mb_hundredths_mono. by vm_compute. Defined.

Lemma size_mb_hundredths_nearest_witness :
  let h := Report.size_mb_hundredths 5243 in
  (2 * (100 * 5243) ≤ 2 * h * 1048576 + 1048576 ∧
   2 * h * 1048576 ≤ 2 * (100 * 5243) + 1048576)%N.
Proof. apply (size_mb_hundredths_nearest 5243). by vm_compute. Defined.

Lemma size_mb_hundredths_64bit_witness :
  let h := Report.size_mb_hundredths 17356790113306174687 in
  (2 * (100 * 17356790113306174687) ≤ 2 * h * 1048576 + 1048576 + 100 * 2048 ∧
   2 * h * 1048576 ≤ 2 * (100 * 17356790113306174687) + 1048576 + 100 * 2048)%N.
Proof. apply (size_mb_hundredths_64bit 17356790113306174687). by vm_compute. Defined.

(** Lines of the listing as Python prints them, at the two sides of a
    rounding boundary, for a size that is no double, and for one where
    the rounding of the division shows in the last digit. *)
Example present_line_samples :
  Report.present_line "a.pdf" 5242 = "  ✓ a.pdf (0.00 MB)" ∧
  Report.present_line "a.pdf" 5243 = "  ✓ a.pdf (0.01 MB)" ∧
  Report.present_line "a.pdf" 1572864 = "  ✓ a.pdf (1.50 MB)" ∧
  Report.present_line "a.pdf" 9223372036854775807
    = "  ✓ a.pdf (8796093022208.00 MB)" ∧
  Report.present_line "a.pdf" 17356790113306174687
    = "  ✓ a.pdf (16552724946314.03 MB)" ∧
  Format.fmt_2f
    (Format.round_half_even (100 * 17356790113306174687) (1024 * 1024))
    = "16552724946314.02".
Proof. by vm_compute. Qed.

(** ** The theorems at work *)

Lemma present_line_inj_witness :
  Report.size_mb_hundredths 5243 = Report.size_mb_hundredths 6000.
Proof. apply (present_line_inj "a.pdf" 5243 6000). by vm_compute. Defined.
