(* ===== verification/Batch.v ===== *)
(** * Batch: the driver

    [main] of [src/convert_to_pdf.py] (lines 61-104): change to the
    documentation directory, print a banner, convert each document of a
    fixed list while counting successes and failures, print the summary,
    then list each expected PDF with its size in megabytes or as missing.
    Lines 107-108 run [main] when the file is executed, after the imports
    of lines 6-8.

    [main_on] is [main] with the directory and the document list as
    arguments; [main] applies it to the values the source hard-codes,
    [script] runs it as the last two lines of the file do, and
    [module_body] is the file from top to bottom.  [loop_step] is the
    first loop as a machine, one turn per step.

    The theorems say what the driver prints and counts, when it returns
    and when an exception ends it, which files it can change and that it
    keeps the world well formed, and that its first loop gets to the end
    of its list when the tools cannot make the script crash.  The lines
    it prints are those of [Lines]; [History] reads the calls it
    makes. *)

From S2P Require Import Prelude PyStr Exec Tools Convert Lines.

(** ** The driver *)

(** The directory of line 64. *)
Definition workdir : string :=
  "/Users/michelebigi/VisualStudioCode/GitHub/IOC_Config".

(** The list of lines 66-70. *)
Definition documents : list (string * string) :=
  [ ("REFERENCE_MANUAL.md", "REFERENCE_MANUAL.pdf");
    ("IMPLEMENTATION_GUIDE.md", "IMPLEMENTATION_GUIDE.pdf");
    ("ARCHITECTURE.md", "ARCHITECTURE.pdf") ].

(** Two documents for the sample world of [Toolsets], the second of them
    missing there. *)
Definition two_docs : list (string * string) :=
  [("a.md", "a.pdf"); ("b.md", "b.pdf")].

(** The files a batch may write in its directory: for each document, the
    intermediate HTML file and the PDF. *)
Definition artifacts (docs : list (string * string)) : gset string :=
  list_to_set (docs ≫= λ doc, [html_file_of doc.1; doc.2]).

Section batch.
Context `{T : Tools}.

(** The body of the first loop (lines 80-91), the two counters as its
    state. *)
Definition convert_one '((success_count, fail_count) : nat * nat)
    '((md_file, pdf_file) : string * string) : M (nat * nat) :=
  found ← path_exists md_file;
  if (found : bool) then
    ok ← markdown_to_pdf md_file pdf_file;
    if (ok : bool) then
      print "";;
      mret (S success_count, fail_count)
    else
      print "";;
      mret (success_count, S fail_count)
  else
    print (Report.not_found md_file);;
    print "";;
    mret (success_count, S fail_count).

(** The body of the second loop (lines 99-104). *)
Definition report_pdf '((md_file, pdf_file) : string * string) : M () :=
  found ← path_exists pdf_file;
  if (found : bool) then
    st_size ← stat_size pdf_file;
    print (Report.present_line pdf_file st_size)
  else
    print (Report.absent pdf_file).

(** [main] over a directory and a list of documents. *)
Definition main_on (dir : string) (docs : list (string * string)) : M () :=
  os_chdir dir;;
  print Report.rule;;
  print Report.title;;
  print Report.rule;;
  print "";;
  counts ← for_each convert_one docs (0, 0);
  print Report.rule;;
  print (Report.summary counts.1 counts.2);;
  print Report.rule;;
  print Report.generated;;
  for_each_ report_pdf docs.

(** [main()] *)
Definition main : M () := main_on workdir documents.

(** The last two lines of the file: [main] is run when the file is
    executed as a script, and not when it is imported as a module. *)
Definition script (name : string) : M () :=
  if bool_decide (name = "__main__") then main else mret ().

(** The three imports at the head of the file (lines 6-8). *)
Definition imports : M () :=
  import_module "subprocess";;
  import_module "os";;
  import_module "pathlib".

(** The file from top to bottom: the imports, the two [def]s, which bind
    [markdown_to_pdf] and [main] and do nothing else, and the last two
    lines. *)
Definition module_body (name : string) : M () :=
  imports;;
  script name.

(** The world in which the first loop starts: in directory [dir], the
    banner printed. *)
Definition started (dir : string) (w : world) : world :=
  World dir (dirs w) (fs w)
    (trace w ++ [Event.Call (Call.Chdir dir);
                 Event.Out Report.rule; Event.Out Report.title;
                 Event.Out Report.rule; Event.Out ""]).

(** The line the listing prints for a document, the files being those of
    [w]. *)
Definition listing_line (w : world) (doc : string * string) : string :=
  match file_at w doc.2 with
  | Some data => Report.present_line doc.2 (N.of_nat (String.length data))
  | None => Report.absent doc.2
  end.

(** The calls the listing makes for a document: it asks whether the PDF
    exists and, when it does, for its size. *)
Definition listing_calls (w : world) (doc : string * string) : list Call.t :=
  match file_at w doc.2 with
  | Some _ => [Call.Exists doc.2; Call.Stat doc.2]
  | None => [Call.Exists doc.2]
  end.

(** The calls of one turn of the first loop from world [w]: the test for
    the source and, when it exists, the calls of the conversion. *)
Definition turn_calls (w : world) (doc : string * string) : list Call.t :=
  Call.Exists doc.1 ::
  match file_at w doc.1 with
  | Some _ =>
      take (S (calls_after_run doc.1 doc.2 w)) (conversion_calls doc.1 doc.2)
  | None => []
  end.

(** The events of the listing of a document: the test for the PDF, the
    call for its size when it exists, and the line. *)
Definition listing_trace (w : world) (doc : string * string) : list Event.t :=
  match file_at w doc.2 with
  | Some data =>
      [ Event.Call (Call.Exists doc.2); Event.Call (Call.Stat doc.2);
        Event.Out (Report.present_line doc.2 (N.of_nat (String.length data))) ]
  | None => [ Event.Call (Call.Exists doc.2); Event.Out (Report.absent doc.2) ]
  end.

(** The world the listing of [docs] leaves. *)
Definition listed (docs : list (string * string)) (w : world) : world :=
  w +> (docs ≫= listing_trace w).

(** The process ends with status 0 when [main] returns, and with a
    traceback and a non-zero status when an exception leaves it. *)
Definition exit_ok (r : result ()) : bool :=
  match r with
  | Val _ => true
  | Raise _ => false
  end.

(** The first loop as a machine.  A state holds the documents still to
    do, the two counters and the world; a step is one turn of the loop
    that ends without an exception. *)
Definition loop_state : Type := list (string * string) * (nat * nat) * world.

Inductive loop_step : relation loop_state :=
  | loop_turn doc docs c w c' w' :
      convert_one c doc w = (Val c', w') →
      loop_step (doc :: docs, c, w) (docs, c', w').

(** The documents a state accounts for: those counted and those left. *)
Definition accounted (s : loop_state) : nat :=
  s.1.2.1 + s.1.2.2 + length s.1.1.

End batch.

(** ** The loops, run *)

Section batch_run.
Context `{T : Tools}.
Implicit Types (md pdf dir : string) (w : world) (docs : list (string * string)).

(** One turn of the first loop. *)
Lemma convert_one_run s f md pdf w :
  convert_one (s, f) (md, pdf) w =
  match file_at w md with
  | None =>
      (Val (s, S f),
       w +> [Event.Call (Call.Exists md); Event.Out (Report.not_found md);
             Event.Out ""])
  | Some _ =>
      match markdown_to_pdf md pdf (called (Call.Exists md) w) with
      | (Val true, w') => (Val (S s, f), w' +> [Event.Out ""])
      | (Val false, w') => (Val (s, S f), w' +> [Event.Out ""])
      | (Raise e, w') => (Raise e, w')
      end
  end.
Proof.
  apply run_wp. unfold convert_one. wp_go.
  destruct (fs w !! _) eqn:Hf.
  - rewrite bool_decide_true by done. wp_go. unfold wp.
    destruct (markdown_to_pdf md pdf _) as [[[]|e] w']; by wp_go.
  - rewrite bool_decide_false by (by intros [? ?]). wp_go. by log_norm.
Qed.

(** A turn for a document whose converter exits with a non-zero
    status. *)
Lemma convert_one_html_failed s f md pdf w data cp m1 :
  file_at w md = Some data →
  spawn (cmd_html md (html_file_of md)) (cwd w) (fs w) = (Val cp, m1) →
  returncode cp ≠ 0%Z →
  convert_one (s, f) (md, pdf) w =
    (Val (s, S f),
     World (cwd w) (dirs w) m1
       (trace w ++ Event.Call (Call.Exists md)
          :: take 3 (conversion_trace md pdf)
          ++ [Event.Out (Msg.html_error (stderr cp)); Event.Out ""])).
Proof.
  intros Hf Hs Hrc. rewrite convert_one_run, Hf, markdown_to_pdf_run.
  unfold convert_outcome, called, with_trace. cbn [cwd fs dirs trace].
  rewrite Hs, bool_decide_true by done. cbn [cwd fs dirs trace]. by trace_norm.
Qed.

(** One turn of the second loop: it prints one line and changes no
    file. *)
Lemma report_pdf_run doc w :
  report_pdf doc w = (Val (), listed [doc] w).
Proof.
  destruct doc as [md pdf]. apply run_wp.
  unfold report_pdf, listed, listing_trace. wp_go.
  cbn [mbind list_bind map app fst snd]. unfold file_at.
  destruct (fs w !! _) eqn:Hf.
  - rewrite bool_decide_true by done. wp_go. rewrite Hf. wp_go. by log_norm.
  - rewrite bool_decide_false by (by intros [? ?]). wp_go. by log_norm.
Qed.

(** Listing one document, then the others. *)
Lemma listed_cons doc docs w :
  listed docs (listed [doc] w) = listed (doc :: docs) w.
Proof.
  unfold listed, listing_trace, with_trace, file_at.
  cbn [cwd dirs fs trace mbind list_bind]. rewrite app_nil_r.
  by log_norm.
Qed.

(** The listing changes the trace only, and its events do not depend on
    the trace. *)
Lemma listed_fs docs w : fs (listed docs w) = fs w ∧ cwd (listed docs w) = cwd w.
Proof. done. Qed.

(** The lines and the calls of the listing. *)
Lemma listing_trace_lines w docs :
  Event.out_of (docs ≫= listing_trace w) = map (listing_line w) docs.
Proof.
  induction docs as [|doc docs IH]; [done|]. cbn [mbind list_bind map].
  rewrite out_of_app, <-IH. unfold listing_trace, listing_line.
  by destruct (file_at w doc.2).
Qed.

Lemma listing_trace_calls w docs :
  Event.calls_of (docs ≫= listing_trace w) = docs ≫= listing_calls w.
Proof.
  induction docs as [|doc docs IH]; [done|]. cbn [mbind list_bind].
  rewrite calls_of_app, <-IH. unfold listing_trace, listing_calls.
  by destruct (file_at w doc.2).
Qed.

Lemma listed_out docs w :
  out (listed docs w) = out w ++ map (listing_line w) docs.
Proof. unfold listed. by rewrite out_add, listing_trace_lines. Qed.

Lemma listed_calls docs w :
  calls (listed docs w) = calls w ++ docs ≫= listing_calls w.
Proof. unfold listed. by rewrite calls_add, listing_trace_calls. Qed.

(** The second loop as a whole. *)
Lemma report_all_run docs w :
  for_each_ report_pdf docs w = (Val (), listed docs w).
Proof.
  unfold for_each_. revert w. induction docs as [|doc docs IH]; intros w.
  - unfold listed, with_trace. simpl. rewrite !app_nil_r. by destruct w.
  - cbn [for_each]. unfold mbind, M_bind.
    by rewrite report_pdf_run, IH, listed_cons.
Qed.

(** [main_on] around its first loop. *)
Lemma main_on_run dir docs w :
  main_on dir docs w =
  if bool_decide (dir ∈ dirs w) then
    match for_each convert_one docs (0, 0) (started dir w) with
    | (Raise e, w2) => (Raise e, w2)
    | (Val (s, f), w2) =>
        (Val (),
         listed docs
           (w2 +> [Event.Out Report.rule; Event.Out (Report.summary s f);
                   Event.Out Report.rule; Event.Out Report.generated]))
    end
  else (Raise (enoent dir), called (Call.Chdir dir) w).
Proof.
  apply run_wp. unfold main_on. wp_go. case_bool_decide; [|done]. wp_go.
  unfold wp at 1. log_norm.
  destruct (for_each convert_one docs _ _) as [[[s f]|e] w2]; [|done].
  wp_go. unfold wp. rewrite report_all_run. by log_norm.
Qed.

(** [main_on], its output forgotten, is its first loop: the same
    exception if any, the same files. *)
Lemma main_on_forget dir docs w :
  dir ∈ dirs w →
  let x := for_each convert_one docs (0, 0) (started dir w) in
  (main_on dir docs w).1 = (λ _, ()) <$> x.1 ∧ fs (main_on dir docs w).2 = fs x.2.
Proof.
  intros Hd x. rewrite main_on_run, bool_decide_true by done. subst x.
  by destruct (for_each convert_one docs _ _) as [[[s f]|e] w2].
Qed.

(** The file imported as a module does nothing; executed, it runs
    [main]. *)
Lemma script_run name w :
  script name w = if bool_decide (name = "__main__") then main w else (Val (), w).
Proof. unfold script. by case_bool_decide. Qed.

(** The file from top to bottom: imported as a module, it imports three
    modules of the standard library and does nothing else, no line is
    printed and no file touched; executed as a script, it runs [main]
    after the three imports. *)
Lemma module_body_run name w :
  module_body name w =
    let w0 := w +> [Event.Call (Call.Import "subprocess");
                    Event.Call (Call.Import "os");
                    Event.Call (Call.Import "pathlib")] in
    if bool_decide (name = "__main__") then main w0 else (Val (), w0).
Proof.
  apply run_wp. unfold module_body, imports. wp_go. log_norm.
  unfold wp. rewrite <-surjective_pairing, script_run. by case_bool_decide.
Qed.

(** The one call made before the first loop is the change of
    directory. *)
Lemma started_calls dir w : calls (started dir w) = calls w ++ [Call.Chdir dir].
Proof. unfold started. by log_proj. Qed.

(** The summary is printed without a call. *)
Lemma summary_calls w s f :
  calls (w +> [Event.Out Report.rule; Event.Out (Report.summary s f);
               Event.Out Report.rule; Event.Out Report.generated]) = calls w.
Proof. by rewrite calls_add, app_nil_r. Qed.

(** One turn of the first loop makes the calls of [turn_calls]. *)
Lemma convert_one_calls c doc w :
  calls (convert_one c doc w).2 = calls w ++ turn_calls w doc.
Proof.
  destruct c as [s f], doc as [md pdf]. rewrite convert_one_run.
  unfold turn_calls. cbn [fst snd]. destruct (file_at w md); [|cbn [snd]; by rewrite calls_add].
  pose proof (convert_outcome_calls md pdf (called (Call.Exists md) w)) as H.
  rewrite markdown_to_pdf_run.
  destruct (convert_outcome md pdf _) as [[[]|e] w']; cbn [snd] in *;
    rewrite ?calls_add, H; unfold called; rewrite calls_add;
    cbn; by rewrite <-?app_assoc, ?app_nil_r.
Qed.

End batch_run.

(** ** Invariants of the loop body *)

Section batch_inv.
Context `{T : Tools}.

Lemma convert_one_trace_grows c doc : preserves trace_grows (convert_one c doc).
Proof. destruct c, doc. unfold convert_one. pres. Qed.
Lemma convert_one_same_cwd c doc : preserves same_cwd (convert_one c doc).
Proof. destruct c, doc. unfold convert_one. pres. Qed.
Lemma convert_one_same_dirs c doc : preserves same_dirs (convert_one c doc).
Proof. destruct c, doc. unfold convert_one. pres. Qed.

End batch_inv.

#[export] Hint Resolve convert_one_trace_grows convert_one_same_cwd
  convert_one_same_dirs : pyauto.

(** ** Counts, summary and listing *)

Section batch_props.
Context `{T : Tools}.
Implicit Types (md pdf dir : string) (w : world) (docs : list (string * string)).

(** One turn of the first loop counts its document once. *)
Lemma convert_one_counts s f doc w s' f' w' :
  convert_one (s, f) doc w = (Val (s', f'), w') →
  s' + f' = S (s + f) ∧ s ≤ s' ∧ f ≤ f'.
Proof.
  destruct doc as [md pdf]. rewrite convert_one_run.
  repeat case_match; intros [= <- <- <-]; lia.
Qed.

(** The loop and the machine: the loop ends with counters [c'] in world
    [w'] exactly when the machine runs from the whole list to the empty
    one. *)
Lemma for_each_loop_steps docs c w c' w' :
  for_each convert_one docs c w = (Val c', w') ↔
  rtc loop_step (docs, c, w) ([], c', w').
Proof.
  revert c w. induction docs as [|doc docs IH]; intros c w.
  - split; [by intros [= <- <-]|]. inversion 1 as [|? ? ? Hs]; [done|inversion Hs].
  - cbn [for_each]. unfold mbind, M_bind. split.
    + destruct (convert_one c doc w) as [[c1|e] w1] eqn:H1; [|done].
      intros H%IH. eapply rtc_l; [|done]. by constructor.
    + inversion 1 as [|? ? ? Hs Hrest]; subst. inversion Hs; subst.
      match goal with H : convert_one _ _ _ = _ |- _ => rewrite H end. by apply IH.
Qed.

(** A step neither loses nor invents a document, and no counter goes
    down. *)
Lemma loop_step_accounted s s' :
  loop_step s s' →
  accounted s' = accounted s ∧ s.1.2.1 ≤ s'.1.2.1 ∧ s.1.2.2 ≤ s'.1.2.2.
Proof.
  destruct 1 as [doc docs [s0 f0] w [s1 f1] w1 H]. unfold accounted. cbn.
  apply convert_one_counts in H. lia.
Qed.

Lemma loop_steps_accounted s s' :
  rtc loop_step s s' →
  accounted s' = accounted s ∧ s.1.2.1 ≤ s'.1.2.1 ∧ s.1.2.2 ≤ s'.1.2.2.
Proof.
  induction 1 as [|s1 s2 s3 H12 _ IH]; [lia|].
  apply loop_step_accounted in H12. lia.
Qed.

(** A step leaves the directory and the set of directories alone, adds
    to the trace and takes the first document off the list. *)
Lemma loop_step_world s s' :
  loop_step s s' →
  cwd s'.2 = cwd s.2 ∧ dirs s'.2 = dirs s.2 ∧
  trace s.2 `prefix_of` trace s'.2 ∧ s'.1.1 `suffix_of` s.1.1.
Proof.
  destruct 1 as [doc docs c w c' w' H]. cbn.
  pose proof (preserves_run same_cwd _ w (convert_one_same_cwd c doc)) as Hc.
  pose proof (preserves_run same_dirs _ w (convert_one_same_dirs c doc)) as Hd.
  pose proof (preserves_run trace_grows _ w (convert_one_trace_grows c doc)) as Ho.
  rewrite H in Hc, Hd, Ho. split_and!; [done..|]. by apply suffix_cons_r.
Qed.

(** C18. Invariant of the first loop, by induction on its runs: in every
    state the machine reaches from a list of documents with both counters
    at zero, the documents counted and the documents left are together
    the documents of the list, those left are a tail of the list, the
    directory and the set of directories are those of the start, and the
    trace has only grown: nothing printed and no call made is ever taken
    back. *)
Theorem loop_invariant docs w s :
  rtc loop_step (docs, (0, 0), w) s →
  accounted s = length docs ∧ s.1.1 `suffix_of` docs ∧
  cwd s.2 = cwd w ∧ dirs s.2 = dirs w ∧ trace w `prefix_of` trace s.2.
Proof.
  revert s. apply rtc_ind_r; [done|].
  intros s1 s2 _ H12 (Ha & Hs & Hc & Hd & Ho).
  destruct (loop_step_accounted _ _ H12) as (Ha' & _).
  destruct (loop_step_world _ _ H12) as (Hc' & Hd' & Ho' & Hs').
  split_and!; [congruence|by etrans|congruence..|by etrans].
Qed.

(** The first loop counts every document once. *)
Lemma batch_counts docs s f w s' f' w' :
  for_each convert_one docs (s, f) w = (Val (s', f'), w') →
  s' + f' = s + f + length docs ∧ s ≤ s' ∧ f ≤ f'.
Proof.
  intros H%for_each_loop_steps%loop_steps_accounted.
  unfold accounted in H. cbn in H. lia.
Qed.

(** C3. When [main_on] returns, the two counts in the summary add up to
    the number of documents, and the trace ends with the rule, the
    summary, the rule, the heading and the events of the listing: for
    each document the test for its PDF, the call for its size when it is
    among the files left, and the line that says so.  No tool is called
    once the summary is printed. *)
Theorem main_on_summary dir docs w w' :
  main_on dir docs w = (Val (), w') →
  ∃ s f log,
    s + f = length docs ∧
    trace w' = log ++ [Event.Out Report.rule; Event.Out (Report.summary s f);
                       Event.Out Report.rule; Event.Out Report.generated]
                   ++ (docs ≫= listing_trace w').
Proof.
  rewrite main_on_run. case_bool_decide; [|done].
  destruct (for_each convert_one docs _ _) as [[[s f]|e] w2] eqn:Hl; [|done].
  intros [= <-]. apply batch_counts in Hl as (? & _ & _).
  exists s, f, (trace w2). split; [lia|]. unfold listed. cbn [with_trace trace].
  by rewrite <-app_assoc.
Qed.

(** C28. When the directory does not exist, [main_on] raises
    [FileNotFoundError] before it prints or touches anything: the failed
    [os.chdir] is the one call it has made. *)
Theorem main_on_missing_dir dir docs w :
  dir ∉ dirs w →
  main_on dir docs w = (Raise (enoent dir), called (Call.Chdir dir) w).
Proof. intros H. rewrite main_on_run. by rewrite bool_decide_false. Qed.

(** C9. A document whose source is missing is counted as failed, is
    reported with the "File not found" line, and changes no file: the test
    for the source is the one call made, neither tool is called. *)
Theorem convert_one_missing s f md pdf w :
  file_at w md = None →
  convert_one (s, f) (md, pdf) w =
    (Val (s, S f),
     w +> [Event.Call (Call.Exists md); Event.Out (Report.not_found md);
           Event.Out ""]).
Proof. intros H. by rewrite convert_one_run, H. Qed.

(** C27. When the first document exists and starting the converter raises
    (no converter installed), the exception leaves [main_on]: the batch
    stops after six lines, no further document is tried and no summary is
    printed. *)
Theorem main_on_spawn_raises dir md pdf docs w data e m1 :
  dir ∈ dirs w →
  fs w !! (dir, md) = Some data →
  spawn (cmd_html md (html_file_of md)) dir (fs w) = (Raise e, m1) →
  main_on dir ((md, pdf) :: docs) w =
    (Raise e,
     World dir (dirs w) m1
       (trace (started dir w) ++ Event.Call (Call.Exists md)
          :: take 3 (conversion_trace md pdf))).
Proof.
  intros Hd Hf Hs. rewrite main_on_run, bool_decide_true by done.
  cbn [for_each]. unfold mbind, M_bind. rewrite convert_one_run.
  unfold file_at, started. cbn [cwd fs]. rewrite Hf, markdown_to_pdf_run.
  unfold convert_outcome, called, with_trace. cbn [cwd fs dirs trace].
  rewrite Hs. by trace_norm.
Qed.

(** C30. No rollback: when the renderer raises an [Exception] after it has
    written something under the PDF name, [main_on] counts the document
    as failed, leaves the files as the renderer has left them and lists
    what is under the PDF name, with its size, under the heading of the
    generated files.  Nothing in the [try] of lines 40-58 removes a PDF. *)
Theorem main_on_partial_pdf dir md pdf w data cp m1 e m2 part :
  dir ∈ dirs w → fs w !! (dir, md) = Some data →
  spawn (cmd_html md (html_file_of md)) dir (fs w) = (Val cp, m1) →
  returncode cp = 0%Z → weasyprint_import = None →
  render_pdf (html_file_of md) pdf dir m1 = (Raise e, m2) →
  Exn.isinstance e Exn.Exception = true →
  m2 !! (dir, pdf) = Some part →
  ∃ w' log,
    main_on dir [(md, pdf)] w = (Val (), w') ∧ fs w' = m2 ∧
    out w' = log ++ [Report.rule; Report.summary 0 1; Report.rule;
                     Report.generated;
                     Report.present_line pdf (N.of_nat (String.length part))].
Proof.
  intros Hd Hsrc Hs Hrc Himp Hr He Hpart.
  rewrite main_on_run, bool_decide_true by done.
  cbn [for_each]. unfold mbind, M_bind.
  rewrite convert_one_run. unfold file_at. cbn [cwd fs started called with_trace].
  rewrite Hsrc, markdown_to_pdf_run. unfold convert_outcome.
  cbn [cwd fs dirs trace called with_trace started].
  rewrite Hs, bool_decide_false, Himp, Hr by (intros ?; congruence).
  edestruct caught_exception as [line ->]; [exact He|].
  eexists _, _. split; [done|]. split; [apply listed_fs|].
  rewrite listed_out, !out_add.
  unfold listing_line, file_at. cbn [cwd fs snd with_trace map started].
  rewrite Hpart. by rewrite <-app_assoc.
Qed.

(** The listing never raises, changes no file, and prints one line per
    document, in the order of the list: the size line when the PDF
    exists, the "NOT FOUND" line when it does not. *)
Lemma listing_run docs w :
  ∃ w' lines,
    for_each_ report_pdf docs w = (Val (), w') ∧
    fs w' = fs w ∧ cwd w' = cwd w ∧ out w' = out w ++ lines ∧
    length lines = length docs ∧
    ∀ i doc, docs !! i = Some doc → lines !! i = Some (listing_line w doc).
Proof.
  exists (listed docs w), (map (listing_line w) docs).
  split_and!; [apply report_all_run|done..|apply listed_out|apply length_map|].
  intros i doc Hi. by rewrite list_lookup_fmap, Hi.
Qed.

End batch_props.

(** ** With tools that cannot make the script crash *)

Section batch_tame.
Context `{T : Tools} `{!ToolsTame T}.
Implicit Types (md pdf dir : string) (w : world) (docs : list (string * string)).

(** An [Exception] met inside the [try] ends in [False]. *)
Lemma caught_tame e w :
  Exn.isinstance e Exn.Exception = true → ∃ w', caught e w = (Val false, w').
Proof.
  intros He. unfold caught. destruct (report_of e) eqn:Hr; [eauto|].
  apply report_of_None in Hr. congruence.
Qed.

(** With tame tools, [markdown_to_pdf] always answers. *)
Lemma markdown_to_pdf_returns md pdf : returns (markdown_to_pdf md pdf).
Proof.
  intros w. rewrite markdown_to_pdf_run. unfold convert_outcome.
  destruct (spawn_returns (cmd_html md (html_file_of md)) (cwd w) (fs w))
    as (cp & m1 & ->).
  case_bool_decide; [eauto|].
  destruct weasyprint_import as [e|] eqn:Hi.
  { apply import_exception in Hi. edestruct caught_tame as [w' ->]; eauto. }
  destruct (render_pdf _ _ _ _) as [[[]|e] m2] eqn:Hr.
  - destruct (m2 !! _); [eauto|]. edestruct caught_tame as [w' ->]; eauto.
  - apply render_exception in Hr. edestruct caught_tame as [w' ->]; eauto.
Qed.

(** So does a turn of the first loop, and the loop. *)
Lemma convert_one_returns c doc : returns (convert_one c doc).
Proof.
  destruct c as [s f], doc as [md pdf].
  pose proof (markdown_to_pdf_returns md pdf). unfold convert_one. rets.
Qed.

Lemma batch_returns docs c : returns (for_each convert_one docs c).
Proof. apply returns_for_each. intros. apply convert_one_returns. Qed.

(** C5. No error is fatal to the batch when the converter can be started
    and the renderer fails with [Exception]s only: if the directory exists,
    [main_on] returns, whatever the documents and the files.  The tools
    of the model return or raise; [ToolsTame] is where a child process
    that never comes back is excluded, the script setting no timeout. *)
Theorem main_on_returns dir docs w :
  dir ∈ dirs w → ∃ w', main_on dir docs w = (Val (), w').
Proof.
  intros Hd. rewrite main_on_run, bool_decide_true by done.
  destruct (returns_run _ (started dir w) (batch_returns docs (0, 0)))
    as ([s f] & w2 & ->). eauto.
Qed.

End batch_tame.

(** ** The first loop gets to the end *)

Section batch_live.
Context `{T : Tools} `{!ToolsTame T}.
Implicit Types (md pdf dir : string) (w : world) (docs : list (string * string)).

(** With tame tools the machine of the first loop can always take a
    step while documents are left. *)
Lemma loop_step_progress doc docs c w : red loop_step (doc :: docs, c, w).
Proof.
  destruct (returns_run _ w (convert_one_returns c doc)) as (c' & w' & H).
  exists (docs, c', w'). by constructor.
Qed.

(** A step takes the first document off the list and tests for its
    source; the calls made before stay in the history. *)
Lemma loop_step_calls s s' :
  loop_step s s' →
  ∃ doc, s.1.1 = doc :: s'.1.1 ∧ Call.Exists doc.1 ∈ calls s'.2 ∧
         calls s.2 `prefix_of` calls s'.2.
Proof.
  destruct 1 as [doc docs c w c' w' H]. exists doc. cbn [fst snd].
  pose proof (convert_one_calls c doc w) as Hc. rewrite H in Hc. cbn [snd] in Hc.
  rewrite Hc. split_and!; [done| |by apply prefix_app_r].
  apply elem_of_app. right. unfold turn_calls. apply list_elem_of_here.
Qed.

(** From any state the machine reaches the end of the list, the source
    of every document left having been tested for. *)
Lemma loop_eventually docs c w :
  eventually loop_step
    (λ s, s.1.1 = [] ∧ calls w `prefix_of` calls s.2 ∧
          ∀ doc, doc ∈ docs → Call.Exists doc.1 ∈ calls s.2)
    (docs, c, w).
Proof.
  revert c w. induction docs as [|doc docs IH]; intros c w.
  { apply eventually_now. split_and!; [done..|]. by intros doc ?%elem_of_nil. }
  apply eventually_later; [apply loop_step_progress|].
  intros s' Hs. destruct (loop_step_calls _ _ Hs) as (doc' & [= <- Hd] & Hin & Hp).
  destruct s' as [[docs' c'] w']. cbn [fst snd] in *. subst docs'.
  eapply eventually_mono; [|apply IH]. cbn beta.
  intros s (Hnil & Hp' & Hall). split_and!; [done|by etrans|].
  intros doc0 [->|?]%elem_of_cons; [|by auto].
  destruct Hp' as [l ->]. apply elem_of_app. by left.
Qed.

(** C13. Liveness of the first loop: with tools that cannot make the script
    crash, no document is skipped and none is left out.  From a list
    of documents, every run of the machine of the loop reaches the state
    with no document left, never stuck on the way, and by then the source
    of each document of the list has been tested for and each document
    counted.  A turn is stuck when an exception leaves it; the tools of
    the model return or raise, so a child process that never comes back
    is excluded by [ToolsTame] with the exceptions. *)
Theorem loop_eventually_done docs w :
  eventually loop_step
    (λ s, s.1.1 = [] ∧ accounted s = length docs ∧
          ∀ doc, doc ∈ docs → Call.Exists doc.1 ∈ calls s.2)
    (docs, (0, 0), w).
Proof.
  eapply eventually_mono;
    [|apply (eventually_invariant _ (λ s, accounted s = length docs)),
        (loop_eventually docs (0, 0) w)].
  - by intros s (? & ? & _ & ?).
  - intros s s' <- Hs. by apply loop_step_accounted in Hs as [-> _].
  - done.
Qed.

End batch_live.

(** Tameness is needed: without a converter the machine is stuck at the
    first document whose source exists. *)
Lemma loop_stuck_without_converter :
  ¬ eventually (loop_step (T:=Toolsets.no_pandoc)) (λ s, s.1.1 = [])
      (two_docs, (0, 0), Toolsets.sample).
Proof.
  inversion 1 as [? Hnil|? [s' Hs] _]; [done|].
  inversion Hs as [? ? ? ? ? ? Hrun]; subst. by vm_compute in Hrun.
Qed.

(** ** With tools that keep their contract *)

Section batch_contract.
Context `{T : Tools} `{!ToolsContract T}.
Implicit Types (md pdf dir : string) (w : world) (docs : list (string * string)).

Lemma convert_one_touches P c doc :
  doc.1 ≠ "-o" → html_file_of doc.1 ∈ P → doc.2 ∈ P →
  preserves (touches P) (convert_one c doc).
Proof.
  destruct c as [s f], doc as [md pdf]. intros Hmd Hh Hp.
  pose proof (markdown_to_pdf_touches P md pdf Hmd Hh Hp).
  unfold convert_one. pres.
Qed.

Lemma artifacts_elem docs doc :
  doc ∈ docs → html_file_of doc.1 ∈ artifacts docs ∧ doc.2 ∈ artifacts docs.
Proof.
  intros Hin. unfold artifacts. rewrite !elem_of_list_to_set, !list_elem_of_bind.
  split; exists doc; (split; [|done]); repeat constructor.
Qed.

(** The first loop touches the artifacts of its documents at most. *)
Lemma batch_touches docs c :
  Forall (λ doc, doc.1 ≠ "-o") docs →
  preserves (touches (artifacts docs)) (for_each convert_one docs c).
Proof.
  intros Hd. apply preserves_for_each_Forall; [tc_solve|].
  apply Forall_forall. intros doc Hin s.
  destruct (artifacts_elem docs doc Hin).
  apply convert_one_touches; [|done..]. by eapply Forall_forall in Hd.
Qed.

(** [main_on] changes the artifacts of its documents at most. *)
Lemma main_on_keeps dir docs w d p :
  Forall (λ doc, doc.1 ≠ "-o") docs →
  (d = dir → p ∉ artifacts docs) →
  fs (main_on dir docs w).2 !! (d, p) = fs w !! (d, p).
Proof.
  intros Hd Hk. rewrite main_on_run. case_bool_decide; [|done].
  pose proof (preserves_run _ _ (started dir w) (batch_touches docs (0, 0) Hd))
    as [_ Hfs].
  destruct (for_each convert_one docs _ _) as [[[s f]|e] w2]; by apply Hfs.
Qed.

(** A turn of the first loop, and [main_on], leave a well-formed world
    well formed. *)
Lemma convert_one_world_ok c doc : preserves (keeps world_ok) (convert_one c doc).
Proof. destruct c as [s f], doc as [md pdf]. unfold convert_one. pres. Qed.

Lemma main_on_keeps_world_ok dir docs :
  preserves (keeps world_ok) (main_on dir docs).
Proof.
  pose proof convert_one_world_ok.
  assert (∀ doc, preserves (keeps world_ok) (report_pdf doc))
    by (intros [md pdf]; unfold report_pdf; pres).
  unfold main_on, for_each_. pres.
Qed.

(** Worlds stay well formed: with tools that keep their contract, if the
    current directory exists and every file lies in a directory that
    exists before [main_on], the same holds after it, whether it returns
    or raises.  Every system call and every tool under contract keeps a
    world well formed, so this is a fact about the calls the script is
    made of, not about the order in which it makes them. *)
Theorem main_on_world_ok dir docs w :
  world_ok w → world_ok (main_on dir docs w).2.
Proof. apply (preserves_run (keeps world_ok)), main_on_keeps_world_ok. Qed.

(** C7. Frame of the batch: with tools that keep their contract and no
    source named [-o] (a name the converter would read as its output
    option), [main_on] changes no file outside its directory and, inside
    it, none but the intermediate HTML files and the PDFs of its
    documents. *)
Theorem main_on_frame dir docs w d p :
  Forall (λ doc, doc.1 ≠ "-o") docs →
  (d = dir → p ∉ artifacts docs) →
  fs (main_on dir docs w).2 !! (d, p) = fs w !! (d, p).
Proof. apply main_on_keeps. Qed.

(** C29. The listing shows what is on disk, not what the run has produced:
    when the PDF of a document is there before the batch (left by an
    earlier run) and the converter exits with a non-zero status, [main_on]
    counts the document as failed and still lists its PDF, with the size
    of the old file, under the heading of the generated files. *)
Theorem main_on_stale_pdf dir md pdf w data old cp m1 :
  dir ∈ dirs w → md ≠ "-o" → pdf ≠ html_file_of md →
  fs w !! (dir, md) = Some data → fs w !! (dir, pdf) = Some old →
  spawn (cmd_html md (html_file_of md)) dir (fs w) = (Val cp, m1) →
  returncode cp ≠ 0%Z →
  ∃ w' log,
    main_on dir [(md, pdf)] w = (Val (), w') ∧
    out w' = log ++ [Report.rule; Report.summary 0 1; Report.rule;
                     Report.generated;
                     Report.present_line pdf (N.of_nat (String.length old))].
Proof.
  intros Hd Hmd Hne Hsrc Hpdf Hs Hrc.
  rewrite main_on_run, bool_decide_true by done.
  cbn [for_each]. unfold mbind, M_bind.
  rewrite (convert_one_html_failed 0 0 md pdf (started dir w) data cp m1) by done.
  assert (m1 !! (dir, pdf) = Some old) as Hl.
  { rewrite (spawn_cmd_frame md (started dir w) (Val cp) m1); [done..|].
    cbn [cwd started]. congruence. }
  eexists _, _. split; [done|]. rewrite listed_out, out_add.
  unfold listing_line, file_at. cbn [cwd fs snd with_trace map started].
  rewrite Hl. by rewrite <-app_assoc.
Qed.

(** The batch keeps its sources: with tools that keep their contract,
    [main] leaves each of the three Markdown files of its list as it
    was. *)
Theorem main_sources_kept w doc :
  doc ∈ documents →
  fs (main w).2 !! (workdir, doc.1) = fs w !! (workdir, doc.1).
Proof.
  intros Hin. apply main_on_keeps; [by repeat constructor|]. intros _.
  unfold artifacts. rewrite elem_of_list_to_set. revert doc Hin.
  apply Forall_forall, (bool_decide_unpack _). by vm_compute.
Qed.

End batch_contract.

(** ** The theorems at work *)

Lemma main_on_summary_witness :
  ∃ s f log,
    s + f = length two_docs ∧
    trace (main_on (T:=Toolsets.ideal) "/docs" two_docs Toolsets.sample).2 =
      log ++ [Event.Out Report.rule; Event.Out (Report.summary s f);
              Event.Out Report.rule; Event.Out Report.generated]
      ++ (two_docs ≫= listing_trace
            (main_on (T:=Toolsets.ideal) "/docs" two_docs Toolsets.sample).2).
Proof.
  apply (main_on_summary (T:=Toolsets.ideal) "/docs" two_docs Toolsets.sample).
  by vm_compute.
Defined.

Lemma main_on_missing_dir_witness :
  main_on (T:=Toolsets.ideal) "/nowhere" two_docs Toolsets.sample =
    (Raise (enoent "/nowhere"), called (Call.Chdir "/nowhere") Toolsets.sample).
Proof.
  apply (main_on_missing_dir (T:=Toolsets.ideal)). by vm_compute.
Defined.

Lemma convert_one_missing_witness :
  convert_one (T:=Toolsets.ideal) (2, 1) ("b.md", "b.pdf") Toolsets.sample =
    (Val (2, 2),
     Toolsets.sample +> [Event.Call (Call.Exists "b.md");
                         Event.Out (Report.not_found "b.md"); Event.Out ""]).
Proof.
  apply (convert_one_missing (T:=Toolsets.ideal)). by vm_compute.
Defined.

Lemma main_on_spawn_raises_witness :
  main_on (T:=Toolsets.no_pandoc) "/docs" two_docs Toolsets.sample =
    (Raise (enoent "pandoc"),
     World "/docs" (dirs Toolsets.sample) (fs Toolsets.sample)
       (trace (started "/docs" Toolsets.sample) ++ Event.Call (Call.Exists "a.md")
          :: take 3 (conversion_trace "a.md" "a.pdf"))).
Proof.
  eapply (main_on_spawn_raises (T:=Toolsets.no_pandoc) "/docs" "a.md" "a.pdf"
            [("b.md", "b.pdf")] Toolsets.sample "# Title");
    [by vm_compute|by vm_compute|reflexivity].
Defined.

Lemma main_on_returns_witness :
  ∃ w', main_on (T:=Toolsets.no_weasyprint) "/docs" two_docs Toolsets.sample
        = (Val (), w').
Proof.
  apply (main_on_returns (T:=Toolsets.no_weasyprint)). by vm_compute.
Defined.

Lemma main_on_frame_witness :
  fs (main_on (T:=Toolsets.ideal) "/docs" two_docs Toolsets.sample).2
    !! ("/docs", "README") = fs Toolsets.sample !! ("/docs", "README").
Proof.
  apply (main_on_frame (T:=Toolsets.ideal)); [by repeat constructor|].
  intros _. unfold artifacts. rewrite elem_of_list_to_set.
  apply (bool_decide_unpack _). by vm_compute.
Defined.

Lemma main_sources_kept_witness :
  fs (main (T:=Toolsets.ideal) Toolsets.sample).2
    !! (workdir, "ARCHITECTURE.md") =
  fs Toolsets.sample !! (workdir, "ARCHITECTURE.md").
Proof.
  apply (main_sources_kept (T:=Toolsets.ideal) Toolsets.sample
           ("ARCHITECTURE.md", "ARCHITECTURE.pdf")).
  repeat constructor.
Defined.

Lemma loop_invariant_witness :
  let s : loop_state :=
    ([], (1, 1),
     (for_each (convert_one (T:=Toolsets.ideal)) two_docs (0, 0)
        Toolsets.sample).2) in
  accounted s = length two_docs ∧ s.1.1 `suffix_of` two_docs ∧
  cwd s.2 = cwd Toolsets.sample ∧ dirs s.2 = dirs Toolsets.sample ∧
  trace Toolsets.sample `prefix_of` trace s.2.
Proof.
  intros s. apply (loop_invariant (T:=Toolsets.ideal) two_docs Toolsets.sample).
  apply for_each_loop_steps. by vm_compute.
Defined.

Lemma main_on_stale_pdf_witness :
  let w := World "/docs" {["/docs"]}
             {[ ("/docs", "a.md") := "# Title"; ("/docs", "a.pdf") := "%PDF old" ]}
             [] in
  ∃ w' log,
    main_on (T:=Toolsets.rejecting) "/docs" [("a.md", "a.pdf")] w = (Val (), w') ∧
    out w' = log ++ [Report.rule; Report.summary 0 1; Report.rule;
                     Report.generated;
                     Report.present_line "a.pdf" (N.of_nat (String.length "%PDF old"))].
Proof.
  intros w.
  eapply (main_on_stale_pdf (T:=Toolsets.rejecting) "/docs" "a.md" "a.pdf" w
            "# Title" "%PDF old");
    [by vm_compute|done|done|reflexivity|reflexivity|reflexivity|done].
Defined.

Lemma main_on_partial_pdf_witness :
  let disk_full := Exn.Build Exn.OSError "No space left on device" in
  ∃ w' log,
    main_on (T:=Toolsets.truncating disk_full) "/docs" [("a.md", "a.pdf")]
      Toolsets.sample = (Val (), w') ∧
    fs w' = <[("/docs", "a.pdf") := "%PDF-1.7 "]>
              (<[("/docs", "a.html") := "<html># Title</html>"]>
                 (fs Toolsets.sample)) ∧
    out w' = log ++ [Report.rule; Report.summary 0 1; Report.rule;
                     Report.generated;
                     Report.present_line "a.pdf" (N.of_nat (String.length "%PDF-1.7 "))].
Proof.
  intros disk_full.
  eapply (main_on_partial_pdf (T:=Toolsets.truncating disk_full) "/docs" "a.md"
            "a.pdf" Toolsets.sample "# Title");
    [by vm_compute|reflexivity|reflexivity|done|done|reflexivity|done|reflexivity].
Defined.

Lemma loop_eventually_done_witness :
  eventually (loop_step (T:=Toolsets.ideal))
    (λ s, s.1.1 = [] ∧ accounted s = length two_docs ∧
          ∀ doc, doc ∈ two_docs → Call.Exists doc.1 ∈ calls s.2)
    (two_docs, (0, 0), Toolsets.sample).
Proof. apply (loop_eventually_done (T:=Toolsets.ideal) two_docs Toolsets.sample). Defined.
