(* ===== verification/Spec.v ===== *)
(** * Spec: the batch as a function of the files

    The specification of the converter speaks of jobs and of their results:
    a [ConversionJob] is a source path and an output path, a
    [ConversionResult] is one of [Succeeded], [SourceMissing] and
    [ConversionFailed] with a reason, and the summary counts the first
    against the other two.  None of this is data of
    [src/convert_to_pdf.py]: the script keeps two counters and prints.

    This file states what the script does in those terms.  [job] is the
    test of line 81 and the body of [markdown_to_pdf] (lines 31-58) with
    the prints and the trace left out: the files before, the result and
    the files after; [run_jobs] is the first loop (lines 80-91) in the
    same way, and [bstep] the machine that does one job per step.  They
    are abstractions of the code, not of the words of the specification:
    where the two differ (an exception of [subprocess.run] ends the run,
    a removal that fails makes the job [ConversionFailed], an exception
    that is no [Exception] ends the run) they follow the code.  Only the
    data ([ConversionJob], [ConversionResult], the tally) are taken from
    the specification.

    The file proves that [convert_one] and [main_on] of [Batch] refine
    the function: forgetting what was printed and called, the script computes
    [run_jobs], and the counts of its summary are the tally of the
    results; and that the loop of the script and the machine simulate each
    other step for step. *)

From S2P Require Import Prelude PyStr Exec Tools Convert Lines Batch.

(** ** Jobs and results *)

(** A job: the Markdown source and the PDF to produce. *)
Definition ConversionJob : Type := string * string.

Inductive ConversionResult : Type :=
  | Succeeded
  | SourceMissing
  | ConversionFailed (reason : string).

#[export] Instance ConversionResult_eq_dec : EqDecision ConversionResult.
Proof. solve_decision. Defined.

Definition succeeded (r : ConversionResult) : bool :=
  match r with
  | Succeeded => true
  | _ => false
  end.

(** The two counters after one more result. *)
Definition tally_one (c : nat * nat) (r : ConversionResult) : nat * nat :=
  if succeeded r then (S c.1, c.2) else (c.1, S c.2).

(** The two counters after a list of results. *)
Definition tally (c : nat * nat) (rs : list ConversionResult) : nat * nat :=
  foldl tally_one c rs.

Section spec.
Context `{T : Tools}.

(** An exception met inside the [try] (lines 53-58): a failure with the
    line that reports it, or, when no clause catches it, the end of the
    batch. *)
Definition failed (e : Exn.t) : result ConversionResult :=
  match report_of e with
  | Some line => Val (ConversionFailed line)
  | None => Raise e
  end.

(** The body of the [try] (lines 40-51) in directory [d] over files [m]:
    import, render, then remove the intermediate file; a removal that
    fails is a failure of the job, as in the code. *)
Definition render_step (d : string) (m : gmap (string * string) string) (html pdf : string)
    : result ConversionResult * gmap (string * string) string :=
  match weasyprint_import with
  | Some e => (failed e, m)
  | None =>
      match render_pdf html pdf d m with
      | (Raise e, m2) => (failed e, m2)
      | (Val _, m2) =>
          match m2 !! (d, html) with
          | Some _ => (Val Succeeded, delete (d, html) m2)
          | None => (failed (enoent html), m2)
          end
      end
  end.

(** One job in directory [d] over files [m]: the test of line 81, the
    child process of line 31, whose exception is not caught, the status
    test of line 33 and the [try]. *)
Definition job (d : string) (m : gmap (string * string) string) (j : ConversionJob)
    : result ConversionResult * gmap (string * string) string :=
  match m !! (d, j.1) with
  | None => (Val SourceMissing, m)
  | Some _ =>
      match spawn (cmd_html j.1 (html_file_of j.1)) d m with
      | (Raise e, m1) => (Raise e, m1)
      | (Val cp, m1) =>
          if bool_decide (returncode cp = 0%Z)
          then render_step d m1 (html_file_of j.1) j.2
          else (Val (ConversionFailed (Msg.html_error (stderr cp))), m1)
      end
  end.

(** The first loop (lines 80-91): the jobs in list order, each over the
    files the one before left; an exception that leaves a job ends the
    run. *)
Fixpoint run_jobs (d : string) (m : gmap (string * string) string) (jobs : list ConversionJob)
    : result (list ConversionResult) * gmap (string * string) string :=
  match jobs with
  | [] => (Val [], m)
  | j :: jobs' =>
      match job d m j with
      | (Raise e, m1) => (Raise e, m1)
      | (Val r, m1) =>
          let '(rs, m2) := run_jobs d m1 jobs' in ((r ::.) <$> rs, m2)
      end
  end.

(** The run as a machine: the jobs left, the results so far and the
    files.  A step does the first job left; a job that raises is no
    step. *)
Record bstate : Type := BState {
  pending : list ConversionJob;
  results : list ConversionResult;
  bfiles : gmap (string * string) string;
}.

Inductive bstep (d : string) : relation bstate :=
  | bstep_job j js rs m r m' :
      job d m j = (Val r, m') →
      bstep d (BState (j :: js) rs m) (BState js (rs ++ [r]) m').

(** A state of the loop of the script refines a state of the run: the
    same documents are left, the counters tally the results, the files
    are the same and the current directory is [d]. *)
Definition refines_state (d : string) (s : loop_state) (a : bstate) : Prop :=
  s.1.1 = pending a ∧ s.1.2 = tally (0, 0) (results a) ∧
  fs s.2 = bfiles a ∧ cwd s.2 = d.

(** The names of a list of jobs are separate when no job can spoil what
    a job before it has produced: the PDF of a job is not its own
    intermediate file, and neither of the two is among the files the
    later jobs write. *)
Fixpoint separate (jobs : list ConversionJob) : Prop :=
  match jobs with
  | [] => True
  | j :: jobs' =>
      j.2 ≠ html_file_of j.1 ∧
      (j.2 ∉ artifacts jobs') ∧ (html_file_of j.1 ∉ artifacts jobs') ∧
      separate jobs'
  end.

(** What the script computes, its output forgotten: the result and the
    files. *)
Definition forget_out {A} (x : result A * world)
    : result A * gmap (string * string) string :=
  (x.1, fs x.2).

End spec.

(** ** Counting *)

Section tally.
Implicit Types (c : nat * nat) (rs : list ConversionResult).

Lemma tally_cons c r rs : tally c (r :: rs) = tally (tally_one c r) rs.
Proof. done. Qed.

(** The counters count: the first the [Succeeded] results, the second all
    the others. *)
Lemma tally_filter c rs :
  tally c rs = (c.1 + length (filter (.= Succeeded) rs),
                c.2 + length (filter (.≠ Succeeded) rs)).
Proof.
  revert c. induction rs as [|r rs IH]; intros [s f].
  { simpl. f_equal; lia. }
  rewrite tally_cons, IH, !filter_cons. unfold tally_one.
  destruct r; simpl; repeat case_decide; try done; simpl; f_equal; lia.
Qed.

End tally.

(** ** The script refines the specification *)

Section refinement.
Context `{T : Tools}.
Implicit Types (md pdf dir : string) (w : world) (docs : list ConversionJob).

Lemma caught_forget e w :
  forget_out (caught e w) = prod_map (fmap succeeded) id (failed e, fs w).
Proof. unfold caught, failed. by destruct (report_of e). Qed.

(** [markdown_to_pdf] on a source that exists is the job, its answer the
    job's success. *)
Lemma markdown_to_pdf_refines md pdf w data :
  fs w !! (cwd w, md) = Some data →
  forget_out (markdown_to_pdf md pdf w) =
    prod_map (fmap succeeded) id (job (cwd w) (fs w) (md, pdf)).
Proof.
  intros Hf. rewrite markdown_to_pdf_run. unfold convert_outcome, job.
  cbn [fst snd]. rewrite Hf.
  destruct (spawn _ _ _) as [[cp|e] m1]; [|done].
  destruct (decide (returncode cp = 0%Z)) as [Hrc|Hrc].
  2:{ by rewrite bool_decide_true, bool_decide_false. }
  rewrite bool_decide_false, bool_decide_true by (done || lia).
  unfold render_step. destruct weasyprint_import; [apply caught_forget|].
  destruct (render_pdf _ _ _ _) as [[[]|e] m2]; [|apply caught_forget].
  destruct (m2 !! _); [done|apply caught_forget].
Qed.

(** The error taxonomy: a job fails because the converter exits with a
    non-zero status, because the rendering library is missing, or because
    rendering or the clean-up raises an [Exception]; the reason is the
    message of that case. *)
Lemma job_failed_reason d m j reason m' :
  job d m j = (Val (ConversionFailed reason), m') →
  (∃ cp m1, spawn (cmd_html j.1 (html_file_of j.1)) d m = (Val cp, m1) ∧
            returncode cp ≠ 0%Z ∧ reason = Msg.html_error (stderr cp)) ∨
  (∃ e, Exn.isinstance e Exn.ImportError = true ∧
        reason = Msg.weasyprint_missing) ∨
  (∃ e, Exn.isinstance e Exn.Exception = true ∧
        reason = Msg.pdf_error (Exn.msg e)).
Proof.
  unfold job. destruct (m !! (d, j.1)); [|done].
  destruct (spawn _ _ _) as [[cp|e] m1]; [|done].
  case_bool_decide as Hrc; [|intros [= <- _]; left; by exists cp, m1].
  intros H. right.
  assert (∃ e, failed e = Val (ConversionFailed reason)) as [e He].
  { unfold render_step in H. repeat case_match; simplify_eq/=; eauto. }
  unfold failed, report_of in He.
  destruct (Exn.isinstance e Exn.ImportError) eqn:Hi; [left; exists e; by simplify_eq|].
  destruct (Exn.isinstance e Exn.Exception) eqn:Hx; [right; exists e; by simplify_eq|done].
Qed.

(** One turn of the loop is one job, counted. *)
Lemma convert_one_refines c doc w :
  forget_out (convert_one c doc w) =
    prod_map (fmap (tally_one c)) id (job (cwd w) (fs w) doc).
Proof.
  destruct c as [s f], doc as [md pdf]. rewrite convert_one_run. unfold file_at.
  destruct (fs w !! (cwd w, md)) as [data|] eqn:Hf.
  - pose proof (markdown_to_pdf_refines md pdf (called (Call.Exists md) w) data Hf) as H.
    cbn [called with_trace cwd fs] in H.
    destruct (markdown_to_pdf md pdf _) as [[[]|e] w'],
      (job (cwd w) (fs w) (md, pdf)) as [[r|e'] m'];
      unfold forget_out, prod_map, tally_one in *; simplify_eq/=; try done.
    + by match goal with H : true = _ |- _ => rewrite <-H end.
    + by match goal with H : false = _ |- _ => rewrite <-H end.
  - unfold job. cbn [fst]. by rewrite Hf.
Qed.

(** The loop is the run of the jobs, tallied. *)
Lemma batch_refines docs c w :
  forget_out (for_each convert_one docs c w) =
    prod_map (fmap (tally c)) id (run_jobs (cwd w) (fs w) docs).
Proof.
  revert c w. induction docs as [|doc docs IH]; intros c w; [done|].
  cbn [for_each run_jobs]. unfold mbind, M_bind.
  pose proof (convert_one_refines c doc w) as H1.
  pose proof (preserves_run same_cwd _ w (convert_one_same_cwd c doc)) as Hc.
  destruct (convert_one c doc w) as [[c1|e] w1],
    (job (cwd w) (fs w) doc) as [[r|e'] m1];
    unfold forget_out, prod_map, same_cwd in *; simplify_eq/=; [|done].
  rewrite IH, Hc. by destruct (run_jobs _ _ _) as [[rs|e] m2].
Qed.

(** A turn that ends is a job that ends, with the same files, in the same
    directory; a turn that raises is a job that raises. *)
Lemma convert_one_job c doc w c1 w1 :
  convert_one c doc w = (Val c1, w1) →
  ∃ r, job (cwd w) (fs w) doc = (Val r, fs w1) ∧ c1 = tally_one c r ∧
       cwd w1 = cwd w.
Proof.
  intros Hone. pose proof (convert_one_refines c doc w) as Href.
  pose proof (preserves_run same_cwd _ w (convert_one_same_cwd c doc)) as Hcwd.
  rewrite Hone in Href, Hcwd.
  destruct (job (cwd w) (fs w) doc) as [[r|e] m1];
    unfold forget_out, prod_map in Href; simplify_eq/=. by exists r.
Qed.

Lemma convert_one_job_raises c doc w e w1 :
  convert_one c doc w = (Raise e, w1) →
  job (cwd w) (fs w) doc = (Raise e, fs w1).
Proof.
  intros Hone. pose proof (convert_one_refines c doc w) as Href.
  rewrite Hone in Href.
  destruct (job (cwd w) (fs w) doc) as [[r|e'] m1];
    unfold forget_out, prod_map in Href; by simplify_eq/=.
Qed.

(** A loop and a run that both end, taken apart at the first document:
    a turn and a job with the same files, then a loop and a run over the
    files they leave. *)
Lemma batch_cons_inv doc docs c w c' w' rs m' :
  for_each convert_one (doc :: docs) c w = (Val c', w') →
  run_jobs (cwd w) (fs w) (doc :: docs) = (Val rs, m') →
  ∃ c1 w1 r rs1,
    convert_one c doc w = (Val c1, w1) ∧
    job (cwd w) (fs w) doc = (Val r, fs w1) ∧
    rs = r :: rs1 ∧
    for_each convert_one docs c1 w1 = (Val c', w') ∧
    run_jobs (cwd w1) (fs w1) docs = (Val rs1, m').
Proof.
  cbn [for_each run_jobs]. unfold mbind, M_bind.
  destruct (convert_one c doc w) as [[c1|e] w1] eqn:Hone; [|done].
  destruct (convert_one_job _ _ _ _ _ Hone) as (r & -> & -> & Hcwd).
  destruct (run_jobs (cwd w) (fs w1) docs) as [[rs1|e] m2] eqn:Hr; [|done].
  intros Hloop ?; simplify_eq/=. rewrite <-Hcwd in Hr.
  eexists _, _, _, _. by split_and!.
Qed.

(** The machine only adds results. *)
Lemma rtc_bstep_results d a a' :
  rtc (bstep d) a a' → ∃ rs, results a' = results a ++ rs.
Proof.
  induction 1 as [a|a1 a2 a3 H12 _ [rs IH]]; [exists []; by rewrite app_nil_r|].
  destruct H12. cbn in *. exists (r :: rs). by rewrite IH, <-app_assoc.
Qed.

(** The run and its machine: [run_jobs] ends with results [rs] exactly
    when the machine runs from all jobs to none, adding [rs]. *)
Lemma run_jobs_steps d m docs acc rs m' :
  run_jobs d m docs = (Val rs, m') ↔
  rtc (bstep d) (BState docs acc m) (BState [] (acc ++ rs) m').
Proof.
  revert m acc rs. induction docs as [|doc docs IH]; intros m acc rs.
  - split.
    + intros [= <- <-]. by rewrite app_nil_r.
    + intros H. apply rtc_inv in H as [Heq|(a & Hs & _)]; [|inversion Hs].
      injection Heq as Hacc ->.
      assert (rs = []) as -> by (apply (app_inv_head acc); by rewrite app_nil_r).
      done.
  - cbn [run_jobs]. split.
    + destruct (job d m doc) as [[r|e] m1] eqn:Hj; [|done].
      destruct (run_jobs d m1 docs) as [[rs1|e] m2] eqn:H1; [|done].
      intros ?; simplify_eq/=. eapply rtc_l; [by constructor|].
      replace (acc ++ r :: rs1) with ((acc ++ [r]) ++ rs1)
        by (by rewrite <-app_assoc).
      by apply IH.
    + intros H. apply rtc_inv in H as [?|(a & Hs & Hrest)]; [done|].
      inversion Hs as [? ? ? ? r m1 Hj]; subst. rewrite Hj.
      destruct (rtc_bstep_results _ _ _ Hrest) as [rs1 Hrs]. cbn in Hrs.
      rewrite <-app_assoc in Hrs. apply app_inv_head in Hrs as ->.
      replace (acc ++ [r] ++ rs1) with ((acc ++ [r]) ++ rs1) in Hrest
        by (by rewrite <-app_assoc).
      apply IH in Hrest as ->. done.
Qed.

(** C17. The loop of the script and the run of the jobs simulate each
    other, step for step: from related states, every turn of the loop that
    ends is matched by the job of the specification, and every job that
    ends by a turn of the loop, and the states they reach are related
    again. *)
Theorem loop_simulation d s a :
  refines_state d s a →
  (∀ s', loop_step s s' → ∃ a', bstep d a a' ∧ refines_state d s' a') ∧
  (∀ a', bstep d a a' → ∃ s', loop_step s s' ∧ refines_state d s' a').
Proof.
  destruct s as [[docs c] w], a as [js rs m]. unfold refines_state.
  cbn [fst snd pending results bfiles]. intros (-> & -> & <- & <-). split.
  - inversion 1 as [doc docs' c0 w0 c' w' Hrun]; subst.
    pose proof (convert_one_refines (tally (0, 0) rs) doc w) as Href.
    pose proof (preserves_run same_cwd _ w (convert_one_same_cwd (tally (0, 0) rs) doc)) as Hcwd.
    rewrite Hrun in Href, Hcwd.
    destruct (job (cwd w) (fs w) doc) as [[r|e] m'] eqn:Hj;
      unfold forget_out, prod_map in Href; simplify_eq/=.
    exists (BState docs' (rs ++ [r]) (fs w')). split; [by constructor|].
    split_and!; [done|cbn [results]; unfold tally; by rewrite foldl_snoc|done..].
  - inversion 1 as [j js' rs' m0 r m' Hj]; subst.
    pose proof (convert_one_refines (tally (0, 0) rs) j w) as Href.
    pose proof (preserves_run same_cwd _ w (convert_one_same_cwd (tally (0, 0) rs) j)) as Hcwd.
    rewrite Hj in Href. destruct (convert_one _ j w) as [[c'|e] w'] eqn:Hrun;
      unfold forget_out, prod_map in Href; simplify_eq/=.
    exists (js', tally_one (tally (0, 0) rs) r, w'). split; [by constructor|].
    split_and!; [done|cbn [results]; unfold tally; by rewrite foldl_snoc|done..].
Qed.

End refinement.

(** ** The batch *)

Section batch_refinement.
Context `{T : Tools}.
Implicit Types (md pdf dir : string) (w : world) (docs : list ConversionJob).

(** The first loop of [main_on] is the run of the jobs in its directory,
    tallied. *)
Lemma started_refines dir docs w :
  forget_out (for_each convert_one docs (0, 0) (started dir w)) =
    prod_map (fmap (tally (0, 0))) id (run_jobs dir (fs w) docs).
Proof. apply (batch_refines docs (0, 0) (started dir w)). Qed.

(** A run that ends has one result per job. *)
Lemma run_jobs_length d m docs rs m' :
  run_jobs d m docs = (Val rs, m') → length rs = length docs.
Proof.
  revert m rs. induction docs as [|doc docs IH]; intros m rs; [by intros [= <- _]|].
  cbn [run_jobs]. destruct (job d m doc) as [[r|e] m1]; [|done].
  destruct (run_jobs d m1 docs) as [[rs1|e] m2] eqn:H1; [|done].
  intros ?; simplify_eq/=. f_equal. eauto.
Qed.

(** C2. [main_on] refines [run_jobs]: when the directory exists, it returns
    exactly when the run of the jobs over the files does, it raises the
    exception that ends the run otherwise, and it leaves the files the run
    leaves. *)
Theorem main_on_refines dir docs w :
  dir ∈ dirs w →
  forget_out (main_on dir docs w) =
    prod_map (fmap (λ _, ())) id (run_jobs dir (fs w) docs).
Proof.
  intros Hd. destruct (main_on_forget dir docs w Hd) as [H1 H2].
  pose proof (started_refines dir docs w) as H.
  unfold forget_out, prod_map in *. rewrite H1, H2.
  destruct (for_each convert_one docs _ _) as [[c|e] w2],
    (run_jobs dir (fs w) docs) as [[rs|e'] m']; by simplify_eq/=.
Qed.

(** C10. The summary counts the results: when the run of the jobs ends with
    results [rs], [main_on] prints a summary whose first number is the
    number of [Succeeded] among [rs] and whose second is the number of
    [SourceMissing] and [ConversionFailed]; there is one result per
    document. *)
Theorem main_on_summary_tally dir docs w rs m' :
  dir ∈ dirs w →
  run_jobs dir (fs w) docs = (Val rs, m') →
  ∃ log w',
    main_on dir docs w = (Val (), w') ∧ fs w' = m' ∧
    length rs = length docs ∧
    out w' = log ++
      [Report.rule;
       Report.summary (length (filter (.= Succeeded) rs))
                      (length (filter (.≠ Succeeded) rs));
       Report.rule; Report.generated] ++ map (listing_line w') docs.
Proof.
  intros Hd Hr. rewrite main_on_run, bool_decide_true by done.
  pose proof (started_refines dir docs w) as H.
  rewrite Hr in H.
  destruct (for_each convert_one docs _ _) as [[[s f]|e] w2];
    unfold forget_out, prod_map in H; simplify_eq/=.
  rewrite tally_filter in *. simplify_eq/=.
  eexists (out w2), _. split_and!; [done..|by eapply run_jobs_length|].
  rewrite listed_out, out_add. by rewrite <-app_assoc.
Qed.

(** C31. The exit status: the script ends with status 0 exactly when the
    directory exists and no job lets an exception out; how many jobs
    failed plays no part. *)
Theorem exit_ok_iff dir docs w :
  exit_ok (main_on dir docs w).1 = true ↔
  dir ∈ dirs w ∧ ∃ rs m', run_jobs dir (fs w) docs = (Val rs, m').
Proof.
  destruct (decide (dir ∈ dirs w)) as [Hd|Hd].
  - destruct (main_on_forget dir docs w Hd) as [H1 _].
    pose proof (started_refines dir docs w) as H.
    unfold forget_out, prod_map in H. rewrite H1.
    destruct (for_each convert_one docs _ _) as [[c|e] w2],
      (run_jobs dir (fs w) docs) as [[rs|e'] m']; simplify_eq/=.
    + split; eauto.
    + split; [done|]. by intros (_ & ? & ? & ?).
  - rewrite main_on_run, bool_decide_false by done. split; [done|]. by intros [? _].
Qed.

(** [main_on] when the run of the jobs ends: it returns, and leaves the
    files the run leaves. *)
Lemma main_on_run_jobs dir docs w rs m' :
  dir ∈ dirs w → run_jobs dir (fs w) docs = (Val rs, m') →
  (main_on dir docs w).1 = Val () ∧ fs (main_on dir docs w).2 = m'.
Proof.
  intros Hd Hr. destruct (main_on_forget dir docs w Hd) as [-> ->].
  pose proof (started_refines dir docs w) as Href. rewrite Hr in Href.
  unfold forget_out, prod_map in Href.
  destruct (for_each convert_one docs _ _) as [[c|e] w2]; by simplify_eq/=.
Qed.

End batch_refinement.

(** ** What a run leaves behind *)

Section run_contract.
Context `{T : Tools} `{!ToolsContract T}.
Implicit Types (d : string) (m : gmap (string * string) string)
  (jobs : list ConversionJob).

(** A job that succeeds leaves its PDF, not empty, and no intermediate
    file. *)
Lemma job_succeeded d m j m' :
  j.2 ≠ html_file_of j.1 →
  job d m j = (Val Succeeded, m') →
  (∃ data, m' !! (d, j.2) = Some data ∧ data ≠ "") ∧
  m' !! (d, html_file_of j.1) = None.
Proof.
  intros Hne. unfold job, render_step, failed.
  repeat case_match; intros ?; simplify_eq/=.
  match goal with H : render_pdf _ _ _ _ = (Val ?u, _) |- _ =>
    destruct u; apply render_success in H as (data & Hl & ?) end.
  split; [|apply lookup_delete_eq].
  exists data. by rewrite lookup_delete_ne by congruence.
Qed.

(** A run changes the artifacts of its jobs at most. *)
Lemma run_jobs_frame d m jobs r m' p :
  Forall (λ j, j.1 ≠ "-o") jobs →
  run_jobs d m jobs = (r, m') →
  p ∉ artifacts jobs →
  m' !! (d, p) = m !! (d, p).
Proof.
  intros Hj Hr Hp.
  pose proof (batch_refines jobs (0, 0) (World d ∅ m [])) as Href.
  pose proof (preserves_run _ _ (World d ∅ m []) (batch_touches jobs (0, 0) Hj))
    as [_ Hfs].
  cbn [cwd fs] in Href, Hfs. rewrite Hr in Href.
  unfold forget_out, prod_map in Href. simplify_eq/=. by apply Hfs.
Qed.

Lemma artifacts_cons j jobs :
  artifacts (j :: jobs) = {[html_file_of j.1; j.2]} ∪ artifacts jobs.
Proof.
  unfold artifacts. cbn [mbind list_bind app].
  by rewrite !list_to_set_cons, (assoc_L (∪)).
Qed.

(** A job that does not succeed leaves what was under its PDF name, when
    the renderer is one that writes nothing when it fails: the converter
    writes the intermediate file only, a renderer that raises has
    produced nothing by [RenderAtomic], and one that returns leaves the
    intermediate file to be removed. *)
Lemma job_failed_kept `{!RenderAtomic T} d m j r m' :
  j.1 ≠ "-o" → j.2 ≠ html_file_of j.1 →
  job d m j = (Val r, m') → r ≠ Succeeded →
  m' !! (d, j.2) = m !! (d, j.2).
Proof.
  intros Hmd Hne. unfold job.
  destruct (m !! (d, j.1)); [|by intros [= _ <-]].
  destruct (spawn _ _ _) as [[cp|e] m1] eqn:Hs; [|done].
  assert (m1 !! (d, j.2) = m !! (d, j.2)) as <-.
  { eapply spawn_frame; [done|]. intros o. rewrite cmd_html_output by done.
    intros [= <-]. congruence. }
  case_bool_decide as Hrc; [|by intros [= _ <-]].
  unfold render_step. destruct weasyprint_import; [by intros [= _ <-]|].
  destruct (render_pdf _ _ _ _) as [[[]|e] m2] eqn:Hr.
  - destruct (html_after_render _ _ _ _ _ _ _ _ Hmd Hne Hs Hrc Hr) as [data ->].
    by intros [= <- _].
  - apply render_failure in Hr as ->. by intros [= _ <-].
Qed.

(** After a run, every job that did not succeed has left what was under
    its PDF name, when no other job writes that name. *)
Lemma run_jobs_failed_kept `{!RenderAtomic T} d m jobs rs m' i j r :
  Forall (λ j, j.1 ≠ "-o") jobs →
  j.2 ≠ html_file_of j.1 → j.2 ∉ artifacts (delete i jobs) →
  run_jobs d m jobs = (Val rs, m') →
  jobs !! i = Some j → rs !! i = Some r → r ≠ Succeeded →
  m' !! (d, j.2) = m !! (d, j.2).
Proof.
  revert m rs i. induction jobs as [|j0 jobs IH]; intros m rs i Hj Hne Hp; [done|].
  apply Forall_cons in Hj as [Hj0 Hj].
  cbn [run_jobs]. destruct (job d m j0) as [[r0|e] m1] eqn:H0; [|done].
  destruct (run_jobs d m1 jobs) as [[rs1|e] m2] eqn:H1; intros ? Hi Hri Hr;
    simplify_eq/=.
  destruct i as [|i]; simplify_eq/=.
  - rewrite (run_jobs_frame _ _ _ _ _ _ Hj H1) by done. by eapply job_failed_kept.
  - rewrite artifacts_cons in Hp. apply not_elem_of_union in Hp as [Hp0 Hp].
    rewrite (IH m1 rs1 i) by done.
    apply (run_jobs_frame d m [j0] (Val [r0]) m1); [by constructor| |].
    + cbn [run_jobs]. by rewrite H0.
    + rewrite artifacts_cons. apply not_elem_of_union. split; [done|].
      apply not_elem_of_empty.
Qed.

(** After a run over separate names, every job that succeeded has its
    PDF and no intermediate file. *)
Lemma run_jobs_succeeded d m jobs rs m' i j :
  Forall (λ j, j.1 ≠ "-o") jobs → separate jobs →
  run_jobs d m jobs = (Val rs, m') →
  jobs !! i = Some j → rs !! i = Some Succeeded →
  (∃ data, m' !! (d, j.2) = Some data ∧ data ≠ "") ∧
  m' !! (d, html_file_of j.1) = None.
Proof.
  revert m rs i. induction jobs as [|j0 jobs IH]; intros m rs i Hj Hsep; [done|].
  apply Forall_cons in Hj as [Hj0 Hj]. destruct Hsep as (Hne & Hp & Hh & Hsep).
  cbn [run_jobs]. destruct (job d m j0) as [[r0|e] m1] eqn:H0; [|done].
  destruct (run_jobs d m1 jobs) as [[rs1|e] m2] eqn:H1; intros ? Hi Hri;
    simplify_eq/=.
  destruct i as [|i]; simplify_eq/=; [|by eapply IH].
  apply job_succeeded in H0 as [(data & Hl & ?) Hh0]; [|done].
  rewrite !(run_jobs_frame _ _ _ _ _ _ Hj H1) by done. eauto.
Qed.

(** C19. What a batch leaves behind: with tools that keep their contract
    and documents whose names are separate, after [main_on] every document
    whose job succeeded has its PDF, not empty, and no intermediate HTML
    file, whatever happened to the documents after it. *)
Theorem main_on_succeeded dir docs w rs m' i doc :
  dir ∈ dirs w →
  Forall (λ j, j.1 ≠ "-o") docs → separate docs →
  run_jobs dir (fs w) docs = (Val rs, m') →
  docs !! i = Some doc → rs !! i = Some Succeeded →
  (∃ data, fs (main_on dir docs w).2 !! (dir, doc.2) = Some data ∧ data ≠ "") ∧
  fs (main_on dir docs w).2 !! (dir, html_file_of doc.1) = None.
Proof.
  intros Hd Hj Hsep Hr Hi Hri.
  destruct (main_on_run_jobs dir docs w rs m' Hd Hr) as [_ ->].
  by eapply run_jobs_succeeded.
Qed.

(** C23. No partial output, on one assumption: with tools that keep
    their contract and a renderer that writes nothing when it fails
    ([RenderAtomic], which the script does not enforce), after [main_on]
    every document whose job did not succeed has under its PDF name what
    was there before the batch, a PDF left by an earlier run or nothing,
    provided no source is named [-o], the PDF name of the document is
    not its intermediate name and no other document writes that name.
    Without the assumption the script leaves what the renderer has
    written: [main_on_partial_pdf] of [Batch]. *)
Theorem main_on_failed_kept `{!RenderAtomic T} dir docs w rs m' i doc r :
  dir ∈ dirs w →
  Forall (λ j, j.1 ≠ "-o") docs →
  doc.2 ≠ html_file_of doc.1 → doc.2 ∉ artifacts (delete i docs) →
  run_jobs dir (fs w) docs = (Val rs, m') →
  docs !! i = Some doc → rs !! i = Some r → r ≠ Succeeded →
  fs (main_on dir docs w).2 !! (dir, doc.2) = fs w !! (dir, doc.2).
Proof.
  intros Hd Hj Hne Hp Hr Hi Hri Hnot.
  destruct (main_on_run_jobs dir docs w rs m' Hd Hr) as [_ ->].
  by eapply run_jobs_failed_kept.
Qed.

End run_contract.

(** The names of the hard-coded list are separate, and none is [-o]. *)
Lemma documents_separate :
  separate documents ∧ Forall (λ j, j.1 ≠ "-o") documents.
Proof.
  split; [|by repeat constructor].
  repeat split; try done; unfold artifacts; rewrite elem_of_list_to_set;
    apply (bool_decide_unpack _); by vm_compute.
Qed.

(** ** The scenarios of the specification *)

(** A batch of one job whose source is absent: the result is
    [SourceMissing], no file is created and no tool called, the summary
    reads "0 successful, 1 failed" and the listing marks the PDF as not
    found.  The trace is the change of directory, the banner, the test
    for the source and its warning, the summary, and the test for the
    PDF with its line. *)
Example scenario_source_missing :
  let w := World "/docs" {["/docs"]} ∅ [] in
  run_jobs (T:=Toolsets.ideal) "/docs" (fs w) [("a.md", "a.pdf")]
    = (Val [SourceMissing], ∅) ∧
  main_on (T:=Toolsets.ideal) "/docs" [("a.md", "a.pdf")] w =
    (Val (),
     World "/docs" {["/docs"]} ∅
       [Event.Call (Call.Chdir "/docs");
        Event.Out Report.rule; Event.Out Report.title; Event.Out Report.rule;
        Event.Out "";
        Event.Call (Call.Exists "a.md");
        Event.Out "⚠ File not found: a.md"; Event.Out "";
        Event.Out Report.rule; Event.Out "Summary: 0 successful, 1 failed";
        Event.Out Report.rule; Event.Out Report.generated;
        Event.Call (Call.Exists "a.pdf");
        Event.Out "  ✗ a.pdf (NOT FOUND)"]).
Proof. split; reflexivity. Qed.

(** A batch of one job whose source is present, both tools working:
    the result is [Succeeded], the intermediate file is gone, the PDF is
    there, the source is as it was, the summary reads "1 successful, 0
    failed", and the trace is the sixteen lines and the eight calls of a
    batch whose one conversion runs to its end, in the order in which
    they happen. *)
Example scenario_success :
  let w := World "/docs" {["/docs"]} {[ ("/docs", "b.md") := "# B" ]} [] in
  let w' := (main_on (T:=Toolsets.ideal) "/docs" [("b.md", "b.pdf")] w).2 in
  (run_jobs (T:=Toolsets.ideal) "/docs" (fs w) [("b.md", "b.pdf")]).1
    = Val [Succeeded] ∧
  file_at w' "b.html" = None ∧
  file_at w' "b.pdf" = Some "%PDF-1.7 <html># B</html>" ∧
  file_at w' "b.md" = Some "# B" ∧
  trace w' =
    [Event.Call (Call.Chdir "/docs");
     Event.Out Report.rule; Event.Out Report.title; Event.Out Report.rule;
     Event.Out "";
     Event.Call (Call.Exists "b.md");
     Event.Out "Converting b.md to PDF...";
     Event.Out "  Step 1: Generating HTML from Markdown...";
     Event.Call (Call.Run (cmd_html "b.md" "b.html"));
     Event.Out "  ✓ HTML generated: b.html";
     Event.Call (Call.Import "weasyprint");
     Event.Out "  Step 2: Converting HTML to PDF...";
     Event.Call (Call.WritePdf "b.html" "b.pdf");
     Event.Out "  ✓ PDF generated: b.pdf";
     Event.Call (Call.Remove "b.html");
     Event.Out "  ✓ Cleaned up temporary HTML file"; Event.Out "";
     Event.Out Report.rule; Event.Out "Summary: 1 successful, 0 failed";
     Event.Out Report.rule; Event.Out Report.generated;
     Event.Call (Call.Exists "b.pdf"); Event.Call (Call.Stat "b.pdf");
     Event.Out "  ✓ b.pdf (0.00 MB)"].
Proof. by vm_compute. Qed.

(** ** The theorems at work *)

Lemma main_on_refines_witness :
  forget_out (main_on (T:=Toolsets.ideal) "/docs" two_docs Toolsets.sample) =
    prod_map (fmap (λ _, ())) id
      (run_jobs (T:=Toolsets.ideal) "/docs" (fs Toolsets.sample) two_docs).
Proof. apply (main_on_refines (T:=Toolsets.ideal)). by vm_compute. Defined.

Lemma main_on_summary_tally_witness :
  ∃ log w',
    main_on (T:=Toolsets.ideal) "/docs" two_docs Toolsets.sample = (Val (), w') ∧
    fs w' = (run_jobs (T:=Toolsets.ideal) "/docs" (fs Toolsets.sample) two_docs).2 ∧
    length [Succeeded; SourceMissing] = length two_docs ∧
    out w' = log ++
      [Report.rule;
       Report.summary (length (filter (.= Succeeded) [Succeeded; SourceMissing]))
                      (length (filter (.≠ Succeeded) [Succeeded; SourceMissing]));
       Report.rule; Report.generated] ++ map (listing_line w') two_docs.
Proof.
  apply (main_on_summary_tally (T:=Toolsets.ideal) "/docs" two_docs
           Toolsets.sample [Succeeded; SourceMissing]).
  1: by vm_compute.
  reflexivity.
Defined.

Lemma main_on_failed_kept_witness :
  let w := World "/docs" {["/docs"]}
             {[ ("/docs", "a.md") := "# Title"; ("/docs", "a.pdf") := "%PDF old" ]}
             [] in
  fs (main_on (T:=Toolsets.rejecting) "/docs" [("a.md", "a.pdf")] w).2
    !! ("/docs", "a.pdf") = fs w !! ("/docs", "a.pdf").
Proof.
  intros w.
  eapply (main_on_failed_kept (T:=Toolsets.rejecting) "/docs" [("a.md", "a.pdf")] w
            [ConversionFailed (Msg.html_error "pandoc: parse error")] _ 0
            ("a.md", "a.pdf"));
    [by vm_compute|by repeat constructor|done|apply not_elem_of_empty
    |reflexivity|reflexivity|reflexivity|done].
Defined.

Lemma loop_simulation_witness :
  let s : loop_state := (two_docs, (0, 0), Toolsets.sample) in
  let a := BState two_docs [] (fs Toolsets.sample) in
  (∀ s', loop_step (T:=Toolsets.ideal) s s' →
     ∃ a', bstep (T:=Toolsets.ideal) "/docs" a a' ∧ refines_state "/docs" s' a') ∧
  (∀ a', bstep (T:=Toolsets.ideal) "/docs" a a' →
     ∃ s', loop_step (T:=Toolsets.ideal) s s' ∧ refines_state "/docs" s' a').
Proof.
  intros s a. apply (loop_simulation (T:=Toolsets.ideal) "/docs" s a).
  by repeat split.
Defined.

Lemma main_on_succeeded_witness :
  let w' := (main_on (T:=Toolsets.ideal) "/docs" two_docs Toolsets.sample).2 in
  (∃ data, fs w' !! ("/docs", "a.pdf") = Some data ∧ data ≠ "") ∧
  fs w' !! ("/docs", html_file_of "a.md") = None.
Proof.
  eapply (main_on_succeeded (T:=Toolsets.ideal) "/docs" two_docs Toolsets.sample
            [Succeeded; SourceMissing] _ 0 ("a.md", "a.pdf")).
  - by vm_compute.
  - by repeat constructor.
  - repeat split; try done; unfold artifacts; rewrite elem_of_list_to_set;
      apply (bool_decide_unpack _); by vm_compute.
  - reflexivity.
  - reflexivity.
  - reflexivity.
Defined.
