(* ===== verification/History.v ===== *)
(** * History: the trace of the batch

    Every line the script prints and every call it makes to the operating
    system and to the two tools is an event of the trace of the world.
    This file reads the trace of a run of [main_on] of
    [src/convert_to_pdf.py] (lines 61-104):

    - [commands]: the child processes a history of calls starts;
    - [present]: the documents whose source exists (line 81);
    - [intermediates]: the HTML files of a list of documents (line 16);
    - [attempted]: the jobs of a run of the specification whose result is
      not [SourceMissing];
    - [job_blocks] and [job_block]: the traces one turn of the first loop
      can leave, given the result of its job (lines 80-91);
    - [cut_blocks] and [cut_block]: those of a turn that an exception
      ends;
    - [summary_trace]: the events of the summary, given the results
      (lines 93-98).

    The theorems say that the converter is started once for each source
    that exists, in the order of the list, which is once for each job of
    the specification that is attempted; that the script deletes nothing
    but intermediate files; and that the trace of a batch that returns is
    the banner, one block per job in the order of the list that shows the
    result of the job, the summary and the listing, and that the trace of
    a batch that an exception ends stops at the call that raised. *)

From S2P Require Import Prelude PyStr Exec Tools Convert Lines Batch Spec.

(** The intermediate HTML files of a list of documents. *)
Definition intermediates (docs : list (string * string)) : gset string :=
  list_to_set (html_file_of <$> docs.*1).

(** The documents whose source is among the files [m] of directory
    [dir]. *)
Definition present (dir : string) (m : gmap (string * string) string)
    (docs : list (string * string)) : list (string * string) :=
  filter (λ doc, is_Some (m !! (dir, doc.1))) docs.

(** The command lines of the child processes a history starts, the oldest
    first. *)
Definition commands (l : list Call.t) : list (list string) :=
  omap Call.argv_of l.

(** The jobs of a run that were attempted: those whose result is not
    [SourceMissing]. *)
Definition attempted (jobs : list ConversionJob) (rs : list ConversionResult)
    : list ConversionJob :=
  (filter (λ jr, jr.2 ≠ SourceMissing) (zip jobs rs)).*1.

(** The traces a turn of the first loop can leave for job [j], given
    its result: the test for the source, then the warning when the source
    is missing, the whole of a conversion when it succeeded, and the
    beginning of one, cut after a call, followed by the line that is the
    reason of the failure when it failed; the empty line closes the
    turn. *)
Definition job_blocks (j : ConversionJob) (r : ConversionResult)
    : list (list Event.t) :=
  match r with
  | Succeeded =>
      [ Event.Call (Call.Exists j.1) :: conversion_trace j.1 j.2
        ++ [Event.Out ""] ]
  | SourceMissing =>
      [ [Event.Call (Call.Exists j.1); Event.Out (Report.not_found j.1);
         Event.Out ""] ]
  | ConversionFailed reason =>
      (λ n, Event.Call (Call.Exists j.1) :: take n (conversion_trace j.1 j.2)
            ++ [Event.Out reason; Event.Out ""]) <$> [3; 5; 7; 9]
  end.

(** [job_block j r t]: [t] is the trace of a turn for job [j] that ended
    with result [r]. *)
Definition job_block (j : ConversionJob) (r : ConversionResult)
    (t : list Event.t) : Prop :=
  t ∈ job_blocks j r.

(** The traces of a turn of the first loop that an exception ends: the
    test for the source and the beginning of a conversion, cut after the
    call that raised, which is the start of the converter, the import of
    the renderer or the rendering. *)
Definition cut_blocks (j : ConversionJob) : list (list Event.t) :=
  (λ n, Event.Call (Call.Exists j.1) :: take n (conversion_trace j.1 j.2))
  <$> [3; 5; 7].

Definition cut_block (j : ConversionJob) (t : list Event.t) : Prop :=
  t ∈ cut_blocks j.

#[export] Instance job_block_dec j r t : Decision (job_block j r t).
Proof. unfold job_block. apply _. Defined.

#[export] Instance cut_block_dec j t : Decision (cut_block j t).
Proof. unfold cut_block. apply _. Defined.

(** The events of the summary of a run with results [rs]. *)
Definition summary_trace (rs : list ConversionResult) : list Event.t :=
  [ Event.Out Report.rule;
    Event.Out (Report.summary (length (filter (.= Succeeded) rs))
                              (length (filter (.≠ Succeeded) rs)));
    Event.Out Report.rule;
    Event.Out Report.generated ].

(** ** The calls of the batch *)

Section history_calls.
Context `{T : Tools}.
Implicit Types (md pdf dir : string) (w : world) (docs : list (string * string)).

(** Which documents are present depends on the files under their source
    names only. *)
Lemma present_ext dir m1 m2 docs :
  (∀ doc, doc ∈ docs → m1 !! (dir, doc.1) = m2 !! (dir, doc.1)) →
  present dir m1 docs = present dir m2 docs.
Proof.
  unfold present. induction docs as [|doc docs IH]; intros Hm; [done|].
  rewrite !filter_cons, Hm, IH; [done| |by left].
  intros doc' Hin. apply Hm. by right.
Qed.

Lemma present_cons dir m doc docs :
  present dir m (doc :: docs) =
  match m !! (dir, doc.1) with
  | Some _ => doc :: present dir m docs
  | None => present dir m docs
  end.
Proof.
  unfold present. rewrite filter_cons. destruct (m !! (dir, doc.1)) eqn:Hl.
  - by rewrite decide_True by done.
  - rewrite decide_False; [done|]. by intros [? ?].
Qed.

Lemma commands_app l1 l2 : commands (l1 ++ l2) = commands l1 ++ commands l2.
Proof. apply omap_app. Qed.

(** Step 2 starts no child process. *)
Lemma commands_step2 n html pdf : commands (take n (step2_calls html pdf)) = [].
Proof. by destruct n as [|[|[|[|n]]]]. Qed.

(** A turn starts the converter, once, when the source exists. *)
Lemma commands_turn_calls w doc :
  commands (turn_calls w doc) =
  match file_at w doc.1 with
  | Some _ => [cmd_html doc.1 (html_file_of doc.1)]
  | None => []
  end.
Proof.
  unfold turn_calls. destruct (file_at w doc.1); [|done].
  unfold conversion_calls. cbn [take].
  change (commands (?a :: Call.Run ?argv :: ?l)) with (argv :: commands l).
  by rewrite commands_step2.
Qed.

(** The listing starts none. *)
Lemma commands_listing w docs : commands (docs ≫= listing_calls w) = [].
Proof.
  induction docs as [|doc docs IH]; [done|].
  cbn [mbind list_bind]. rewrite commands_app, IH.
  unfold listing_calls. by case_match.
Qed.

Lemma convert_one_removes P c doc :
  html_file_of doc.1 ∈ P → preserves (removes P) (convert_one c doc).
Proof.
  destruct c as [s f], doc as [md pdf]. intros Hh.
  pose proof (markdown_to_pdf_removes P md pdf Hh). unfold convert_one. pres.
Qed.

Lemma report_pdf_removes P doc : preserves (removes P) (report_pdf doc).
Proof. destruct doc as [md pdf]. unfold report_pdf. pres. Qed.

Lemma intermediates_elem docs doc :
  doc ∈ docs → html_file_of doc.1 ∈ intermediates docs.
Proof.
  intros Hin. unfold intermediates. rewrite elem_of_list_to_set.
  apply list_elem_of_fmap. exists doc.1. split; [done|].
  apply list_elem_of_fmap. by exists doc.
Qed.

(** [main_on] deletes intermediate files only. *)
Lemma main_on_removes_intermediates dir docs :
  preserves (removes (intermediates docs)) (main_on dir docs).
Proof.
  assert (preserves (removes (intermediates docs)) (for_each convert_one docs (0, 0))).
  { apply preserves_for_each_Forall; [tc_solve|]. apply Forall_forall.
    intros doc Hin c. by apply convert_one_removes, intermediates_elem. }
  pose proof (report_pdf_removes (intermediates docs)).
  unfold main_on, for_each_. pres.
Qed.

(** C15. The script deletes nothing but intermediate files: every
    [os.remove] that [main_on] adds to the history of calls, whatever the
    tools do and however the batch ends, is the removal of the HTML file
    of one of its documents. *)
Theorem main_on_removes dir docs w :
  ∃ l,
    calls (main_on dir docs w).2 = calls w ++ l ∧
    ∀ p, Call.Remove p ∈ l → p ∈ intermediates docs.
Proof.
  apply (preserves_run (removes (intermediates docs))).
  apply main_on_removes_intermediates.
Qed.

(** The file as a whole, imported or executed, deletes nothing but the
    HTML files of the three documents of its list. *)
Lemma module_body_removes name w :
  ∃ l,
    calls (module_body name w).2 = calls w ++ l ∧
    ∀ p, Call.Remove p ∈ l →
         p ∈ ["REFERENCE_MANUAL.html"; "IMPLEMENTATION_GUIDE.html";
              "ARCHITECTURE.html"].
Proof.
  assert (preserves (removes (intermediates documents)) (module_body name)) as H.
  { pose proof (main_on_removes_intermediates workdir documents).
    unfold module_body, imports, script, main. pres. }
  destruct (preserves_run _ _ w H) as (l & Hl & Hp). exists l. split; [done|].
  intros p Hin%Hp. unfold intermediates in Hin.
  by rewrite elem_of_list_to_set in Hin.
Qed.

End history_calls.

(** ** The converter is started once for each job attempted *)

Section history_results.
Context `{T : Tools}.
Implicit Types (md pdf dir : string) (w : world) (docs : list ConversionJob).

(** A job is [SourceMissing] exactly when its source is. *)
Lemma job_source_missing d m j r m' :
  job d m j = (Val r, m') → r = SourceMissing ↔ m !! (d, j.1) = None.
Proof.
  unfold job, render_step, failed.
  repeat case_match; intros ?; simplify_eq/=; by split.
Qed.

Lemma attempted_cons j jobs r rs :
  attempted (j :: jobs) (r :: rs) =
  if decide (r = SourceMissing) then attempted jobs rs else j :: attempted jobs rs.
Proof.
  unfold attempted. cbn [zip zip_with]. rewrite filter_cons. cbn [snd].
  by destruct (decide (r = SourceMissing)), (decide (r ≠ SourceMissing)).
Qed.

(** The first loop starts the converter for the jobs attempted, in
    order. *)
Lemma batch_commands_results docs c w c' w' rs m' :
  for_each convert_one docs c w = (Val c', w') →
  run_jobs (cwd w) (fs w) docs = (Val rs, m') →
  commands (calls w') =
    commands (calls w) ++
    ((λ doc, cmd_html doc.1 (html_file_of doc.1)) <$> attempted docs rs).
Proof.
  revert c w rs. induction docs as [|doc docs IH]; intros c w rs.
  { intros [= _ <-] [= <- _]. by rewrite app_nil_r. }
  intros Hloop Hrun.
  destruct (batch_cons_inv _ _ _ _ _ _ _ _ Hloop Hrun)
    as (c1 & w1 & r & rs1 & Hone & Hj & -> & Hloop1 & Hrun1).
  pose proof (convert_one_calls c doc w) as Hc. rewrite Hone in Hc. cbn [snd] in Hc.
  rewrite (IH _ _ _ Hloop1 Hrun1), Hc, commands_app, commands_turn_calls, <-app_assoc.
  f_equal. rewrite attempted_cons. apply job_source_missing in Hj.
  unfold file_at. destruct (fs w !! (cwd w, doc.1)).
  - rewrite decide_False; [done|]. intros ?%Hj. done.
  - rewrite decide_True; [done|]. by apply Hj.
Qed.

(** The history of the script and the results of the specification
    agree on which jobs were attempted: when the run of the jobs ends
    with results [rs], the child processes [main_on] has started are, in
    order, the converter on the command line of each job whose result is
    not [SourceMissing], and no other, whatever the tools do. *)
Theorem main_on_commands_results dir docs w rs m' :
  dir ∈ dirs w →
  run_jobs dir (fs w) docs = (Val rs, m') →
  commands (calls (main_on dir docs w).2) =
    commands (calls w) ++
    ((λ doc, cmd_html doc.1 (html_file_of doc.1)) <$> attempted docs rs).
Proof.
  intros Hd Hr. rewrite main_on_run, bool_decide_true by done.
  pose proof (started_refines dir docs w) as Href. rewrite Hr in Href.
  destruct (for_each convert_one docs _ _) as [[[s f]|e] w2] eqn:Hl;
    unfold forget_out, prod_map in Href; [|done]. cbn [snd].
  rewrite listed_calls, commands_app, commands_listing, app_nil_r, summary_calls.
  rewrite (batch_commands_results _ _ _ _ _ rs m' Hl) by done.
  by rewrite started_calls, commands_app, app_nil_r.
Qed.

(** ** The trace of the batch, job by job *)

(** The block cut after [n] events is one of the blocks. *)
Local Ltac block_at n :=
  apply list_elem_of_fmap; exists n; split; [done|set_solver].

Local Ltac failed_block n :=
  unfold caught, failed;
  match goal with |- context [report_of ?e] => destruct (report_of e) end;
  [|done]; intros [= _ <-] [= <- _]; eexists; split;
  [cbn [trace with_trace]; by trace_norm|block_at n].

(** A turn of the first loop adds the block of its job. *)
Lemma convert_one_block c doc w c' w1 r m1 :
  convert_one c doc w = (Val c', w1) →
  job (cwd w) (fs w) doc = (Val r, m1) →
  ∃ t, trace w1 = trace w ++ t ∧ job_block doc r t.
Proof.
  destruct c as [s f], doc as [md pdf]. rewrite convert_one_run.
  unfold job, file_at. cbn [fst snd].
  destruct (fs w !! (cwd w, md)) as [data|];
    [|intros [= _ <-] [= <- _]; eexists; split; [done|apply list_elem_of_here]].
  rewrite markdown_to_pdf_run. unfold convert_outcome, called, with_trace.
  cbn [cwd fs dirs trace].
  destruct (spawn _ _ _) as [[cp|e] m0]; [|done].
  destruct (decide (returncode cp = 0%Z)) as [Hrc|Hrc].
  2:{ rewrite bool_decide_true, bool_decide_false by done.
      intros [= _ <-] [= <- _]. eexists. split; [by trace_norm|block_at 3]. }
  rewrite bool_decide_false, bool_decide_true by (done || lia).
  unfold render_step. destruct weasyprint_import; [failed_block 5|].
  destruct (render_pdf _ _ _ _) as [[[]|e] m2]; [|failed_block 7].
  destruct (m2 !! _); [|failed_block 9].
  intros [= _ <-] [= <- _]. eexists. split; [by trace_norm|apply list_elem_of_here].
Qed.

(** The first loop adds one block per job, in the order of the list. *)
Lemma batch_blocks docs c w c' w' rs m' :
  for_each convert_one docs c w = (Val c', w') →
  run_jobs (cwd w) (fs w) docs = (Val rs, m') →
  ∃ ts,
    Forall2 (λ jr t, job_block jr.1 jr.2 t) (zip docs rs) ts ∧
    trace w' = trace w ++ concat ts.
Proof.
  revert c w rs. induction docs as [|doc docs IH]; intros c w rs.
  { intros [= _ <-] [= <- _]. exists []. split; [constructor|by rewrite app_nil_r]. }
  intros Hloop Hrun.
  destruct (batch_cons_inv _ _ _ _ _ _ _ _ Hloop Hrun)
    as (c1 & w1 & r & rs1 & Hone & Hj & -> & Hloop1 & Hrun1).
  destruct (IH _ _ _ Hloop1 Hrun1) as (ts & Hts & ->).
  destruct (convert_one_block _ _ _ _ _ _ _ Hone Hj) as (t & -> & Hb).
  exists (t :: ts). split; [by constructor|]. cbn [concat]. by rewrite <-app_assoc.
Qed.

Local Ltac escaped_block n :=
  unfold caught;
  match goal with |- context [report_of ?e] => destruct (report_of e) end;
  [done|]; intros [= _ <-]; eexists; split;
  [cbn [trace]; by trace_norm|block_at n].

(** A turn of the first loop that raises adds a cut block. *)
Lemma convert_one_cut c doc w e w1 :
  convert_one c doc w = (Raise e, w1) →
  ∃ t, trace w1 = trace w ++ t ∧ cut_block doc t.
Proof.
  destruct c as [s f], doc as [md pdf]. rewrite convert_one_run.
  destruct (file_at w md) as [data|]; [|done].
  rewrite markdown_to_pdf_run. unfold convert_outcome, called, with_trace.
  cbn [cwd fs dirs trace].
  destruct (spawn _ _ _) as [[cp|e0] m0].
  2:{ intros [= _ <-]. eexists. split; [by trace_norm|block_at 3]. }
  case_bool_decide; [done|].
  destruct weasyprint_import; [escaped_block 5|].
  destruct (render_pdf _ _ _ _) as [[[]|e0] m2]; [|escaped_block 7].
  destruct (m2 !! _); [done|]. unfold caught. by rewrite report_of_enoent.
Qed.

(** A first loop that raises has added the blocks of the jobs that
    ended and the cut block of the job that raised. *)
Lemma batch_cut docs c w e w' :
  for_each convert_one docs c w = (Raise e, w') →
  ∃ i j rs mi ts t,
    docs !! i = Some j ∧
    run_jobs (cwd w) (fs w) (take i docs) = (Val rs, mi) ∧
    Forall2 (λ jr t, job_block jr.1 jr.2 t) (zip (take i docs) rs) ts ∧
    cut_block j t ∧
    trace w' = trace w ++ concat ts ++ t.
Proof.
  revert c w. induction docs as [|doc docs IH]; intros c w; [done|].
  cbn [for_each]. unfold mbind, M_bind.
  destruct (convert_one c doc w) as [[c1|e1] w1] eqn:Hone.
  - intros (i & j & rs & mi & ts & t & Hi & Hrun & Hts & Ht & ->)%IH.
    destruct (convert_one_job _ _ _ _ _ Hone) as (r & Hj & _ & Hcwd).
    destruct (convert_one_block _ _ _ _ _ _ _ Hone Hj) as (t0 & -> & Hb).
    exists (S i), j, (r :: rs), mi, (t0 :: ts), t.
    split_and!; [done| |by constructor|done|cbn [concat]; by rewrite <-!app_assoc].
    cbn [take run_jobs]. rewrite Hj. rewrite Hcwd in Hrun. by rewrite Hrun.
  - intros [= <- <-]. destruct (convert_one_cut _ _ _ _ _ Hone) as (t & -> & Ht).
    exists 0, doc, [], (fs w), [], t. split_and!; [done..|constructor|done|done].
Qed.

(** C21. The trace of a batch that an exception ends.  When the run of
    the jobs raises, [main_on] raises the same exception, and the trace
    it leaves is the change of directory and the banner, the blocks of
    the jobs that ended before, each showing its result, and the block
    of the job that raised, cut after the call that raised: the start of
    the converter, the import of the renderer or the rendering.  Nothing
    is printed after that call, neither a message nor the summary nor the
    listing. *)
Theorem main_on_cut dir docs w e m' :
  dir ∈ dirs w →
  run_jobs dir (fs w) docs = (Raise e, m') →
  (main_on dir docs w).1 = Raise e ∧
  ∃ i j rs mi ts t,
    docs !! i = Some j ∧
    run_jobs dir (fs w) (take i docs) = (Val rs, mi) ∧
    Forall2 (λ jr t, job_block jr.1 jr.2 t) (zip (take i docs) rs) ts ∧
    cut_block j t ∧
    trace (main_on dir docs w).2 = trace (started dir w) ++ concat ts ++ t.
Proof.
  intros Hd Hr. rewrite main_on_run, bool_decide_true by done.
  pose proof (started_refines dir docs w) as Href. rewrite Hr in Href.
  destruct (for_each convert_one docs _ _) as [[[s f]|e'] w2] eqn:Hl;
    unfold forget_out, prod_map in Href; simplify_eq/=.
  split; [done|]. by apply batch_cut in Hl.
Qed.

(** C20. The trace of a batch shows its results.  When the run of the
    jobs ends with results [rs], the trace [main_on] leaves is the change
    of directory and the banner, then one block per job in the order of
    the list, then the summary that counts [rs], then the listing; and
    the block of a job is the test for its source followed by the warning
    when the result is [SourceMissing], by the ten events of a complete
    conversion when it is [Succeeded], and by the beginning of a
    conversion and the line that is the reason when it is
    [ConversionFailed]. *)
Theorem main_on_blocks dir docs w rs m' :
  dir ∈ dirs w →
  run_jobs dir (fs w) docs = (Val rs, m') →
  ∃ ts,
    Forall2 (λ jr t, job_block jr.1 jr.2 t) (zip docs rs) ts ∧
    trace (main_on dir docs w).2 =
      trace (started dir w) ++ concat ts ++ summary_trace rs
      ++ (docs ≫= listing_trace (main_on dir docs w).2).
Proof.
  intros Hd Hr. rewrite main_on_run, bool_decide_true by done.
  pose proof (started_refines dir docs w) as Href. rewrite Hr in Href.
  destruct (for_each convert_one docs _ _) as [[[s f]|e] w2] eqn:Hl;
    unfold forget_out, prod_map in Href; [|done].
  destruct (batch_blocks _ _ _ _ _ rs m' Hl Hr) as (ts & Hts & Ht).
  exists ts. split; [done|]. cbn [snd fst fmap result_fmap] in *.
  rewrite tally_filter in Href. simplify_eq/=.
  unfold listed, summary_trace. cbn [with_trace trace]. rewrite Ht.
  by rewrite <-!app_assoc.
Qed.

End history_results.

(** ** The converter is started once for each source *)

Section history_contract.
Context `{T : Tools} `{!ToolsContract T}.
Implicit Types (md pdf dir : string) (w : world) (docs : list (string * string)).

(** The first loop starts the converter once for each document whose
    source exists, in the order of the list, when no document has its
    source among the files [P] the loop may write. *)
Lemma batch_commands (P : gset string) docs c w c' w' :
  Forall (λ doc, doc.1 ≠ "-o" ∧ (doc.1 ∉ P) ∧
                 html_file_of doc.1 ∈ P ∧ doc.2 ∈ P) docs →
  for_each convert_one docs c w = (Val c', w') →
  commands (calls w') =
    commands (calls w) ++
    ((λ doc, cmd_html doc.1 (html_file_of doc.1)) <$> present (cwd w) (fs w) docs).
Proof.
  intros Hd. revert c w. induction Hd as [|doc docs (Ho & Hs & Hh & Hp) Hd IH];
    intros c w; [intros [= _ <-]; by rewrite app_nil_r|].
  cbn [for_each]. unfold mbind, M_bind.
  pose proof (convert_one_calls c doc w) as Hc.
  pose proof (preserves_run _ _ w (convert_one_touches P c doc Ho Hh Hp)) as [Hcwd Hfs].
  destruct (convert_one c doc w) as [[c1|e] w1]; [|done]. cbn [snd] in *.
  intros ->%IH. rewrite Hc, commands_app, commands_turn_calls, <-app_assoc.
  f_equal. rewrite present_cons, Hcwd, (present_ext _ (fs w1) (fs w)).
  - unfold file_at. by destruct (fs w !! (cwd w, doc.1)).
  - intros doc0 Hin. apply Hfs. intros _.
    by eapply Forall_forall in Hd as (_ & ? & _).
Qed.

(** C11. The converter is started once for each document whose source
    exists, in the order of the list, and for no other: with tools that
    keep their contract and documents none of which has its source among
    the files the batch writes, the command lines of the child processes
    that a [main_on] that returns has started are, in order, those of the
    documents whose source was there before the batch began. *)
Theorem main_on_commands dir docs w w' :
  Forall (λ doc, doc.1 ≠ "-o" ∧ (doc.1 ∉ artifacts docs)) docs →
  main_on dir docs w = (Val (), w') →
  commands (calls w') =
    commands (calls w) ++
    ((λ doc, cmd_html doc.1 (html_file_of doc.1)) <$> present dir (fs w) docs).
Proof.
  intros Hd. rewrite main_on_run. case_bool_decide; [|done].
  destruct (for_each convert_one docs _ _) as [[[s f]|e] w2] eqn:Hl; [|done].
  intros [= <-].
  rewrite listed_calls, commands_app, commands_listing, app_nil_r, summary_calls.
  apply (batch_commands (artifacts docs)) in Hl.
  - rewrite Hl, started_calls. unfold started. cbn [cwd fs].
    by rewrite commands_app, app_nil_r.
  - apply Forall_forall. intros doc Hin.
    destruct (artifacts_elem docs doc Hin). eapply Forall_forall in Hd as [? ?]; done.
Qed.

End history_contract.

(** ** The theorems at work *)

Lemma main_on_commands_witness :
  commands
    (calls (main_on (T:=Toolsets.ideal) "/docs" two_docs Toolsets.sample).2) =
  commands (calls Toolsets.sample) ++
  ((λ doc, cmd_html doc.1 (html_file_of doc.1)) <$>
   present "/docs" (fs Toolsets.sample) two_docs).
Proof.
  apply (main_on_commands (T:=Toolsets.ideal) "/docs" two_docs Toolsets.sample).
  - repeat constructor; try done; unfold artifacts; rewrite elem_of_list_to_set;
      apply (bool_decide_unpack _); by vm_compute.
  - by vm_compute.
Defined.

Lemma main_on_blocks_witness :
  ∃ ts,
    Forall2 (λ jr t, job_block jr.1 jr.2 t)
      (zip two_docs [Succeeded; SourceMissing]) ts ∧
    trace (main_on (T:=Toolsets.ideal) "/docs" two_docs Toolsets.sample).2 =
      trace (started "/docs" Toolsets.sample) ++ concat ts
      ++ summary_trace [Succeeded; SourceMissing]
      ++ (two_docs ≫= listing_trace
            (main_on (T:=Toolsets.ideal) "/docs" two_docs Toolsets.sample).2).
Proof.
  eapply (main_on_blocks (T:=Toolsets.ideal) "/docs" two_docs Toolsets.sample);
    [by vm_compute|reflexivity].
Defined.

Lemma main_on_cut_witness :
  let docs := [("b.md", "b.pdf"); ("a.md", "a.pdf")] in
  (main_on (T:=Toolsets.no_pandoc) "/docs" docs Toolsets.sample).1
    = Raise (enoent "pandoc") ∧
  ∃ i j rs mi ts t,
    docs !! i = Some j ∧
    run_jobs (T:=Toolsets.no_pandoc) "/docs" (fs Toolsets.sample) (take i docs)
      = (Val rs, mi) ∧
    Forall2 (λ jr t, job_block jr.1 jr.2 t) (zip (take i docs) rs) ts ∧
    cut_block j t ∧
    trace (main_on (T:=Toolsets.no_pandoc) "/docs" docs Toolsets.sample).2 =
      trace (started "/docs" Toolsets.sample) ++ concat ts ++ t.
Proof.
  intros docs.
  eapply (main_on_cut (T:=Toolsets.no_pandoc) "/docs" docs Toolsets.sample);
    [by vm_compute|reflexivity].
Defined.

Lemma main_on_commands_results_witness :
  commands
    (calls (main_on (T:=Toolsets.ideal) "/docs" two_docs Toolsets.sample).2) =
  commands (calls Toolsets.sample) ++
  ((λ doc, cmd_html doc.1 (html_file_of doc.1)) <$>
   attempted two_docs [Succeeded; SourceMissing]).
Proof.
  eapply (main_on_commands_results (T:=Toolsets.ideal) "/docs" two_docs
            Toolsets.sample [Succeeded; SourceMissing]);
    [by vm_compute|reflexivity].
Defined.
