(* ===== verification/Protocol.v ===== *)
(** * Protocol: the order of the calls of a batch

    The script of [src/convert_to_pdf.py] is sequential: [main]
    (lines 61-104) changes directory, then handles the documents one after
    the other in the order of the list (lines 80-91), each with the calls
    of [markdown_to_pdf] (lines 32-49) in their order, and then lists the
    PDF files (lines 99-104).  This file states that order twice and
    proves that the two agree and that every run follows it:

    - [turns], [listings] and [batch_calls]: the histories of calls of a
      batch that returns, as the change of directory, one sequence per
      document for the first loop and one per document for the second;
    - [legal]: the beginnings of such histories, for the runs that an
      exception ends;
    - [phase], [next] and [monitor]: an automaton that reads a history
      call by call and rejects it at the first call that is out of order,
      [accepts] and [complete] its verdicts;
    - [call_budget]: the number of calls a batch can make.

    The theorems say that the monitor accepts the histories of [legal]
    and no others, that the calls of every run of [main_on] are accepted,
    for every toolset and from every world, that a batch of [n] documents
    makes at most [1 + 7 * n] calls, and that the renderer is only ever
    asked for a file that the converter has just been started for. *)

From S2P Require Import Prelude PyStr Exec Tools Convert Lines Batch Spec History.

(** ** The order, as sequences *)

(** The calls one turn of the first loop can make for a document: the
    test for the source, then the calls of the conversion up to the one
    at which it stops. *)
Definition turns (doc : string * string) : list (list Call.t) :=
  (λ n, Call.Exists doc.1 :: take n (conversion_calls doc.1 doc.2)) <$> seq 0 5.

(** The calls the listing can make for a document: the test for the PDF,
    and the question for its size when it is there. *)
Definition listings (doc : string * string) : list (list Call.t) :=
  [ [Call.Exists doc.2]; [Call.Exists doc.2; Call.Stat doc.2] ].

(** The histories of a batch that returns: the change of directory, the
    turns of the first loop in the order of the list, then those of the
    listing. *)
Definition batch_calls (dir : string) (docs : list (string * string))
    (cs : list Call.t) : Prop :=
  ∃ ts ls,
    Forall2 (λ doc t, t ∈ turns doc) docs ts ∧
    Forall2 (λ doc l, l ∈ listings doc) docs ls ∧
    cs = Call.Chdir dir :: concat ts ++ concat ls.

(** The histories of a batch, ended or not: the beginnings of those of
    [batch_calls]. *)
Definition legal (dir : string) (docs : list (string * string))
    (cs : list Call.t) : Prop :=
  ∃ rest, batch_calls dir docs (cs ++ rest).

(** ** The order, as an automaton *)

(** Where a batch is: before the change of directory; in the first loop,
    with the calls the current conversion may still make and the
    documents still to convert; in the listing, with the PDF whose size
    may be asked for and the documents still to list. *)
Inductive phase : Type :=
  | Entering
  | Converting (pending : list Call.t) (todo : list (string * string))
  | Listing (found : option string) (todo : list (string * string)).

#[global] Instance phase_eq_dec : EqDecision phase.
Proof. solve_decision. Defined.

(** The listing moves to its next document with the test for its PDF. *)
Definition next_listing (todo : list (string * string)) (c : Call.t)
    : option phase :=
  match todo with
  | doc :: todo' =>
      if decide (c = Call.Exists doc.2) then Some (Listing (Some doc.2) todo')
      else None
  | [] => None
  end.

(** The first loop moves to its next document with the test for its
    source; when no document is left the listing of [docs] begins. *)
Definition next_turn (docs todo : list (string * string)) (c : Call.t)
    : option phase :=
  match todo with
  | doc :: todo' =>
      if decide (c = Call.Exists doc.1)
      then Some (Converting (conversion_calls doc.1 doc.2) todo')
      else None
  | [] => next_listing docs c
  end.

(** One call: the phase it leads to, or [None] when it is out of order.
    A conversion makes its next call or stops, and the size of a PDF is
    asked for right after the test that found it or not at all. *)
Definition next (dir : string) (docs : list (string * string))
    (s : phase) (c : Call.t) : option phase :=
  match s with
  | Entering =>
      if decide (c = Call.Chdir dir) then Some (Converting [] docs) else None
  | Converting (p :: ps) todo =>
      if decide (c = p) then Some (Converting ps todo)
      else next_turn docs todo c
  | Converting [] todo => next_turn docs todo c
  | Listing (Some pdf) todo =>
      if decide (c = Call.Stat pdf) then Some (Listing None todo)
      else next_listing todo c
  | Listing None todo => next_listing todo c
  end.

(** The monitor: a history read from phase [s], the oldest call first. *)
Fixpoint monitor (dir : string) (docs : list (string * string))
    (s : phase) (cs : list Call.t) : option phase :=
  match cs with
  | [] => Some s
  | c :: cs' => next dir docs s c ≫= λ s', monitor dir docs s' cs'
  end.

(** The phases in which a batch may return: both loops are over. *)
Definition finished (docs : list (string * string)) (s : phase) : Prop :=
  match s with
  | Entering => False
  | Converting _ todo => todo = [] ∧ docs = []
  | Listing _ todo => todo = []
  end.

#[global] Instance finished_dec docs s : Decision (finished docs s).
Proof. destruct s; apply _. Defined.

(** A history is accepted when no call of it is out of order, and
    complete when moreover it ends where a batch may return. *)
Definition accepts (dir : string) (docs : list (string * string))
    (cs : list Call.t) : Prop :=
  is_Some (monitor dir docs Entering cs).

Definition complete (dir : string) (docs : list (string * string))
    (cs : list Call.t) : Prop :=
  ∃ s, monitor dir docs Entering cs = Some s ∧ finished docs s.

#[global] Instance accepts_dec dir docs cs : Decision (accepts dir docs cs).
Proof. apply _. Defined.

#[global] Instance complete_dec dir docs cs : Decision (complete dir docs cs).
Proof.
  unfold complete. destruct (monitor dir docs Entering cs) as [s|].
  - destruct (decide (finished docs s)) as [H|H]; [left; by exists s|right].
    by intros (? & [= <-] & ?).
  - right. by intros (? & [=] & _).
Defined.

(** A sequence of calls none of which is a test for a file, as the calls
    of a conversion are: the monitor can tell the end of a conversion
    from its next call. *)
Definition quiet (ps : list Call.t) : Prop := ∀ p, Call.Exists p ∉ ps.

(** The phases the monitor goes through. *)
Definition phase_ok (s : phase) : Prop :=
  match s with
  | Converting ps _ => quiet ps
  | _ => True
  end.

(** The phases from which the listing of [todo] goes on: the end of the
    first loop, when [todo] is the whole list, and the listing itself. *)
Definition at_listing (docs : list (string * string)) (s : phase)
    (todo : list (string * string)) : Prop :=
  match s with
  | Entering => False
  | Converting ps todo' => quiet ps ∧ todo' = [] ∧ todo = docs
  | Listing _ todo' => todo' = todo
  end.

(** The histories that lead from a phase to the end of a batch: what is
    left of the conversion that is going on, the turns of the documents
    still to convert and the listing; or, in the listing, the question
    for the size of the PDF just found and the documents still to
    list. *)
Definition remaining (dir : string) (docs : list (string * string))
    (s : phase) (cs : list Call.t) : Prop :=
  match s with
  | Entering => batch_calls dir docs cs
  | Converting ps todo =>
      ∃ n ts ls,
        Forall2 (λ doc t, t ∈ turns doc) todo ts ∧
        Forall2 (λ doc l, l ∈ listings doc) docs ls ∧
        cs = take n ps ++ concat ts ++ concat ls
  | Listing found todo =>
      ∃ st ls,
        Forall2 (λ doc l, l ∈ listings doc) todo ls ∧
        cs = st ++ concat ls ∧
        (st = [] ∨ ∃ pdf, found = Some pdf ∧ st = [Call.Stat pdf])
  end.

(** The calls of a conversion, as opposed to those of the two loops of
    [main]. *)
Definition of_conversion (c : Call.t) : bool :=
  match c with
  | Call.Run _ | Call.Import _ | Call.WritePdf _ _ | Call.Remove _ => true
  | Call.Chdir _ | Call.Exists _ | Call.Stat _ => false
  end.

(** The number of calls a batch of [docs] can make: the change of
    directory and, for each document, five calls in the first loop and
    two in the listing. *)
Definition call_budget (docs : list (string * string)) : nat :=
  1 + 7 * length docs.

(** ** The monitor accepts the sequences *)

Section monitor.
Context (dir : string) (docs : list (string * string)).
Implicit Types (s : phase) (cs : list Call.t) (ps : list Call.t).
Implicit Types (doc : string * string) (todo : list (string * string)).

Lemma quiet_conversion md pdf n : quiet (drop n (conversion_calls md pdf)).
Proof.
  intros p Hin%(subseteq_drop n). unfold conversion_calls, step2_calls in Hin.
  repeat (apply elem_of_cons in Hin as [?|Hin]; [done|]).
  by apply not_elem_of_nil in Hin.
Qed.

Lemma monitor_app s cs1 cs2 :
  monitor dir docs s (cs1 ++ cs2) =
    monitor dir docs s cs1 ≫= λ s', monitor dir docs s' cs2.
Proof.
  revert s. induction cs1 as [|c cs1 IH]; intros s; [done|].
  cbn. destruct (next dir docs s c); cbn; [apply IH|done].
Qed.

(** A test for a file ends the conversion that is going on. *)
Lemma next_quiet ps todo p :
  quiet ps →
  next dir docs (Converting ps todo) (Call.Exists p) =
    next_turn docs todo (Call.Exists p).
Proof.
  intros Hq. destruct ps as [|c ps]; [done|]. cbn.
  case_decide as Hc; [|done]. destruct (Hq p). rewrite Hc. left.
Qed.

(** The calls of a conversion are accepted one after the other. *)
Lemma monitor_pending ps todo n :
  monitor dir docs (Converting ps todo) (take n ps) =
    Some (Converting (drop n ps) todo).
Proof.
  revert n. induction ps as [|p ps IH]; intros [|n]; try done.
  cbn. rewrite decide_True by done. apply IH.
Qed.

(** The turns of a document are the test for its source followed by a
    beginning of its conversion. *)
Lemma turns_spec doc t :
  t ∈ turns doc ↔
  ∃ n, t = Call.Exists doc.1 :: take n (conversion_calls doc.1 doc.2).
Proof.
  unfold turns. rewrite list_elem_of_fmap. split; [intros (n & -> & _); by exists n|].
  intros (n & ->). exists (n `min` 4). split; [|apply elem_of_seq; lia].
  destruct (decide (n ≤ 4)); [by rewrite Nat.min_l|].
  rewrite Nat.min_r by lia. by rewrite !take_ge by (cbn; lia).
Qed.

Lemma monitor_turn ps doc todo t :
  quiet ps → t ∈ turns doc →
  ∃ ps', monitor dir docs (Converting ps (doc :: todo)) t =
           Some (Converting ps' todo) ∧ quiet ps'.
Proof.
  intros Hq (n & ->)%turns_spec. eexists. cbn [monitor].
  rewrite next_quiet by done. cbn. rewrite decide_True by done. cbn.
  split; [apply monitor_pending|apply quiet_conversion].
Qed.

Lemma monitor_turns ps todo more ts :
  quiet ps → Forall2 (λ doc t, t ∈ turns doc) todo ts →
  ∃ ps', monitor dir docs (Converting ps (todo ++ more)) (concat ts) =
           Some (Converting ps' more) ∧ quiet ps'.
Proof.
  intros Hq Hts. revert ps Hq.
  induction Hts as [|doc t todo ts Ht _ IH]; intros ps Hq; [by exists ps|].
  destruct (monitor_turn ps doc (todo ++ more) t Hq Ht) as (ps1 & H1 & Hq1).
  destruct (IH ps1 Hq1) as (ps2 & H2 & Hq2). exists ps2.
  cbn [concat]. by rewrite monitor_app, <-app_comm_cons, H1.
Qed.

(** The test for a PDF is accepted wherever its listing may begin. *)
Lemma next_at_listing s doc todo :
  at_listing docs s (doc :: todo) →
  next dir docs s (Call.Exists doc.2) = Some (Listing (Some doc.2) todo).
Proof.
  destruct s as [|ps todo'|[pdf|] todo']; cbn [at_listing]; [done|..].
  - intros (Hq & -> & Hd). rewrite next_quiet by done. cbn. rewrite <-Hd. cbn.
    by rewrite decide_True.
  - intros ->. cbn. by rewrite decide_False, decide_True.
  - intros ->. cbn. by rewrite decide_True.
Qed.

Lemma monitor_listing s doc todo l :
  at_listing docs s (doc :: todo) → l ∈ listings doc →
  ∃ o, monitor dir docs s l = Some (Listing o todo).
Proof.
  intros Hn%next_at_listing Hl. unfold listings in Hl.
  apply elem_of_cons in Hl as [->|Hl%list_elem_of_singleton]; [|subst l];
    cbn [monitor]; rewrite Hn; cbn; [by eexists|].
  rewrite decide_True by done. by eexists.
Qed.

Lemma monitor_listings s todo ls :
  at_listing docs s todo → Forall2 (λ doc l, l ∈ listings doc) todo ls →
  ∃ s', monitor dir docs s (concat ls) = Some s' ∧ at_listing docs s' [].
Proof.
  intros Hs Hls. revert s Hs.
  induction Hls as [|doc l todo ls Hl _ IH]; intros s Hs; [by exists s|].
  destruct (monitor_listing s doc todo l Hs Hl) as (o & H1).
  destruct (IH (Listing o todo) eq_refl) as (s' & H2 & Hs'). exists s'.
  cbn [concat]. by rewrite monitor_app, H1.
Qed.

Lemma at_listing_finished s : at_listing docs s [] → finished docs s.
Proof. destruct s; cbn; [done| |done]. by intros (_ & -> & Hd). Qed.

(** The monitor accepts the histories of a batch that returns. *)
Lemma batch_calls_complete cs : batch_calls dir docs cs → complete dir docs cs.
Proof.
  intros (ts & ls & Hts & Hls & ->). unfold complete. cbn [monitor next].
  rewrite decide_True by done. cbn. rewrite monitor_app.
  destruct (monitor_turns [] docs [] ts) as (ps & Hm & Hq);
    [by intros ? ?%not_elem_of_nil|done|].
  rewrite app_nil_r in Hm. rewrite Hm. cbn.
  destruct (monitor_listings (Converting ps []) docs ls) as (s & Hs & Hf);
    [done..|].
  exists s. split; [done|by apply at_listing_finished].
Qed.

(** ** The monitor accepts nothing else *)

Lemma next_listing_remaining todo c s' cs :
  next_listing todo c = Some s' → remaining dir docs s' cs →
  ∃ ls, Forall2 (λ doc l, l ∈ listings doc) todo ls ∧ c :: cs = concat ls.
Proof.
  destruct todo as [|doc todo]; [done|]. cbn. case_decide as Hc; [|done].
  intros [= <-] (st & ls & Hls & -> & Hst). exists ((c :: st) :: ls).
  split; [|done]. constructor; [|done]. unfold listings. rewrite Hc.
  destruct Hst as [->|(pdf & [= <-] & ->)]; [left|right; left].
Qed.

Lemma next_turn_remaining ps todo c s' cs :
  next_turn docs todo c = Some s' → remaining dir docs s' cs →
  remaining dir docs (Converting ps todo) (c :: cs).
Proof.
  destruct todo as [|doc todo]; cbn [next_turn].
  - intros Hn Hr. destruct (next_listing_remaining _ _ _ _ Hn Hr) as (ls & Hls & ->).
    exists 0, [], ls. by split_and!.
  - case_decide as Hc; [|done]. intros [= <-] (n & ts & ls & Hts & Hls & ->).
    exists 0, ((c :: take n (conversion_calls doc.1 doc.2)) :: ts), ls.
    split_and!; [|done|by rewrite app_assoc].
    constructor; [|done]. rewrite Hc. apply turns_spec. by exists n.
Qed.

(** One call back: what is left before a call is the call and what is
    left after it. *)
Lemma next_remaining s c s' cs :
  next dir docs s c = Some s' → remaining dir docs s' cs →
  remaining dir docs s (c :: cs).
Proof.
  destruct s as [|[|p ps] todo|[pdf|] todo]; cbn [next].
  - case_decide as Hc; [|done]. intros [= <-] (n & ts & ls & Hts & Hls & ->).
    exists ts, ls. by rewrite Hc, take_nil.
  - apply next_turn_remaining.
  - case_decide as Hc; [|apply next_turn_remaining].
    intros [= <-] (n & ts & ls & Hts & Hls & ->). exists (S n), ts, ls.
    by rewrite Hc.
  - case_decide as Hc.
    + intros [= <-] (st & ls & Hls & -> & [->|(? & [=] & _)]).
      exists [c], ls. split_and!; [done..|]. right. exists pdf. by rewrite Hc.
    + intros Hn Hr. destruct (next_listing_remaining _ _ _ _ Hn Hr) as (ls & Hls & ->).
      exists [], ls. split_and!; [done..|by left].
  - intros Hn Hr. destruct (next_listing_remaining _ _ _ _ Hn Hr) as (ls & Hls & ->).
    exists [], ls. split_and!; [done..|by left].
Qed.

Lemma finished_remaining s : finished docs s → remaining dir docs s [].
Proof.
  destruct s as [|ps todo|o todo]; cbn; [done|..].
  - intros [-> Hd]. exists 0, [], []. rewrite Hd. by split_and!.
  - intros ->. exists [], []. split_and!; [done..|by left].
Qed.

Lemma monitor_remaining s cs s' :
  monitor dir docs s cs = Some s' → finished docs s' →
  remaining dir docs s cs.
Proof.
  revert s. induction cs as [|c cs IH]; intros s; cbn [monitor].
  - intros [= <-]. apply finished_remaining.
  - destruct (next dir docs s c) as [s1|] eqn:Hn; [|done]. cbn.
    intros Hm Hf. eapply next_remaining; eauto.
Qed.

(** ** Every phase the monitor reaches leads to the end *)

Lemma next_phase_ok s c s' :
  next dir docs s c = Some s' → phase_ok s → phase_ok s'.
Proof.
  assert (∀ todo, next_turn docs todo c = Some s' → phase_ok s') as Ht.
  { intros [|doc todo]; cbn.
    - destruct docs; [done|]. cbn. case_decide; [|done]. by intros [= <-].
    - case_decide; [|done]. intros [= <-]. apply (quiet_conversion _ _ 0). }
  destruct s as [|[|p ps] todo|[pdf|] todo]; cbn [next]; [| |
    | |destruct todo; [done|]; cbn; case_decide; [|done]; by intros [= <-]].
  - case_decide; [|done]. intros [= <-] _ p. apply not_elem_of_nil.
  - intros ?%Ht. done.
  - case_decide; [|intros ?%Ht; done]. intros [= <-] Hq q Hin. apply (Hq q). by right.
  - case_decide; [by intros [= <-]|].
    destruct todo; [done|]; cbn; case_decide; [|done]; by intros [= <-].
Qed.

Lemma monitor_phase_ok s cs s' :
  monitor dir docs s cs = Some s' → phase_ok s → phase_ok s'.
Proof.
  revert s. induction cs as [|c cs IH]; intros s; cbn [monitor]; [by intros [= <-]|].
  destruct (next dir docs s c) as [s1|] eqn:Hn; [|done]. cbn.
  eauto using next_phase_ok.
Qed.

(** A source that is missing and a PDF that is not there are the
    shortest turn and the shortest listing. *)
Lemma turns_missing todo :
  Forall2 (λ doc t, t ∈ turns doc) todo ((λ doc, [Call.Exists doc.1]) <$> todo).
Proof. induction todo; constructor; [left|done]. Qed.

Lemma listings_absent todo :
  Forall2 (λ doc l, l ∈ listings doc) todo ((λ doc, [Call.Exists doc.2]) <$> todo).
Proof. induction todo; constructor; [left|done]. Qed.

Lemma phase_finish s :
  phase_ok s → ∃ rest s', monitor dir docs s rest = Some s' ∧ finished docs s'.
Proof.
  destruct s as [|ps todo|o todo]; intros Hs.
  - destruct (batch_calls_complete (Call.Chdir dir ::
      concat ((λ doc, [Call.Exists doc.1]) <$> docs) ++
      concat ((λ doc, [Call.Exists doc.2]) <$> docs))) as (s' & Hm & Hf); [|by eauto].
    eexists _, _. eauto using turns_missing, listings_absent.
  - destruct (monitor_turns ps todo [] _ Hs (turns_missing todo)) as (ps' & Hm & Hq).
    edestruct (monitor_listings (Converting ps' []) docs) as (s' & Hm' & Hf);
      [done|apply listings_absent|].
    eexists (_ ++ _), s'. rewrite app_nil_r in Hm.
    rewrite monitor_app, Hm. eauto using at_listing_finished.
  - edestruct (monitor_listings (Listing o todo) todo) as (s' & Hm' & Hf);
      [done|apply listings_absent|].
    eauto using at_listing_finished.
Qed.

Lemma complete_batch_calls cs : complete dir docs cs → batch_calls dir docs cs.
Proof. intros (s & Hm & Hf). by apply (monitor_remaining _ _ _ Hm Hf). Qed.

Lemma accepts_legal cs : accepts dir docs cs → legal dir docs cs.
Proof.
  intros [s Hm]. destruct (phase_finish s) as (rest & s' & Hr & Hf).
  { by apply (monitor_phase_ok _ _ _ Hm). }
  exists rest. apply complete_batch_calls. exists s'.
  by rewrite monitor_app, Hm.
Qed.

Lemma legal_accepts cs : legal dir docs cs → accepts dir docs cs.
Proof.
  intros (rest & (s & Hm & _)%batch_calls_complete).
  rewrite monitor_app in Hm. unfold accepts.
  by destruct (monitor dir docs Entering cs).
Qed.

End monitor.

(** ** What the sequences say *)

Section sequences.
Context (dir : string) (docs : list (string * string)).
Implicit Types (cs pre post : list Call.t) (doc : string * string).

Lemma turns_length todo ts :
  Forall2 (λ doc t, t ∈ turns doc) todo ts → length (concat ts) ≤ 5 * length todo.
Proof.
  induction 1 as [|doc t todo ts (n & ->)%turns_spec _ IH]; [done|].
  cbn [concat]. rewrite length_app. cbn [length]. rewrite length_take. cbn. lia.
Qed.

Lemma listings_length todo ls :
  Forall2 (λ doc l, l ∈ listings doc) todo ls → length (concat ls) ≤ 2 * length todo.
Proof.
  induction 1 as [|doc l todo ls Hl _ IH]; [done|].
  cbn [concat]. rewrite length_app. unfold listings in Hl.
  apply elem_of_cons in Hl as [->|Hl%list_elem_of_singleton]; subst; cbn; lia.
Qed.

(** A history of a batch is no longer than the budget. *)
Lemma legal_length cs : legal dir docs cs → length cs ≤ call_budget docs.
Proof.
  intros (rest & ts & ls & Hts%turns_length & Hls%listings_length & Heq).
  apply (f_equal length) in Heq. cbn in Heq. rewrite !length_app in Heq.
  unfold call_budget. lia.
Qed.

(** The turns of the first documents of the list begin a history of the
    batch. *)
Lemma turns_legal ts :
  Forall2 (λ doc t, t ∈ turns doc) (take (length ts) docs) ts →
  legal dir docs (Call.Chdir dir :: concat ts).
Proof.
  intros Hts.
  exists (concat ((λ doc, [Call.Exists doc.1]) <$> drop (length ts) docs)
          ++ concat ((λ doc, [Call.Exists doc.2]) <$> docs)).
  eexists (ts ++ _), _. split_and!; [|apply listings_absent|].
  - rewrite <-(take_drop (length ts) docs) at 1.
    apply Forall2_app; [done|apply turns_missing].
  - by rewrite concat_app, <-app_comm_cons, <-app_assoc.
Qed.

(** A call in the middle of a sequence of blocks is in the middle of one
    of the blocks. *)
Lemma concat_middle (bs : list (list Call.t)) pre c post :
  concat bs = pre ++ c :: post →
  ∃ bs1 a b bs2,
    bs = bs1 ++ (a ++ c :: b) :: bs2 ∧ pre = concat bs1 ++ a ∧
    post = b ++ concat bs2.
Proof.
  revert pre. induction bs as [|blk bs IH]; intros pre; cbn [concat]; [by destruct pre|].
  intros [(k & -> & Hk)|(k & -> & Hk)]%app_eq_inv.
  - destruct k as [|c' k].
    + destruct (IH [] (eq_sym Hk)) as (bs1 & a & b & bs2 & -> & Hpre & ->).
      exists ((pre ++ []) :: bs1), a, b, bs2. cbn [concat app].
      by rewrite <-!app_assoc, <-Hpre, !app_nil_r.
    + injection Hk as <- ->. by exists [], pre, k, bs.
  - destruct (IH k Hk) as (bs1 & a & b & bs2 & -> & -> & ->).
    exists (blk :: bs1), a, b, bs2. cbn [concat app]. by rewrite <-app_assoc.
Qed.

(** A call of a conversion inside a turn comes after the test for the
    source and the calls of the conversion before it. *)
Lemma turns_middle doc a c b :
  a ++ c :: b ∈ turns doc → of_conversion c = true →
  ∃ k, conversion_calls doc.1 doc.2 !! k = Some c ∧
       a = Call.Exists doc.1 :: take k (conversion_calls doc.1 doc.2).
Proof.
  intros (n & Heq)%turns_spec Hc. destruct a as [|c0 a]; [by simplify_eq/=|].
  injection Heq as -> Heq. exists (length a).
  rewrite <-(take_drop n (conversion_calls doc.1 doc.2)), <-Heq, <-app_assoc.
  cbn [app]. by rewrite list_lookup_middle, take_app_length.
Qed.

Lemma listings_loop doc l c : l ∈ listings doc → c ∈ l → of_conversion c = false.
Proof.
  unfold listings.
  intros [->|Hl%list_elem_of_singleton]%elem_of_cons Hc; subst;
    repeat (apply elem_of_cons in Hc as [->|Hc]; [done|]);
    by apply not_elem_of_nil in Hc.
Qed.

(** In a history of a batch, a call of a conversion comes right after
    the test for the source of a document of the list and the calls of
    its conversion that go before. *)
Lemma legal_middle pre c post :
  legal dir docs (pre ++ c :: post) → of_conversion c = true →
  ∃ pre' doc k,
    doc ∈ docs ∧ conversion_calls doc.1 doc.2 !! k = Some c ∧
    pre = pre' ++ Call.Exists doc.1 :: take k (conversion_calls doc.1 doc.2).
Proof.
  intros (rest & ts & ls & Hts & Hls & Heq) Hc.
  destruct pre as [|c0 pre]; [by simplify_eq/=|].
  rewrite <-app_assoc, <-!app_comm_cons, <-concat_app in Heq.
  injection Heq as -> Heq.
  destruct (concat_middle _ _ _ _ (eq_sym Heq)) as (bs1 & a & b & bs2 & Hbs & -> & _).
  assert (a ++ c :: b ∈ ts ++ ls) as [Hin|Hin]%elem_of_app
    by (rewrite Hbs; apply elem_of_app; right; left).
  - apply list_elem_of_lookup in Hin as (i & Hi).
    destruct (Forall2_lookup_r _ _ _ _ _ Hts Hi) as (doc & Hd & Ht).
    destruct (turns_middle doc a c b Ht Hc) as (k & Hk & ->).
    exists (Call.Chdir dir :: concat bs1), doc, k.
    split_and!; [by eapply list_elem_of_lookup_2|done..].
  - apply list_elem_of_lookup in Hin as (i & Hi).
    destruct (Forall2_lookup_r _ _ _ _ _ Hls Hi) as (doc & Hd & Hl).
    rewrite (listings_loop doc _ c Hl) in Hc; [done|].
    apply elem_of_app. right. left.
Qed.

(** In a history of a batch, the size of a PDF is asked for right after
    the test for that PDF, for a document of the list. *)
Lemma legal_stat pre pdf post :
  legal dir docs (pre ++ Call.Stat pdf :: post) →
  ∃ pre' doc, doc ∈ docs ∧ pdf = doc.2 ∧ pre = pre' ++ [Call.Exists pdf].
Proof.
  intros (rest & ts & ls & Hts & Hls & Heq).
  destruct pre as [|c0 pre]; [by simplify_eq/=|].
  rewrite <-app_assoc, <-!app_comm_cons, <-concat_app in Heq.
  injection Heq as -> Heq.
  destruct (concat_middle _ _ _ _ (eq_sym Heq)) as (bs1 & a & b & bs2 & Hbs & -> & _).
  assert (a ++ Call.Stat pdf :: b ∈ ts ++ ls) as [Hin|Hin]%elem_of_app
    by (rewrite Hbs; apply elem_of_app; right; left).
  - apply list_elem_of_lookup in Hin as (i & Hi).
    destruct (Forall2_lookup_r _ _ _ _ _ Hts Hi) as (doc & _ & (n & Ht)%turns_spec).
    destruct a as [|c1 a]; [done|]. injection Ht as -> Ht.
    assert (Call.Stat pdf ∈ conversion_calls doc.1 doc.2) as Hs.
    { apply (subseteq_take n). rewrite <-Ht. apply elem_of_app. right. left. }
    unfold conversion_calls, step2_calls in Hs.
    repeat (apply elem_of_cons in Hs as [?|Hs]; [done|]).
    by apply not_elem_of_nil in Hs.
  - apply list_elem_of_lookup in Hin as (i & Hi).
    destruct (Forall2_lookup_r _ _ _ _ _ Hls Hi) as (doc & Hd & Hl).
    unfold listings in Hl.
    apply elem_of_cons in Hl as [Hl|Hl%list_elem_of_singleton];
      destruct a as [|c1 [|c2 a]]; simplify_eq/=; try by destruct a.
    exists (Call.Chdir dir :: concat bs1), doc.
    split_and!; [by eapply list_elem_of_lookup_2|done..].
Qed.

End sequences.

(** ** The calls of the script *)

Section conformance.
Context `{T : Tools}.
Implicit Types (w : world) (doc : string * string).

Lemma turn_calls_turn w doc : turn_calls w doc ∈ turns doc.
Proof.
  apply turns_spec. unfold turn_calls.
  destruct (file_at w doc.1); [by eexists|by exists 0].
Qed.

Lemma listing_calls_listings w docs :
  Forall2 (λ doc l, l ∈ listings doc) docs (listing_calls w <$> docs) ∧
  docs ≫= listing_calls w = concat (listing_calls w <$> docs).
Proof.
  induction docs as [|doc docs [IH1 IH2]]; [by split|]. split.
  - constructor; [|done]. unfold listing_calls, listings.
    destruct (file_at w doc.2); [right|]; left.
  - cbn. by rewrite <-IH2.
Qed.

(** The first loop makes one turn per document, in the order of the
    list, up to the end of the list or to the turn that raises. *)
Lemma batch_turns docs c w :
  ∃ ts,
    calls (for_each convert_one docs c w).2 = calls w ++ concat ts ∧
    Forall2 (λ doc t, t ∈ turns doc) (take (length ts) docs) ts ∧
    (∀ c', (for_each convert_one docs c w).1 = Val c' → length ts = length docs).
Proof.
  revert c w. induction docs as [|doc docs IH]; intros c w.
  { exists []. cbn. by rewrite app_nil_r. }
  cbn [for_each]. unfold mbind, M_bind.
  pose proof (convert_one_calls c doc w) as Hc.
  pose proof (turn_calls_turn w doc) as Ht.
  destruct (convert_one c doc w) as [[c1|e] w1]; cbn [snd] in Hc.
  - destruct (IH c1 w1) as (ts & Hcs & Hts & Hlen).
    exists (turn_calls w doc :: ts). cbn [concat length firstn].
    split_and!; [by rewrite Hcs, Hc, <-app_assoc|by constructor|].
    intros c' Hv. f_equal. eauto.
  - exists [turn_calls w doc]. cbn [concat length firstn snd fst].
    split_and!; [by rewrite app_nil_r|constructor; [done|constructor]|done].
Qed.

(** The calls of a run of [main_on] are a history of the batch, and the
    whole of one when the run returns. *)
Lemma main_on_legal dir docs w :
  ∃ cs,
    calls (main_on dir docs w).2 = calls w ++ cs ∧ legal dir docs cs ∧
    ((main_on dir docs w).1 = Val () → batch_calls dir docs cs).
Proof.
  rewrite main_on_run. case_bool_decide.
  - destruct (batch_turns docs (0, 0) (started dir w)) as (ts & Hcs & Hts & Hlen).
    rewrite started_calls, <-app_assoc in Hcs.
    destruct (for_each convert_one docs _ _) as [[[s f]|e] w2]; cbn [fst snd] in *.
    + rewrite take_ge in Hts by (by rewrite (Hlen _ eq_refl)).
      destruct (listing_calls_listings
        (w2 +> [Event.Out Report.rule; Event.Out (Report.summary s f);
                Event.Out Report.rule; Event.Out Report.generated]) docs) as [Hls Hb].
      eexists. rewrite listed_calls, Hb, summary_calls, Hcs, <-app_assoc.
      split; [done|].
      assert (batch_calls dir docs (Call.Chdir dir :: concat ts ++ concat
        (listing_calls (w2 +> [Event.Out Report.rule; Event.Out (Report.summary s f);
           Event.Out Report.rule; Event.Out Report.generated]) <$> docs))) as Hbc
        by (by eexists _, _).
      split; [|done]. exists []. by rewrite app_nil_r.
    + eexists. split; [done|]. split; [by apply turns_legal|done].
  - exists [Call.Chdir dir]. cbn [fst snd]. unfold called. rewrite calls_add.
    split; [done|]. split; [|done]. by apply (turns_legal dir docs []).
Qed.

(** C14. The calls of every run are in order.  Whatever the tools do and
    whatever the world is, the calls a run of [main_on] adds to the
    history are accepted by the monitor: the change of directory first,
    then for each document in the order of the list the test for its
    source and a beginning of the calls of its conversion, then for each
    document the test for its PDF and at most the question for its size.
    When the run returns the history is complete: both loops have gone
    through the whole list. *)
Theorem main_on_conforms dir docs w :
  ∃ cs,
    calls (main_on dir docs w).2 = calls w ++ cs ∧
    accepts dir docs cs ∧
    ((main_on dir docs w).1 = Val () → complete dir docs cs).
Proof.
  destruct (main_on_legal dir docs w) as (cs & Hcs & Hl & Hb). exists cs.
  split_and!; [done|by apply legal_accepts|].
  intros Hv. by apply batch_calls_complete, Hb.
Qed.

(** C24. A batch makes a bounded number of calls.  A run of [main_on]
    over [n] documents adds at most [1 + 7 * n] calls to the history,
    whatever the tools do: no call is retried and no document is handled
    twice. *)
Theorem main_on_calls_bound dir docs w :
  length (calls (main_on dir docs w).2) ≤ length (calls w) + call_budget docs.
Proof.
  destruct (main_on_legal dir docs w) as (cs & -> & Hl%legal_length & _).
  rewrite length_app. lia.
Qed.

(** C16. The calls of a conversion are made in order and only for a
    document of the list.  In the history of any run of [main_on], a
    call to the converter, to the renderer or to [os.remove] is one of
    the calls of the conversion of a document of the list, and what goes
    right before it is the test for the source of that document followed
    by the earlier calls of the same conversion: the renderer is imported
    only after the converter has been started, an HTML file is rendered
    only after the import, and it is removed only after it has been
    rendered. *)
Theorem main_on_conversion_order dir docs w pre c post :
  calls (main_on dir docs w).2 = calls w ++ pre ++ c :: post →
  of_conversion c = true →
  ∃ pre' doc k,
    doc ∈ docs ∧ conversion_calls doc.1 doc.2 !! k = Some c ∧
    pre = pre' ++ Call.Exists doc.1 :: take k (conversion_calls doc.1 doc.2).
Proof.
  destruct (main_on_legal dir docs w) as (cs & -> & Hl & _).
  intros ->%app_inv_head. by apply (legal_middle dir docs pre c post).
Qed.

End conformance.

(** The two statements of the order agree.  The histories the monitor
    accepts are the beginnings of the histories of a batch, and those it
    finds complete are the histories of a batch that returns: the change
    of directory, one turn per document in the order of the list, each
    the test for the source and a beginning of the calls of the
    conversion, then one listing per document in the same order.  This
    relates two specifications and says nothing of the script;
    [main_on_conforms] is where the script comes in. *)
Theorem monitor_decides dir docs cs :
  (accepts dir docs cs ↔ legal dir docs cs) ∧
  (complete dir docs cs ↔ batch_calls dir docs cs).
Proof.
  split; split;
    auto using accepts_legal, legal_accepts, complete_batch_calls,
      batch_calls_complete.
Qed.

(** ** The theorems at work *)

(** With tools that work and a source that exists the budget is spent to
    the last call. *)
Example call_budget_reached :
  length (calls (main_on (T:=Toolsets.ideal) "/docs" [("a.md", "a.pdf")]
                   Toolsets.sample).2) =
  length (calls Toolsets.sample) + call_budget [("a.md", "a.pdf")].
Proof. reflexivity. Qed.

(** The monitor run on the history of a batch: it ends where a batch
    may return. *)
Example monitor_sample :
  monitor "/docs" two_docs Entering
    (calls (main_on (T:=Toolsets.ideal) "/docs" two_docs Toolsets.sample).2) =
  Some (Listing (Some "b.pdf") []).
Proof. reflexivity. Qed.

(** The monitor rejects a rendering that no converter goes before, a
    document handled out of turn and a listing that begins before the
    first loop has ended. *)
Example monitor_rejects :
  ¬ accepts "/docs" two_docs
      [Call.Chdir "/docs"; Call.Exists "a.md"; Call.WritePdf "a.html" "a.pdf"] ∧
  ¬ accepts "/docs" two_docs [Call.Chdir "/docs"; Call.Exists "b.md"] ∧
  ¬ accepts "/docs" two_docs
      [Call.Chdir "/docs"; Call.Exists "a.md"; Call.Exists "a.pdf"].
Proof. split_and!; by apply (bool_decide_unpack _). Qed.

Lemma main_on_conversion_order_witness :
  ∃ pre' doc k,
    doc ∈ two_docs ∧
    conversion_calls doc.1 doc.2 !! k = Some (Call.WritePdf "a.html" "a.pdf") ∧
    [Call.Chdir "/docs"; Call.Exists "a.md";
     Call.Run (cmd_html "a.md" "a.html"); Call.Import "weasyprint"] =
      pre' ++ Call.Exists doc.1 :: take k (conversion_calls doc.1 doc.2).
Proof.
  eapply (main_on_conversion_order (T:=Toolsets.ideal) "/docs" two_docs
            Toolsets.sample _ _
            [Call.Remove "a.html"; Call.Exists "b.md"; Call.Exists "a.pdf";
             Call.Stat "a.pdf"; Call.Exists "b.pdf"]); reflexivity.
Defined.
