(* ===== verification/Rerun.v ===== *)
(** * Rerun: the batch with the toolset [ideal], and the batch run again

    With the tools of [Toolsets.ideal], a converter and a renderer that
    succeed on every file they are given and whose output is a fixed
    function of the text they read, the files a run of [main_on] of
    [src/convert_to_pdf.py] (lines 61-104) leaves are a function of the
    files it finds:

    - [html_of] and [pdf_of]: what the two tools make of a source;
    - [build_one]: what one turn of the first loop (lines 80-91) does to
      the files, and [build] what the loop does;
    - [settled]: a document whose PDF is that of its source and whose
      intermediate file is gone;
    - [apart]: names such that no document writes what another document
      reads or has written.

    The theorems say that [main_on] with these tools returns and leaves
    the files of [build], and that a second run over names that are
    [apart] changes no file: every document is settled after the first.
    They are theorems about the script with this one toolset; a real
    converter reads more than its source (the style sheet of line 24),
    and nothing is claimed for it. *)

From S2P Require Import Prelude PyStr Exec Tools Convert Lines Batch Spec.

(** What the converter of [Toolsets.ideal] writes for a source, and what
    its renderer then writes. *)
Definition html_of (text : string) : string := "<html>" +:+ text +:+ "</html>".

Definition pdf_of (text : string) : string := "%PDF-1.7 " +:+ html_of text.

(** One turn of the first loop on the files [m] of directory [d], the
    tools working: a document whose source is missing is skipped; for the
    others the converter writes the intermediate file, the renderer the
    PDF, and the intermediate file is removed. *)
Definition build_one (d : string) (m : gmap (string * string) string)
    (doc : string * string) : gmap (string * string) string :=
  match m !! (d, doc.1) with
  | Some text =>
      delete (d, html_file_of doc.1)
        (<[(d, doc.2) := pdf_of text]>
           (<[(d, html_file_of doc.1) := html_of text]> m))
  | None => m
  end.

(** The first loop: the documents in the order of the list. *)
Definition build (d : string) (m : gmap (string * string) string)
    (docs : list (string * string)) : gmap (string * string) string :=
  foldl (build_one d) m docs.

(** The result of the job of a document: it succeeds when the source is
    there. *)
Definition built (d : string) (m : gmap (string * string) string)
    (doc : string * string) : ConversionResult :=
  match m !! (d, doc.1) with
  | Some _ => Succeeded
  | None => SourceMissing
  end.

(** A document is settled when there is nothing left to do for it: its
    source is missing, or its PDF is the one the tools make of the source
    and no intermediate file is left. *)
Definition settled (d : string) (m : gmap (string * string) string)
    (doc : string * string) : Prop :=
  match m !! (d, doc.1) with
  | Some text =>
      m !! (d, doc.2) = Some (pdf_of text) ∧ m !! (d, html_file_of doc.1) = None
  | None => True
  end.

#[global] Instance settled_dec d m doc : Decision (settled d m doc).
Proof. unfold settled. destruct (m !! (d, doc.1)); apply _. Defined.

(** Names that are apart: they are [separate], and no source is among
    the files the batch writes. *)
Definition apart (docs : list (string * string)) : Prop :=
  separate docs ∧ Forall (λ doc, doc.1 ∉ artifacts docs) docs.

(** ** The files of a batch, as a function *)

Section build.
Context (d : string).
Implicit Types (m : gmap (string * string) string).
Implicit Types (doc : string * string) (docs : list (string * string)).

Lemma build_one_frame m doc p :
  p ≠ html_file_of doc.1 → p ≠ doc.2 →
  build_one d m doc !! (d, p) = m !! (d, p).
Proof.
  intros Hh Hp. unfold build_one. destruct (m !! (d, doc.1)); [|done].
  by rewrite lookup_delete_ne, !lookup_insert_ne by congruence.
Qed.

Lemma not_elem_of_pair (p a b : string) : p ∉ ({[a; b]} : gset string) → p ≠ a ∧ p ≠ b.
Proof. by intros [?%not_elem_of_singleton ?%not_elem_of_singleton]%not_elem_of_union. Qed.

(** The loop leaves what is not an artifact of its documents. *)
Lemma build_frame m docs p :
  p ∉ artifacts docs → build d m docs !! (d, p) = m !! (d, p).
Proof.
  revert m. induction docs as [|doc docs IH]; intros m; [done|].
  rewrite artifacts_cons. intros [[??]%not_elem_of_pair ?]%not_elem_of_union.
  cbn [build foldl]. fold (build d (build_one d m doc) docs).
  rewrite IH by done. by apply build_one_frame.
Qed.

(** A turn settles its document. *)
Lemma build_one_settled m doc :
  doc.2 ≠ html_file_of doc.1 → doc.1 ≠ html_file_of doc.1 → doc.1 ≠ doc.2 →
  settled d (build_one d m doc) doc.
Proof.
  intros Hne Hh Hp. unfold settled. rewrite build_one_frame by done.
  unfold build_one. destruct (m !! (d, doc.1)) as [text|]; [|done].
  rewrite lookup_delete_ne, lookup_insert_eq, lookup_delete_eq by congruence.
  done.
Qed.

(** A turn for a settled document changes nothing. *)
Lemma settled_build_one m doc :
  doc.2 ≠ html_file_of doc.1 → settled d m doc → build_one d m doc = m.
Proof.
  unfold settled, build_one. intros Hne.
  destruct (m !! (d, doc.1)) as [text|]; [|done]. intros [Hp Hh].
  rewrite delete_insert_ne, delete_insert_id by congruence.
  by apply insert_id.
Qed.

(** Being settled is a matter of three files. *)
Lemma settled_ext m m' doc :
  m' !! (d, doc.1) = m !! (d, doc.1) → m' !! (d, doc.2) = m !! (d, doc.2) →
  m' !! (d, html_file_of doc.1) = m !! (d, html_file_of doc.1) →
  settled d m doc → settled d m' doc.
Proof. unfold settled. by intros -> -> ->. Qed.

(** After the loop over names that are apart every document is
    settled. *)
Lemma build_settled m docs : apart docs → Forall (settled d (build d m docs)) docs.
Proof.
  revert m. induction docs as [|doc docs IH]; intros m [Hsep Hsrc]; [done|].
  destruct Hsep as (Hne & Hp & Hh & Hsep).
  apply Forall_cons in Hsrc as [Hs Hsrc]. rewrite artifacts_cons in Hs.
  apply not_elem_of_union in Hs as [[??]%not_elem_of_pair Hs].
  cbn [build foldl]. fold (build d (build_one d m doc) docs). constructor.
  - apply (settled_ext (build_one d m doc)); [by apply build_frame..|].
    by apply build_one_settled.
  - apply IH. split; [done|]. eapply Forall_impl; [exact Hsrc|].
    intros doc' Hd. rewrite artifacts_cons in Hd.
    by apply not_elem_of_union in Hd as [_ ?].
Qed.

(** The loop over settled documents changes nothing. *)
Lemma settled_build m docs :
  Forall (λ doc, doc.2 ≠ html_file_of doc.1) docs →
  Forall (settled d m) docs → build d m docs = m.
Proof.
  induction docs as [|doc docs IH]; [done|].
  intros [Hne ?]%Forall_cons [Hs ?]%Forall_cons. cbn [build foldl].
  rewrite settled_build_one by done. by apply IH.
Qed.

Lemma separate_distinct docs :
  separate docs → Forall (λ doc, doc.2 ≠ html_file_of doc.1) docs.
Proof.
  induction docs as [|doc docs IH]; [done|]. intros (? & _ & _ & ?).
  constructor; auto.
Qed.

(** The loop run again over names that are apart changes nothing. *)
Lemma build_idemp m docs : apart docs → build d (build d m docs) docs = build d m docs.
Proof.
  intros Ha. apply settled_build; [apply separate_distinct, Ha|].
  by apply build_settled.
Qed.

End build.

(** ** The script with the tools of [ideal] *)

Section ideal.
Implicit Types (m : gmap (string * string) string) (w : world).
Implicit Types (doc : string * string) (docs : list (string * string)).

(** The converter that works, on the command line of the script. *)
Lemma pandoc_ok_cmd d m md text :
  md ≠ "-o" → m !! (d, md) = Some text →
  Toolsets.pandoc_ok (cmd_html md (html_file_of md)) d m =
    (Val (CompletedProcess 0 "" ""), <[(d, html_file_of md) := html_of text]> m).
Proof.
  intros Hmd Hs. unfold Toolsets.pandoc_ok. rewrite cmd_html_output by done.
  cbn [cmd_html lookup list_lookup]. by rewrite Hs.
Qed.

(** A job with the tools of [ideal]. *)
Lemma ideal_job d m doc :
  doc.1 ≠ "-o" →
  job (T:=Toolsets.ideal) d m doc = (Val (built d m doc), build_one d m doc).
Proof.
  intros Hmd. unfold job, built, build_one.
  destruct (m !! (d, doc.1)) as [text|] eqn:Hs; [|done].
  cbn [spawn Toolsets.ideal]. rewrite (pandoc_ok_cmd _ _ _ text) by done.
  cbn [returncode]. rewrite bool_decide_true by done.
  unfold render_step. cbn [weasyprint_import render_pdf Toolsets.ideal].
  unfold Toolsets.weasy_ok. rewrite lookup_insert_eq.
  destruct (decide (doc.2 = html_file_of doc.1)) as [->|Hne].
  - by rewrite lookup_insert_eq.
  - by rewrite lookup_insert_ne, lookup_insert_eq by congruence.
Qed.

(** The run of the jobs with the tools of [ideal]: it ends, no job fails for
    another reason than a missing source, and the files are those of
    [build]. *)
Lemma ideal_run_jobs d m docs :
  Forall (λ doc, doc.1 ≠ "-o") docs →
  ∃ rs, run_jobs (T:=Toolsets.ideal) d m docs = (Val rs, build d m docs) ∧
        Forall (λ r, r = Succeeded ∨ r = SourceMissing) rs.
Proof.
  revert m. induction docs as [|doc docs IH]; intros m; [by exists []|].
  intros [Hmd Hj]%Forall_cons. cbn [run_jobs build foldl].
  rewrite ideal_job by done. destruct (IH (build_one d m doc) Hj) as (rs & -> & Hrs).
  eexists. split; [done|]. constructor; [|done].
  unfold built. destruct (m !! (d, doc.1)); auto.
Qed.

(** The script changes the set of directories in no way. *)
Lemma main_on_dirs `{T : Tools} dir docs w : dirs (main_on dir docs w).2 = dirs w.
Proof.
  rewrite main_on_run. case_bool_decide; [|done].
  pose proof (preserves_run same_dirs _ (started dir w)
                (preserves_for_each same_dirs convert_one docs (0, 0)
                   (λ c doc, convert_one_same_dirs c doc))) as Hd.
  by destruct (for_each convert_one docs _ _) as [[[s f]|e] w2].
Qed.

(** The script can be started from any directory: it changes to its own
    before anything else. *)
Lemma main_on_from_anywhere `{T : Tools} dir docs w d :
  dir ∈ dirs w → main_on dir docs (with_cwd d w) = main_on dir docs w.
Proof. intros Hd. by rewrite !main_on_run, !bool_decide_true by done. Qed.

(** With the tools of [ideal] the batch returns and leaves the files of
    [build]. *)
Lemma ideal_main_on dir docs w :
  dir ∈ dirs w → Forall (λ doc, doc.1 ≠ "-o") docs →
  (main_on (T:=Toolsets.ideal) dir docs w).1 = Val () ∧
  fs (main_on (T:=Toolsets.ideal) dir docs w).2 = build dir (fs w) docs.
Proof.
  intros Hd Hj. destruct (ideal_run_jobs dir (fs w) docs Hj) as (rs & Hr & _).
  by apply (main_on_run_jobs (T:=Toolsets.ideal)) in Hr.
Qed.

(** C25. The batch run again changes nothing, for one toolset.  With
    the tools of [Toolsets.ideal] (a converter that wraps the text of its
    source and a renderer that prefixes what it is given, both succeeding
    on every file that exists; no claim is made for other tools), a
    directory that exists, no source named [-o] and names that are apart,
    [main_on] returns and leaves the files of [build]: for each document
    whose source is there, the PDF these tools make of it and no
    intermediate file.  A second run from the world the first has left
    returns as well and leaves the files as the first left them. *)
Theorem main_on_rerun dir docs w :
  dir ∈ dirs w → Forall (λ doc, doc.1 ≠ "-o") docs → apart docs →
  let w1 := (main_on (T:=Toolsets.ideal) dir docs w).2 in
  (main_on (T:=Toolsets.ideal) dir docs w).1 = Val () ∧
  fs w1 = build dir (fs w) docs ∧
  (main_on (T:=Toolsets.ideal) dir docs w1).1 = Val () ∧
  fs (main_on (T:=Toolsets.ideal) dir docs w1).2 = fs w1.
Proof.
  intros Hd Hj Ha w1. destruct (ideal_main_on dir docs w Hd Hj) as [Hv Hf].
  destruct (ideal_main_on dir docs w1) as [Hv1 Hf1]; [|done|].
  { subst w1. by rewrite main_on_dirs. }
  split_and!; [done..|]. subst w1. rewrite Hf1, Hf. by apply build_idemp.
Qed.

(** The names of the hard-coded list are apart: [main] itself can be
    run again. *)
Lemma documents_apart : apart documents.
Proof.
  split; [apply documents_separate|].
  repeat constructor; unfold artifacts; rewrite elem_of_list_to_set;
    apply (bool_decide_unpack _); by vm_compute.
Qed.

End ideal.

(** ** The theorems at work *)

Lemma main_on_rerun_witness :
  let w1 := (main_on (T:=Toolsets.ideal) "/docs" two_docs Toolsets.sample).2 in
  (main_on (T:=Toolsets.ideal) "/docs" two_docs Toolsets.sample).1 = Val () ∧
  fs w1 = build "/docs" (fs Toolsets.sample) two_docs ∧
  (main_on (T:=Toolsets.ideal) "/docs" two_docs w1).1 = Val () ∧
  fs (main_on (T:=Toolsets.ideal) "/docs" two_docs w1).2 = fs w1.
Proof.
  apply (main_on_rerun "/docs" two_docs Toolsets.sample).
  - by vm_compute.
  - repeat constructor; done.
  - split; [|repeat constructor]; cbn; unfold artifacts;
      rewrite ?elem_of_list_to_set; repeat split;
      apply (bool_decide_unpack _); by vm_compute.
Defined.
